(** * C-SerialMonitor: a shallow embedding of the Python sources

    The development follows the repository module by module:
    [theme_manager.py], [preset_manager.py], [serial_config.py],
    [serial_threads.py], [connection_manager.py] and the parts of
    [main_app.py] that format, send and redraw data.  Definitions come
    first, the theorems about them follow. *)

From Stdlib Require Import ZArith NArith List Bool Lia.
From Stdlib Require Import Strings.Ascii Strings.String Strings.Byte.
From Stdlib Require Import Floats.PrimFloat Floats.FloatOps Floats.SpecFloat.
From Stdlib Require Import Numbers.Cyclic.Int63.Uint63.
From stdpp Require Import base option gmap strings list pretty.

Local Open Scope string_scope.

(** ** Python values, exceptions and string helpers *)

Module Py.

(** The exception classes the sources raise or catch.  Every exception
    carries the text that [str(e)] returns. *)
Inductive exn : Type :=
| Exception_ (msg : string)
| ValueError (msg : string)
| TypeError (msg : string)
| LookupError (msg : string)
| FileNotFoundError (msg : string)
| IsADirectoryError (msg : string)
| NotADirectoryError (msg : string)
| UnicodeDecodeError (msg : string)
| OverflowError (msg : string)
| OSError (msg : string)
| RuntimeError (msg : string)
| BluetoothError (msg : string)
| ConnectionError (msg : string).

Definition str_exn (e : exn) : string :=
  match e with
  | Exception_ m | ValueError m | TypeError m | LookupError m
  | FileNotFoundError m | IsADirectoryError m | NotADirectoryError m
  | UnicodeDecodeError m
  | OverflowError m | OSError m | RuntimeError m | BluetoothError m
  | ConnectionError m => m
  end.

(** The outcome of a call: a returned value or a raised exception. *)
Inductive result (A : Type) : Type :=
| Ok (a : A)
| Raise (e : exn).
Arguments Ok {A} a.
Arguments Raise {A} e.

#[export] Instance result_ret : MRet result := fun A a => Ok a.

#[export] Instance result_bind : MBind result := fun A B k r =>
  match r with
  | Ok a => k a
  | Raise e => Raise e
  end.

#[export] Instance result_fmap : FMap result := fun A B f r =>
  match r with
  | Ok a => Ok (f a)
  | Raise e => Raise e
  end.

Definition is_ok {A} (r : result A) : bool :=
  match r with Ok _ => true | Raise _ => false end.

(** [sep.join(parts)] *)
Fixpoint join (sep : string) (parts : list string) : string :=
  match parts with
  | [] => ""
  | [p] => p
  | p :: rest => p +:+ sep +:+ join sep rest
  end.

(** [s.replace(old, new)] for a one-character [old]. *)
Fixpoint replace_char (old : ascii) (new : string) (s : string) : string :=
  match s with
  | "" => ""
  | String c s' =>
      if Ascii.eqb c old then new +:+ replace_char old new s'
      else String c (replace_char old new s')
  end.

(** [c.lower()] and [s.lower()] on the ASCII letters.  Characters
    outside ASCII are kept: the only non-ASCII character whose Unicode
    lower case is an ASCII letter is the Kelvin sign (to [k]), and no
    key this development compares against contains a [k]. *)
Definition lower_char (c : ascii) : ascii :=
  let n := N_of_ascii c in
  if ((65 <=? n) && (n <=? 90))%N then ascii_of_N (n + 32) else c.

Fixpoint lower (s : string) : string :=
  match s with
  | "" => ""
  | String c s' => String (lower_char c) (lower s')
  end.

(** [s.endswith(c)] for a one-character suffix. *)
Fixpoint endswith_char (s : string) (c : ascii) : bool :=
  match s with
  | "" => false
  | String d "" => Ascii.eqb d c
  | String _ s' => endswith_char s' c
  end.

(** [c in s] for a character [c]. *)
Fixpoint contains_char (c : ascii) (s : string) : bool :=
  match s with
  | "" => false
  | String d s' => Ascii.eqb d c || contains_char c s'
  end.

(** Truth value of a [str]: non-empty. *)
Definition truthy_str (s : string) : bool :=
  match s with "" => false | _ => true end.

(** [x in l] for a list of strings. *)
Definition str_in (x : string) (l : list string) : bool :=
  bool_decide (x ∈ l).

(** [d.get(key)] on a dictionary kept as an association list, which
    also records the declaration order of the keys. *)
Fixpoint dict_get {V} (d : list (string * V)) (key : string) : option V :=
  match d with
  | [] => None
  | (k, v) :: rest => if String.eqb k key then Some v else dict_get rest key
  end.

(** Line feed and carriage return. *)
Definition LF : ascii := "010"%char.
Definition CR : ascii := "013"%char.
Definition nl : string := String LF "".

(** [s.rstrip(c)] for a one-character set: every trailing [c] goes. *)
Fixpoint rstrip_char (c : ascii) (s : string) : string :=
  match s with
  | "" => ""
  | String d s' =>
      match rstrip_char c s' with
      | "" => if Ascii.eqb d c then "" else String d ""
      | r => String d r
      end
  end.

End Py.

Export Py.

(** ** Bytes in hexadecimal *)

Module Hex.

(** One upper-case hexadecimal digit, for a value below 16. *)
Definition upper_digit (n : N) : ascii :=
  match n with
  | 0 => "0" | 1 => "1" | 2 => "2" | 3 => "3" | 4 => "4" | 5 => "5"
  | 6 => "6" | 7 => "7" | 8 => "8" | 9 => "9" | 10 => "A" | 11 => "B"
  | 12 => "C" | 13 => "D" | 14 => "E" | _ => "F"
  end%N%char.

(** One lower-case hexadecimal digit. *)
Definition lower_digit (n : N) : ascii :=
  match n with
  | 0 => "0" | 1 => "1" | 2 => "2" | 3 => "3" | 4 => "4" | 5 => "5"
  | 6 => "6" | 7 => "7" | 8 => "8" | 9 => "9" | 10 => "a" | 11 => "b"
  | 12 => "c" | 13 => "d" | 14 => "e" | _ => "f"
  end%N%char.

(** [f'{b:02X}'] for a byte. *)
Definition format_02X (b : byte) : string :=
  let n := Byte.to_N b in
  String (upper_digit (n / 16)) (String (upper_digit (n mod 16)) "").

(** [' '.join([f'{b:02X}' for b in data]) + ' '] *)
Definition hex_line (data : list byte) : string :=
  Py.join " " (map format_02X data) +:+ " ".

(** The rendering in the words of the specification: the upper-case
    two-digit pairs, each followed by a space.  It is compared with
    [hex_line] below. *)
Fixpoint spec_spaced_pairs (data : list byte) : string :=
  match data with
  | [] => ""
  | b :: rest => format_02X b +:+ " " +:+ spec_spaced_pairs rest
  end.

(** [bytes.hex()]: two lower-case digits per byte, no separator. *)
Fixpoint bytes_hex (data : list byte) : string :=
  match data with
  | [] => ""
  | b :: rest =>
      let n := Byte.to_N b in
      String (lower_digit (n / 16))
        (String (lower_digit (n mod 16)) (bytes_hex rest))
  end.

(** Value of a hexadecimal digit, either case. *)
Definition digit_value (c : ascii) : option N :=
  let n := N_of_ascii c in
  if ((48 <=? n) && (n <=? 57))%N then Some (n - 48)%N
  else if ((65 <=? n) && (n <=? 70))%N then Some (n - 55)%N
  else if ((97 <=? n) && (n <=? 102))%N then Some (n - 87)%N
  else None.

(** ASCII white space, which [bytes.fromhex] skips between pairs:
    space, tab, line feed, vertical tab, form feed, carriage return. *)
Definition isspace (c : ascii) : bool :=
  let n := N_of_ascii c in
  ((n =? 32) || ((9 <=? n) && (n <=? 13)))%N.

Definition fromhex_error (pos : nat) : exn :=
  ValueError ("non-hexadecimal number found in fromhex() arg at position "
              +:+ pretty pos).

(** [bytes.fromhex(s)], reading from position [pos]: white space is
    skipped before a pair, the two digits of a pair are adjacent, and
    anything else raises [ValueError]. *)
Fixpoint fromhex_from (pos : nat) (s : string) : result (list byte) :=
  match s with
  | "" => Ok []
  | String c s' =>
      if isspace c then fromhex_from (S pos) s'
      else
        match digit_value c with
        | None => Raise (fromhex_error pos)
        | Some hi =>
            match s' with
            | "" => Raise (fromhex_error (S pos))
            | String d s'' =>
                match digit_value d with
                | None => Raise (fromhex_error (S pos))
                | Some lo =>
                    match Byte.of_N (hi * 16 + lo) with
                    | None => Raise (fromhex_error pos)
                    | Some b =>
                        rest ← fromhex_from (S (S pos)) s'';
                        Ok (b :: rest)
                    end
                end
            end
        end
  end.

Definition fromhex (s : string) : result (list byte) := fromhex_from 0 s.

End Hex.

(** ** theme_manager.py *)

Module ThemeManager.

(** A theme: eleven colour roles, each a hex RGB string. *)
Record palette : Type := Palette {
  PRIMARY : string;
  SECONDARY : string;
  ACCENT : string;
  LIGHT : string;
  DARK : string;
  SUCCESS : string;
  WARNING : string;
  INFO : string;
  SEND_AREA : string;
  RECEIVE_AREA : string;
  GROUP_BOX : string
}.

#[export] Instance palette_eq_dec : EqDecision palette.
Proof. solve_decision. Defined.

(** The module-level dictionary [THEMES], in declaration order. *)
Definition THEMES : list (string * palette) :=
  [ ("粉色", Palette "#F8C8DC" "#FF69B4" "#FF1493" "#FFF0F5" "#C71585"
              "#98FB98" "#FFD700" "#87CEFA" "#FFE4E6" "#FFF0F5" "#FFB6C1");
    ("青色", Palette "#E0FFFF" "#00CED1" "#008B8B" "#E0FFFF" "#008B8B"
              "#98FB98" "#FFD700" "#87CEFA" "#E0FFFF" "#E0FFFF" "#AFEEEE");
    ("蓝色", Palette "#E6EEF7" "#4682B4" "#1E3A8A" "#F0F8FF" "#0A2463"
              "#98FB98" "#FFD700" "#87CEFA" "#E6EEF7" "#F0F8FF" "#B0C4DE");
    ("紫色", Palette "#E6E6FA" "#9370DB" "#483D8B" "#F8F8FF" "#483D8B"
              "#98FB98" "#FFD700" "#87CEFA" "#E6E6FA" "#F8F8FF" "#DDA0DD");
    ("红色", Palette "#FFE4E1" "#CD5C5C" "#8B0000" "#FFF5F5" "#8B0000"
              "#98FB98" "#FFD700" "#87CEFA" "#FFE4E1" "#FFF5F5" "#F08080");
    ("黑色", Palette "#2C2C2C" "#4A4A4A" "#708090" "#1A1A1A" "#F0F0F0"
              "#00FF00" "#FFFF00" "#1E90FF" "#2C2C2C" "#1A1A1A" "#4A4A4A");
    ("白色", Palette "#FFFFFF" "#F0F0F0" "#C0C0C0" "#FFFFFF" "#000000"
              "#008000" "#FFA500" "#0000FF" "#FFFFFF" "#FFFFFF" "#F0F0F0");
    ("绿色", Palette "#E8F5E9" "#4CAF50" "#2E7D32" "#F1F8E9" "#1B5E20"
              "#81C784" "#FFD700" "#87CEFA" "#E8F5E9" "#F1F8E9" "#C8E6C9") ].

(** The initial value of the global: [current_theme = THEMES["蓝色"]]. *)
Definition initial_theme : palette :=
  default (Palette "" "" "" "" "" "" "" "" "" "" "") (Py.dict_get THEMES "蓝色").

(** [ThemeManager.get_theme(name=None)], reading the global
    [current_theme]. *)
Definition get_theme (current_theme : palette) (name : option string)
  : palette :=
  match name with
  | Some n =>
      if Py.truthy_str n then default current_theme (Py.dict_get THEMES n)
      else current_theme
  | None => current_theme
  end.

(** [ThemeManager.set_theme(name)]: the returned flag and the new value
    of the global [current_theme]. *)
Definition set_theme (current_theme : palette) (name : string)
  : bool * palette :=
  match Py.dict_get THEMES name with
  | Some p => (true, p)
  | None => (false, current_theme)
  end.

(** [ThemeManager.get_all_themes()] *)
Definition get_all_themes : list string := map fst THEMES.

(** The palette table as the specification prints it among the runtime
    parameter domains, by English theme name, the roles in the order
    PRIMARY/SECONDARY/ACCENT/LIGHT/DARK/SUCCESS/WARNING/INFO/SEND_AREA/
    RECEIVE_AREA/GROUP_BOX.  It is compared with [THEMES] below. *)
Definition spec_palette_table : list (string * palette) :=
  [ ("blue", Palette "#E6EEF7" "#4682B4" "#1E3A8A" "#F0F8FF" "#0A2463"
              "#98FB98" "#FFD700" "#87CEFA" "#E6EEF7" "#F0F8FF" "#B0C4DE");
    ("pink", Palette "#F8C8DC" "#FF69B4" "#FF1493" "#FFF0F5" "#C71585"
              "#98FB98" "#FFD700" "#87CEFA" "#FFE4E6" "#FFF0F5" "#FFB6C1");
    ("cyan", Palette "#E0FFFF" "#00CED1" "#008B8B" "#E0FFFF" "#008B8B"
              "#98FB98" "#FFD700" "#87CEFA" "#E0FFFF" "#E0FFFF" "#AFEEEE");
    ("purple", Palette "#E6E6FA" "#9370DB" "#483D8B" "#F8F8FF" "#483D8B"
              "#98FB98" "#FFD700" "#87CEFA" "#E6E6FA" "#F8F8FF" "#DDA0DD");
    ("red", Palette "#FFE4E1" "#CD5C5C" "#8B0000" "#FFF5F5" "#8B0000"
              "#98FB98" "#FFD700" "#87CEFA" "#FFE4E1" "#FFF5F5" "#F08080");
    ("black", Palette "#2C2C2C" "#4A4A4A" "#708090" "#1A1A1A" "#F0F0F0"
              "#00FF00" "#FFFF00" "#1E90FF" "#2C2C2C" "#1A1A1A" "#4A4A4A");
    ("white", Palette "#FFFFFF" "#F0F0F0" "#C0C0C0" "#FFFFFF" "#000000"
              "#008000" "#FFA500" "#0000FF" "#FFFFFF" "#FFFFFF" "#F0F0F0");
    ("green", Palette "#E8F5E9" "#4CAF50" "#2E7D32" "#F1F8E9" "#1B5E20"
              "#81C784" "#FFD700" "#87CEFA" "#E8F5E9" "#F1F8E9" "#C8E6C9") ].

(** The eight theme names: pink, cyan, blue, purple, red, black, white
    and green. *)
Definition eight_names : list string :=
  [ "粉色"; "青色"; "蓝色"; "紫色"; "红色"; "黑色"; "白色"; "绿色" ].

(** The spec's English names for the keys of [THEMES]. *)
Definition english_name (key : string) : option string :=
  Py.dict_get [ ("粉色", "pink"); ("青色", "cyan"); ("蓝色", "blue");
             ("紫色", "purple"); ("红色", "red"); ("黑色", "black");
             ("白色", "white"); ("绿色", "green") ] key.

End ThemeManager.

(** ** Files: the part of [os], [os.path] and [open] the sources use

    The POSIX flavour is modelled: [os.path] is [posixpath] and
    [os.linesep] is a line feed, so that writing text leaves it as it is.
    A text file is read with universal newlines, as [open(path, 'r')]
    does.  A [str] is represented by the bytes of its UTF-8 encoding;
    reading a file as UTF-8 checks that its bytes are well formed.

    For reading, the file system is taken as path resolution shows it:
    which path names a regular file, and with what content, and which
    names a directory.  Writing is not computed from that view: whether
    a directory can be made and a file opened for writing is for the
    operating system to say, and the methods that write take what it
    says as an argument. *)

Module OS.

(** [files] gives the content of the regular file a path names, [dirs]
    the size that [stat] reports for the directory a path names. *)
Record fs : Type := FS {
  files : gmap string (list byte);
  dirs : gmap string Z
}.

(** [os.path.exists(p)] *)
Definition path_exists (f : fs) (p : string) : bool :=
  Py.truthy_str p
  && (bool_decide (is_Some (files f !! p))
      || bool_decide (is_Some (dirs f !! p))).

(** [p[:p.rfind('/') + 1]] *)
Fixpoint upto_last_sep (p : string) : string :=
  match p with
  | "" => ""
  | String c p' =>
      match upto_last_sep p' with
      | "" => if Ascii.eqb c "/" then "/" else ""
      | h => String c h
      end
  end.

Fixpoint all_sep (s : string) : bool :=
  match s with
  | "" => true
  | String c s' => Ascii.eqb c "/" && all_sep s'
  end.

(** [os.path.dirname(p)] *)
Definition dirname (p : string) : string :=
  let head := upto_last_sep p in
  if Py.truthy_str head && negb (all_sep head)
  then Py.rstrip_char "/" head else head.

Definition not_found (p : string) : exn :=
  FileNotFoundError ("[Errno 2] No such file or directory: '" +:+ p +:+ "'").

Definition is_a_directory (p : string) : exn :=
  IsADirectoryError ("[Errno 21] Is a directory: '" +:+ p +:+ "'").

(** [os.path.getsize(p)]: the size of the file, or the size that
    [stat] reports for a directory. *)
Definition getsize (f : fs) (p : string) : result Z :=
  if negb (Py.truthy_str p) then Raise (not_found p)
  else
    match files f !! p with
    | Some content => Ok (Z.of_nat (length content))
    | None =>
        match dirs f !! p with
        | Some size => Ok size
        | None => Raise (not_found p)
        end
    end.

(** Opening for reading, text or binary: the content of the file. *)
Definition open_read (f : fs) (p : string) : result (list byte) :=
  if negb (Py.truthy_str p) then Raise (not_found p)
  else
    match files f !! p with
    | Some content => Ok content
    | None =>
        if bool_decide (is_Some (dirs f !! p)) then Raise (is_a_directory p)
        else Raise (not_found p)
    end.

(** Well-formed UTF-8, as the strict decoder of Python takes it: no
    overlong form, no surrogate, nothing above U+10FFFF.  The states say
    what the bytes read so far still call for. *)
Inductive utf8_state : Type :=
| Start
| Need1 | Need2 | Need3
| AfterE0 | AfterED | AfterF0 | AfterF4.

Definition between (lo hi n : N) : bool := ((lo <=? n) && (n <=? hi))%N.

Definition utf8_next (s : utf8_state) (n : N) : option utf8_state :=
  match s with
  | Start =>
      if (n <? 128)%N then Some Start
      else if between 194 223 n then Some Need1
      else if (n =? 224)%N then Some AfterE0
      else if between 225 236 n || between 238 239 n then Some Need2
      else if (n =? 237)%N then Some AfterED
      else if (n =? 240)%N then Some AfterF0
      else if between 241 243 n then Some Need3
      else if (n =? 244)%N then Some AfterF4
      else None
  | Need1 => if between 128 191 n then Some Start else None
  | Need2 => if between 128 191 n then Some Need1 else None
  | Need3 => if between 128 191 n then Some Need2 else None
  | AfterE0 => if between 160 191 n then Some Need1 else None
  | AfterED => if between 128 159 n then Some Need1 else None
  | AfterF0 => if between 144 191 n then Some Need2 else None
  | AfterF4 => if between 128 143 n then Some Need2 else None
  end.

Fixpoint utf8_run (s : utf8_state) (content : list byte) : bool :=
  match content with
  | [] => match s with Start => true | _ => false end
  | b :: rest =>
      match utf8_next s (Byte.to_N b) with
      | Some s' => utf8_run s' rest
      | None => false
      end
  end.

Definition utf8_valid (content : list byte) : bool := utf8_run Start content.

(** What [encoding='utf-8'] does to the bytes of a file that is read:
    well-formed bytes are the text they represent, anything else raises
    [UnicodeDecodeError].  The text of that error names the offending
    byte and its place in the block being decoded; it is left to
    [message]. *)
Definition decode_utf8 (message : list byte -> string) (content : list byte)
  : result string :=
  if utf8_valid content then Ok (string_of_list_byte content)
  else Raise (UnicodeDecodeError (message content)).

(** Universal newlines: on reading, [\r\n] and a lone [\r] become
    [\n]. *)
Fixpoint universal_newlines (s : string) : string :=
  match s with
  | "" => ""
  | String c s' =>
      if Ascii.eqb c Py.CR then
        match s' with
        | "" => Py.nl
        | String d s'' =>
            if Ascii.eqb d Py.LF
            then String Py.LF (universal_newlines s'')
            else String Py.LF (universal_newlines s')
        end
      else String c (universal_newlines s')
  end.

(** The lines of a text, each with its terminating line feed when it
    has one: what iterating over a text file yields. *)
Fixpoint iter_lines (s : string) : list string :=
  match s with
  | "" => []
  | String c s' =>
      if Ascii.eqb c Py.LF then Py.nl :: iter_lines s'
      else
        match iter_lines s' with
        | [] => [String c ""]
        | l :: ls => String c l :: ls
        end
  end.

(** The text of lines that each end in a line feed. *)
Fixpoint unlines (lines : list string) : string :=
  match lines with
  | [] => ""
  | l :: rest => l +:+ Py.nl +:+ unlines rest
  end.

(** [for line in f] on the decoded text of a file opened with
    [open(p, 'r', encoding='utf-8')]. *)
Definition text_lines (text : string) : list string :=
  iter_lines (universal_newlines text).


(** How a line of a text file ends: with a line feed, or with a carriage
    return and a line feed as files written on Windows do. *)
Inductive terminator : Type := Unix | Windows.

Definition terminator_text (t : terminator) : string :=
  match t with
  | Unix => Py.nl
  | Windows => String Py.CR Py.nl
  end.

(** The text of lines that each end in a terminator of their own. *)
Fixpoint terminated_lines (lines : list (string * terminator)) : string :=
  match lines with
  | [] => ""
  | (l, t) :: rest => l +:+ terminator_text t +:+ terminated_lines rest
  end.

End OS.

(** ** preset_manager.py *)

Module PresetManager.

Record t : Type := Mk {
  presets : list string;
  default_presets : list string
}.

Definition builtin_defaults : list string :=
  [ "Hello, World!"; "Serial communication test"; "1234567890" ].

(** [PresetManager(default_presets=None)]: [default_presets or [...]]
    takes the built-in list for [None] and for an empty list. *)
Definition init (default : option (list string)) : t :=
  let d := match default with
           | Some (x :: l) => x :: l
           | _ => builtin_defaults
           end in
  Mk d d.

Definition load_default_presets (pm : t) : t :=
  Mk (default_presets pm) (default_presets pm).

(** [add_preset(preset_text)] *)
Definition add_preset (pm : t) (preset_text : string) : bool * t :=
  if Py.truthy_str preset_text && negb (Py.str_in preset_text (presets pm))
  then (true, Mk (presets pm ++ [preset_text])%list (default_presets pm))
  else (false, pm).

(** [edit_preset(index, new_text)] *)
Definition edit_preset (pm : t) (index : Z) (new_text : string) : bool * t :=
  if (0 <=? index)%Z && (index <? Z.of_nat (length (presets pm)))%Z
     && Py.truthy_str new_text
  then (true, Mk (<[ Z.to_nat index := new_text ]> (presets pm))
                 (default_presets pm))
  else (false, pm).

(** [delete_preset(index)] *)
Definition delete_preset (pm : t) (index : Z) : bool * t :=
  if (0 <=? index)%Z && (index <? Z.of_nat (length (presets pm)))%Z
  then (true, Mk (delete (Z.to_nat index) (presets pm)) (default_presets pm))
  else (false, pm).

(** [get_preset(index)] *)
Definition get_preset (pm : t) (index : Z) : option string :=
  if (0 <=? index)%Z && (index <? Z.of_nat (length (presets pm)))%Z
  then presets pm !! Z.to_nat index
  else None.

Definition get_all_presets (pm : t) : list string := presets pm.

Definition clear_all_presets (pm : t) : t := Mk [] (default_presets pm).

(** The [try] block of [load_presets_from_file]; [message] gives the
    text of the error of the UTF-8 decoder. *)
Definition load_body (message : list byte -> string) (pm : t) (f : OS.fs)
    (file_path : string) : result t :=
  if negb (OS.path_exists f file_path)
  then Raise (FileNotFoundError ("文件不存在: " +:+ file_path))
  else
    content ← OS.open_read f file_path;
    text ← OS.decode_utf8 message content;
    Ok (Mk (map (Py.rstrip_char Py.LF) (OS.text_lines text))
           (default_presets pm)).

(** [load_presets_from_file(file_path)]: any exception of the body is
    raised again as a plain [Exception] whose text wraps the original
    one; the manager is then as it was. *)
Definition load_presets_from_file (message : list byte -> string) (pm : t)
    (f : OS.fs) (file_path : string) : result bool * t :=
  match load_body message pm f file_path with
  | Ok pm' => (Ok true, pm')
  | Raise e => (Raise (Exception_ ("加载预设失败: " +:+ Py.str_exn e)), pm)
  end.

(** What the operating system does during one [save_presets_to_file]:
    [mkdir_failure] is what [os.makedirs] raises, [open_failure] what
    [open(file_path, 'w')] raises, and [write_failure = Some (k, e)]
    says that the write of preset number [k] raises [e]; with [k] the
    number of presets it is the closing of the file, which writes out
    what is left, that raises. *)
Record save_env : Type := SaveEnv {
  mkdir_failure : option exn;
  open_failure : option exn;
  write_failure : option (nat * exn)
}.

(** Nothing fails. *)
Definition willing : save_env := SaveEnv None None None.

(** What a call has done to the file it was to write. *)
Inductive file_effect : Type :=
| Untouched
    (** it was not opened *)
| Holds (content : list byte)
    (** it was opened, which empties it, written and closed: this is
        its content *)
| Cut.
    (** it was opened, which empties it, and a write then raised: what
        it holds of the text written before is not said *)

(** What a call has done: the directory it made, if it made one, and
    the effect on the file. *)
Record saved : Type := Saved {
  made_directory : option string;
  file : file_effect
}.

(** The [for] loop of [save_presets_to_file] on the open file: the
    writes are numbered from [k] and [content] is what has been
    written. *)
Fixpoint write_all (env : save_env) (k : nat) (presets : list string)
    (content : list byte) : result unit * file_effect :=
  match presets with
  | [] =>
      match write_failure env with
      | Some (j, e) => if (j =? k)%nat then (Raise e, Cut)
                       else (Ok tt, Holds content)
      | None => (Ok tt, Holds content)
      end
  | preset :: rest =>
      match write_failure env with
      | Some (j, e) =>
          if (j =? k)%nat then (Raise e, Cut)
          else write_all env (S k) rest
                 (content ++ list_byte_of_string (preset +:+ Py.nl))%list
      | None =>
          write_all env (S k) rest
            (content ++ list_byte_of_string (preset +:+ Py.nl))%list
      end
  end.

(** The [try] block of [save_presets_to_file]. *)
Definition save_body (pm : t) (f : OS.fs) (env : save_env)
    (file_path : string) : result unit * saved :=
  match presets pm with
  | [] => (Raise (ValueError "没有预设可保存"), Saved None Untouched)
  | _ :: _ =>
      let directory := OS.dirname file_path in
      let missing := Py.truthy_str directory
                     && negb (OS.path_exists f directory) in
      match (if missing then mkdir_failure env else None) with
      | Some e => (Raise e, Saved None Untouched)
      | None =>
          let made := if missing then Some directory else None in
          match open_failure env with
          | Some e => (Raise e, Saved made Untouched)
          | None =>
              let '(r, effect) := write_all env 0 (presets pm) [] in
              (r, Saved made effect)
          end
      end
  end.

(** [save_presets_to_file(file_path)] *)
Definition save_presets_to_file (pm : t) (f : OS.fs) (env : save_env)
    (file_path : string) : result bool * saved :=
  match save_body pm f env file_path with
  | (Ok _, outcome) => (Ok true, outcome)
  | (Raise e, outcome) =>
      (Raise (Exception_ ("保存预设失败: " +:+ Py.str_exn e)), outcome)
  end.

(** A preset that holds no line break, neither a line feed nor a
    carriage return. *)
Definition one_line (preset : string) : Prop :=
  Py.contains_char Py.LF preset = false
  ∧ Py.contains_char Py.CR preset = false.

(** A byte of the UTF-8 representation that continues a character:
    10xxxxxx. *)
Definition is_continuation (c : ascii) : bool :=
  let n := N_of_ascii c in ((128 <=? n) && (n <? 192))%N.

(** [len(s)]: the characters of a [str], counted on its UTF-8
    representation by the bytes that start one. *)
Fixpoint str_len (s : string) : nat :=
  match s with
  | "" => 0
  | String c s' => if is_continuation c then str_len s' else S (str_len s')
  end.

(** [s[:n]]: the first [n] characters, each with its continuation
    bytes. *)
Fixpoint str_take (n : nat) (s : string) : string :=
  match s with
  | "" => ""
  | String c s' =>
      if is_continuation c then String c (str_take n s')
      else match n with
           | 0 => ""
           | S n' => String c (str_take n' s')
           end
  end.

(** [get_preset_display_text(preset_text)] *)
Definition get_preset_display_text (preset_text : string) : string :=
  if (50 <? str_len preset_text)%nat then str_take 50 preset_text +:+ "..."
  else preset_text.

End PresetManager.

(** ** serial_config.py *)

Module SerialConfig.

Definition ENCODING_OPTIONS : list (string * string) :=
  [ ("UTF-8", "utf-8");
    ("GBK (中文)", "gbk");
    ("GB2312 (中文)", "gb2312");
    ("ANSI (默认)", "latin-1");
    ("UTF-16", "utf-16");
    ("ASCII", "ascii");
    ("GB18030 (扩展中文)", "gb18030") ].

Definition ERROR_HANDLING_OPTIONS : list (string * string) :=
  [ ("替换错误 (�)", "replace");
    ("忽略错误", "ignore");
    ("严格模式 (报错)", "strict") ].

Definition get_encoding_options : list string := map fst ENCODING_OPTIONS.

Definition get_encoding_value (name : string) : string :=
  default "utf-8" (Py.dict_get ENCODING_OPTIONS name).

Definition get_error_handling_options : list string :=
  map fst ERROR_HANDLING_OPTIONS.

Definition get_error_handling_value (name : string) : string :=
  default "replace" (Py.dict_get ERROR_HANDLING_OPTIONS name).


(** One element of [get_available_ports()]:
    [f"{port.device} - {port.description}"]. *)
Definition port_label (device description : string) : string :=
  device +:+ " - " +:+ description.

End SerialConfig.

(** ** Codecs

    [bytes.decode] and [str.encode] belong to the Python library.  The
    workers and the window are modelled over an arbitrary decoder; the
    two single-byte codecs of the encoding table are written out, to
    evaluate the general results at concrete inputs. *)

Module Codec.

(** The type of [data.decode(encoding, errors=error_handling)]. *)
Definition decoder : Type := string -> string -> list byte -> result string.

Definition replacement_character : string :=
  String (ascii_of_N 239) (String (ascii_of_N 191) (String (ascii_of_N 189) "")).

Definition decode_error (codec : string) (b : byte) (pos : nat) (why : string)
  : exn :=
  let n := Byte.to_N b in
  UnicodeDecodeError
    ("'" +:+ codec +:+ "' codec can't decode byte 0x"
     +:+ String (Hex.lower_digit (n / 16))
           (String (Hex.lower_digit (n mod 16)) "")
     +:+ " in position " +:+ pretty pos +:+ ": " +:+ why).

(** The [ascii] codec under the three error policies of the table. *)
Fixpoint decode_ascii (errors : string) (pos : nat) (data : list byte)
  : result string :=
  match data with
  | [] => Ok ""
  | b :: rest =>
      if (Byte.to_N b <? 128)%N then
        s ← decode_ascii errors (S pos) rest;
        Ok (String (ascii_of_byte b) s)
      else if String.eqb errors "strict" then
        Raise (decode_error "ascii" b pos "ordinal not in range(128)")
      else if String.eqb errors "replace" then
        s ← decode_ascii errors (S pos) rest;
        Ok (replacement_character +:+ s)
      else if String.eqb errors "ignore" then
        decode_ascii errors (S pos) rest
      else
        Raise (LookupError ("unknown error handler name '" +:+ errors +:+ "'"))
  end.

(** The [latin-1] codec: every byte is a character; the ones from 128
    on take two bytes in the UTF-8 representation of the result. *)
Fixpoint decode_latin1 (data : list byte) : string :=
  match data with
  | [] => ""
  | b :: rest =>
      let n := Byte.to_N b in
      if (n <? 128)%N then String (ascii_of_byte b) (decode_latin1 rest)
      else String (ascii_of_N (192 + n / 64))
             (String (ascii_of_N (128 + n mod 64)) (decode_latin1 rest))
  end.

(** A decoder for the codecs [ascii] and [latin-1]; it does not know
    the other codecs of the table. *)
Definition decode_single_byte : decoder := fun encoding errors data =>
  if String.eqb encoding "ascii" then decode_ascii errors 0 data
  else if String.eqb encoding "latin-1" then Ok (decode_latin1 data)
  else Raise (LookupError ("unknown encoding: " +:+ encoding)).

(** [text.encode(encoding)] for a text of ASCII characters only, which
    is what [bytes.hex()] returns: one byte per character in the codecs
    of the table that extend ASCII, and a byte order mark followed by
    two bytes per character (little endian) in [utf-16]. *)
Definition encode_ascii_text (encoding : string) (text : string)
  : result (list byte) :=
  if bool_decide (encoding ∈ ["utf-8"; "gbk"; "gb2312"; "latin-1"; "ascii";
                              "gb18030"])
  then Ok (list_byte_of_string text)
  else if String.eqb encoding "utf-16"
  then Ok (Byte.xff :: Byte.xfe ::
           flat_map (fun b => [b; Byte.x00]) (list_byte_of_string text))
  else Raise (LookupError ("unknown encoding: " +:+ encoding)).

End Codec.

(** ** serial_threads.py and the receiver thread of connection_manager.py *)

Module Workers.

(** The attributes [SerialThread] and [DataReceiveThread] share. *)
Record worker : Type := Worker {
  running : bool;
  hex_mode : bool;
  encoding : string;
  error_handling : string
}.

(** [SerialThread(port, hex_mode, encoding, error_handling)] and
    [DataReceiveThread(connection, hex_mode, encoding, error_handling)]:
    [running] starts as [False]. *)
Definition init (hex : bool) (enc err : string) : worker :=
  Worker false hex enc err.

(** [update_settings(hex_mode=None, encoding=None, error_handling=None)],
    the same text in both classes. *)
Definition update_settings (w : worker)
    (hex : option bool) (enc err : option string) : worker :=
  Worker (running w)
         (default (hex_mode w) hex)
         (default (encoding w) enc)
         (default (error_handling w) err).

Inductive signal : Type :=
| data_received (text : string)
| raw_data_received (data : list byte)
| error_occurred (msg : string).

(** What the other threads and the device do between two passes of the
    loop of [run], as the worker observes it. *)
Inductive observation : Type :=
| Poll (incoming : result (list byte))
    (** a pass of the loop body; the bytes waiting, or the exception
        that reading raised *)
| Update (hex : option bool) (enc err : option string)
    (** the window called [update_settings] *)
| Stop
    (** [stop()] cleared [running] *)
| Closed.
    (** the port is no longer open, or the connection no longer
        connected *)

(** The signal of the [except] clause of both [run] methods. *)
Definition reception_error (e : exn) : signal :=
  error_occurred ("接收错误: " +:+ Py.str_exn e).

Section Run.

Variable decode : Codec.decoder.

(** One pass of the body of [SerialThread.run]; the flag tells
    whether the loop goes on. *)
Definition SerialThread_pass (w : worker) (incoming : result (list byte))
  : list signal * bool :=
  let body : result (list signal) :=
    waiting ← incoming;
    match waiting with
    | [] => Ok []
    | _ :: _ =>
        let data := waiting in
        text ← (if hex_mode w
                then Ok (Py.join " " (map Hex.format_02X data) +:+ " ")
                else decode (encoding w) (error_handling w) data);
        Ok [data_received text]
    end in
  match body with
  | Ok sigs => (sigs, true)
  | Raise e => ([reception_error e], false)
  end.

(** One pass of the body of [DataReceiveThread.run].  The raw bytes
    are published before the text is formatted, so they are out even
    when decoding then raises. *)
Definition DataReceiveThread_pass (w : worker)
    (incoming : result (list byte)) : list signal * bool :=
  match incoming with
  | Raise e => ([reception_error e], false)
  | Ok data =>
      match data with
      | [] => ([], true)
      | _ :: _ =>
          match (if hex_mode w
                 then Ok (Py.join " " (map Hex.format_02X data) +:+ " ")
                 else decode (encoding w) (error_handling w) data) with
          | Ok text => ([raw_data_received data; data_received text], true)
          | Raise e => ([raw_data_received data; reception_error e], false)
          end
      end
  end.

(** The loop of [run], along the observations made until it ends. *)
Fixpoint loop (pass : worker -> result (list byte) -> list signal * bool)
    (w : worker) (obs : list observation) : list signal * worker :=
  match obs with
  | [] => ([], w)
  | Poll incoming :: rest =>
      let '(sigs, continue) := pass w incoming in
      if continue
      then let '(more, w') := loop pass w rest in ((sigs ++ more)%list, w')
      else (sigs, w)
  | Update hex enc err :: rest =>
      loop pass (update_settings w hex enc err) rest
  | Stop :: _ => ([], Worker false (hex_mode w) (encoding w) (error_handling w))
  | Closed :: _ => ([], w)
  end.

Definition start (w : worker) : worker :=
  Worker true (hex_mode w) (encoding w) (error_handling w).

(** [SerialThread.run] *)
Definition SerialThread_run (w : worker) (obs : list observation)
  : list signal * worker :=
  loop SerialThread_pass (start w) obs.

(** [DataReceiveThread.run] *)
Definition DataReceiveThread_run (w : worker) (obs : list observation)
  : list signal * worker :=
  loop DataReceiveThread_pass (start w) obs.

End Run.

(** The formatted texts among the signals. *)
Definition texts (sigs : list signal) : list string :=
  omap (fun s => match s with data_received t => Some t | _ => None end) sigs.

Definition errors (sigs : list signal) : list string :=
  omap (fun s => match s with error_occurred m => Some m | _ => None end) sigs.


(** The raw byte strings among the signals. *)
Definition raws (sigs : list signal) : list (list byte) :=
  omap (fun s => match s with raw_data_received d => Some d | _ => None end) sigs.

End Workers.

Module FileSendThread.

(** The attributes of [FileSendThread]; [running] starts as [True] and
    is cleared by [stop()], which the schedule below records. *)
Record t : Type := Mk {
  file_path : string;
  hex_mode : bool;
  encoding : string;
  chunk_size : Z
}.

(** [FileSendThread(port, file_path, hex_mode=False, encoding="utf-8",
    chunk_size=1024)] as the window calls it, with the default chunk
    size. *)
Definition init (path : string) (hex : bool) (enc : string) : t :=
  Mk path hex enc 1024.

(** What happens around the worker while it runs.  The tests of the
    [while] are numbered from 0: [stop_before = Some k] says that
    [stop()] has cleared [running] when test [k] is made,
    [closed_before = Some k] that the port is closed by then, and
    [write_error = Some (k, e)] that the write of pass [k] raises
    [e]. *)
Record schedule : Type := Schedule {
  stop_before : option nat;
  closed_before : option nat;
  write_error : option (nat * exn)
}.

Definition undisturbed : schedule := Schedule None None None.

Definition before (limit : option nat) (i : nat) : bool :=
  match limit with
  | Some k => (i <? k)%nat
  | None => true
  end.

Definition running_at (sc : schedule) (i : nat) : bool :=
  before (stop_before sc) i.

Definition is_open_at (sc : schedule) (i : nat) : bool :=
  before (closed_before sc) i.

Definition write_raises (sc : schedule) (i : nat) : option exn :=
  match write_error sc with
  | Some (k, e) => if (i =? k)%nat then Some e else None
  | None => None
  end.

Inductive signal : Type :=
| progress_updated (value : Z)
| finished (success : bool) (message : string).

(** The float of a Python [int], exact below [2^53]. *)
Definition float_of_int (z : Z) : float :=
  PrimFloat.of_uint63 (Uint63.of_Z z).

(** [int(x)] for a float: truncation toward zero. *)
Definition int_of_float (x : float) : result Z :=
  match Prim2SF x with
  | S754_zero _ => Ok 0%Z
  | S754_finite sign m e =>
      let magnitude := if (0 <=? e)%Z then Z.shiftl (Z.pos m) e
                       else Z.shiftr (Z.pos m) (- e) in
      Ok (if sign then (- magnitude)%Z else magnitude)
  | S754_infinity _ =>
      Raise (OverflowError "cannot convert float infinity to integer")
  | S754_nan => Raise (ValueError "cannot convert float NaN to integer")
  end.

(** [int((sent_size / file_size) * 100) if file_size > 0 else 100] *)
Definition progress (sent_size file_size : Z) : result Z :=
  if (0 <? file_size)%Z
  then int_of_float
         (PrimFloat.mul
            (PrimFloat.div (float_of_int sent_size) (float_of_int file_size))
            (float_of_int 100))
  else Ok 100%Z.

(** [f.read(n)] on the rest of a file opened in binary mode: the chunk
    and what remains.  A negative [n] reads to the end. *)
Definition read (n : Z) (rest : list byte) : list byte * list byte :=
  if (n <? 0)%Z then (rest, [])
  else (take (Z.to_nat n) rest, drop (Z.to_nat n) rest).

(** How the [while] loop ended. *)
Inductive loop_end : Type :=
| Left (sent_size : Z) (still_running : bool)
| Raised (e : exn).

(** The result of a run: the signals in order and the chunks written
    to the port. *)
Record trace : Type := Trace {
  signals : list signal;
  written : list (list byte)
}.

(** The [while] loop of [run], from test number [i] with [rest] of the
    file unread and [sent_size] bytes counted.  [None] when the fuel
    runs out. *)
Fixpoint loop (fuel : nat) (th : t) (sc : schedule) (file_size : Z)
    (i : nat) (rest : list byte) (sent_size : Z)
  : option (loop_end * trace) :=
  match fuel with
  | O => None
  | S fuel' =>
      if running_at sc i && is_open_at sc i then
        let '(chunk, rest') := read (chunk_size th) rest in
        match chunk with
        | [] => Some (Left sent_size (running_at sc i), Trace [] [])
        | _ :: _ =>
            match (if hex_mode th
                   then Codec.encode_ascii_text (encoding th)
                          (Hex.bytes_hex chunk)
                   else Ok chunk) with
            | Raise e => Some (Raised e, Trace [] [])
            | Ok chunk' =>
                match write_raises sc i with
                | Some e => Some (Raised e, Trace [] [])
                | None =>
                    let sent_size' :=
                      (sent_size + Z.of_nat (length chunk'))%Z in
                    match progress sent_size' file_size with
                    | Raise e => Some (Raised e, Trace [] [chunk'])
                    | Ok value =>
                        match loop fuel' th sc file_size (S i) rest'
                                sent_size' with
                        | None => None
                        | Some (e, Trace sigs wr) =>
                            Some (e, Trace (progress_updated value :: sigs)
                                           (chunk' :: wr))
                        end
                    end
                end
            end
        end
      else Some (Left sent_size (running_at sc i), Trace [] [])
  end.

(** [get_file_size()]: the size, or 0 when [os.path.getsize] raises. *)
Definition get_file_size (th : t) (f : OS.fs) : Z :=
  match OS.getsize f (file_path th) with
  | Ok n => n
  | Raise _ => 0%Z
  end.

(** The body of [run] once the size has been taken and the file
    opened (or not). *)
Definition run_with (th : t) (sc : schedule) (file_size : Z)
    (opened : result (list byte)) : option trace :=
  match opened with
  | Raise e =>
      Some (Trace [finished false ("文件发送失败: " +:+ Py.str_exn e)] [])
  | Ok content =>
      match loop (S (length content)) th sc file_size 0 content 0 with
      | None => None
      | Some (Left sent_size true, Trace sigs wr) =>
          Some (Trace (sigs ++ [finished true
                                  ("文件发送完成，共发送 "
                                   +:+ pretty sent_size +:+ " 字节")])%list
                      wr)
      | Some (Left _ false, Trace sigs wr) =>
          Some (Trace (sigs ++ [finished false "文件发送已取消"])%list wr)
      | Some (Raised e, Trace sigs wr) =>
          Some (Trace (sigs ++ [finished false
                                  ("文件发送失败: " +:+ Py.str_exn e)])%list
                      wr)
      end
  end.

(** [FileSendThread.run] on a file system. *)
Definition run (th : t) (sc : schedule) (f : OS.fs) : option trace :=
  run_with th sc (get_file_size th f) (OS.open_read f (file_path th)).

(** The byte counts after each chunk written, from [sent_size] on. *)
Fixpoint running_totals (sent_size : Z) (chunks : list (list byte))
  : list Z :=
  match chunks with
  | [] => []
  | chunk :: rest =>
      let total := (sent_size + Z.of_nat (length chunk))%Z in
      total :: running_totals total rest
  end.

Definition progress_values (tr : trace) : list Z :=
  omap (fun s => match s with progress_updated v => Some v | _ => None end)
       (signals tr).

Definition final_messages (tr : trace) : list (bool * string) :=
  omap (fun s => match s with finished ok m => Some (ok, m) | _ => None end)
       (signals tr).

End FileSendThread.

(** ** connection_manager.py: the connection classes *)

Module Connection.

(** The Python values that reach the constructors as keyword
    arguments.  [PObj] stands for any other object, known by its
    [str()] and its truth value (the stop-bit constant 1.5, say). *)
Inductive pyval : Type :=
| PNone
| PBool (b : bool)
| PInt (z : Z)
| PStr (s : string)
| PObj (repr : string) (truth : bool).

(** [str(v)], as an f-string formats it. *)
Definition py_str (v : pyval) : string :=
  match v with
  | PNone => "None"
  | PBool true => "True"
  | PBool false => "False"
  | PInt z => pretty z
  | PStr s => s
  | PObj repr _ => repr
  end.

(** The truth value of [v] in a condition. *)
Definition py_truthy (v : pyval) : bool :=
  match v with
  | PNone => false
  | PBool b => b
  | PInt z => negb (z =? 0)%Z
  | PStr s => Py.truthy_str s
  | PObj _ truth => truth
  end.

(** Sockets and ports of the operating system, by number. *)
Definition handle : Type := nat.

(** The calls a method makes on its sockets, ports and threads. *)
Inductive call : Type :=
| Close (h : handle)
| Send (h : handle) (data : list byte)
| SendTo (h : handle) (data : list byte) (host port : pyval)
| Recv (h : handle) (bufsize : Z)
| InWaiting (h : handle)
| SetBlocking (h : handle) (flag : bool)
| SetTimeout (h : handle)
| Join (thread : nat).

(** A [serial.Serial] object: it stays referenced after [close()]. *)
Record port_obj : Type := PortObj {
  port_handle : handle;
  is_open : bool
}.

(** A [threading.Thread] object. *)
Record thread_obj : Type := ThreadObj {
  thread_id : nat;
  is_alive : bool
}.

(** The attributes of the base class [Connection]. *)
Record base : Type := Base {
  is_connected : bool;
  connection_type : string;
  settings : list (string * pyval)
}.

Record serial_attrs : Type := SerialAttrs {
  port_name : pyval;
  baudrate : pyval;
  databits : pyval;
  parity : pyval;
  stopbits : pyval;
  serial_port : option port_obj
}.

Record tcp_attrs : Type := TCPAttrs {
  host : pyval;
  port : pyval;
  is_server : pyval;
  socket : option handle;
  client_socket : option handle;
  server_thread : option thread_obj
}.

Record udp_attrs : Type := UDPAttrs {
  local_host : pyval;
  local_port : pyval;
  remote_host : pyval;
  remote_port : pyval;
  udp_socket : option handle
}.

(** The two flags are those of the [BluetoothManager] the connection
    creates for itself. *)
Record bt_attrs : Type := BTAttrs {
  address : pyval;
  bt_port : pyval;
  bt_socket : option handle;
  bluetooth_available : bool;
  using_bleak : bool
}.

(** [TCPConnection] and its two subclasses, which differ by label. *)
Inductive tcp_class : Type := TCP | WiFi | Ethernet.

Inductive connection : Type :=
| SerialConnection (b : base) (a : serial_attrs)
| TCPConnection (cls : tcp_class) (b : base) (a : tcp_attrs)
| UDPConnection (b : base) (a : udp_attrs)
| BluetoothConnection (b : base) (a : bt_attrs).

Definition base_of (c : connection) : base :=
  match c with
  | SerialConnection b _ | TCPConnection _ b _ | UDPConnection b _
  | BluetoothConnection b _ => b
  end.

Definition connected (c : connection) : bool := is_connected (base_of c).

Definition set_connected (b : base) (flag : bool) : base :=
  Base flag (connection_type b) (settings b).

(** *** Constructors *)

Definition Serial_init (port_name baudrate databits parity stopbits : pyval)
  : connection :=
  SerialConnection (Base false "Serial" [])
    (SerialAttrs port_name baudrate databits parity stopbits None).

Definition tcp_label (cls : tcp_class) : string :=
  match cls with TCP => "TCP" | WiFi => "WiFi" | Ethernet => "Ethernet" end.

Definition TCP_init (cls : tcp_class) (host port is_server : pyval)
  : connection :=
  TCPConnection cls (Base false (tcp_label cls) [])
    (TCPAttrs host port is_server None None None).

Definition UDP_init (local_host local_port remote_host remote_port : pyval)
  : connection :=
  UDPConnection (Base false "UDP" [])
    (UDPAttrs local_host local_port remote_host remote_port None).

(** Which Bluetooth library [BluetoothManager._initialize_bluetooth]
    manages to import. *)
Inductive backend : Type := PyBluez | Bleak | NoBackend.

Definition Bluetooth_init (be : backend) (address port : pyval) : connection :=
  BluetoothConnection (Base false "Bluetooth" [])
    (BTAttrs address port None
       (match be with NoBackend => false | _ => true end)
       (match be with Bleak => true | _ => false end)).

(** *** [get_info] *)

Definition mode (is_server : pyval) : string :=
  if py_truthy is_server then "服务器" else "客户端".

Definition get_info (c : connection) : string :=
  match c with
  | SerialConnection _ a =>
      "串口 " +:+ py_str (port_name a) +:+ "，波特率 " +:+ py_str (baudrate a)
  | TCPConnection cls _ a =>
      (match cls with TCP => "TCP " | WiFi => "WiFi " | Ethernet => "以太网 " end)
      +:+ mode (is_server a) +:+ " " +:+ py_str (host a) +:+ ":"
      +:+ py_str (port a)
  | UDPConnection _ a =>
      if py_truthy (remote_host a) && py_truthy (remote_port a)
      then "UDP " +:+ py_str (local_host a) +:+ ":" +:+ py_str (local_port a)
           +:+ " -> " +:+ py_str (remote_host a) +:+ ":"
           +:+ py_str (remote_port a)
      else "UDP " +:+ py_str (local_host a) +:+ ":" +:+ py_str (local_port a)
  | BluetoothConnection _ a =>
      "蓝牙 " +:+ py_str (address a) +:+ ":" +:+ py_str (bt_port a)
  end.

(** *** [disconnect]

    [close()] and [join()] are taken to return normally, so the
    [try]/[except: pass] around them in the TCP and Bluetooth classes
    changes nothing.  The result is the object after the call and the
    calls that the method of the class makes.

    A TCP server is not alone with its object: while [disconnect()]
    runs, the accept thread may come back from [accept()] with a new
    client and store it.  When it does so before the method has looked
    at [client_socket], that is an [accept_client] step followed by the
    method.  When it does so after the method has cleared the
    reference (the method then waits for the thread in [join]), the
    client stays in the object: [late] is that client, if there is
    one. *)

Definition Serial_disconnect (b : base) (a : serial_attrs)
  : connection * list call :=
  match serial_port a with
  | Some (PortObj h true) =>
      (SerialConnection (set_connected b false)
         (SerialAttrs (port_name a) (baudrate a) (databits a) (parity a)
            (stopbits a) (Some (PortObj h false))),
       [Close h])
  | _ => (SerialConnection b a, [])
  end.

Definition TCP_disconnect (cls : tcp_class) (b : base) (a : tcp_attrs)
    (late : option handle) : connection * list call :=
  let b1 := set_connected b false in
  let calls1 := match client_socket a with Some h => [Close h] | None => [] end in
  let calls2 := match socket a with Some h => [Close h] | None => [] end in
  let '(thread3, client3, calls3) :=
    match server_thread a with
    | Some (ThreadObj tid true) => (None, late, [Join tid])
    | other => (other, None, [])
    end in
  (TCPConnection cls b1
     (TCPAttrs (host a) (port a) (is_server a) None client3 thread3),
   (calls1 ++ calls2 ++ calls3)%list).

Definition UDP_disconnect (b : base) (a : udp_attrs)
  : connection * list call :=
  let calls := match udp_socket a with Some h => [Close h] | None => [] end in
  (UDPConnection (set_connected b false)
     (UDPAttrs (local_host a) (local_port a) (remote_host a) (remote_port a)
        None),
   calls).

Definition Bluetooth_disconnect (b : base) (a : bt_attrs)
  : connection * list call :=
  let calls := match bt_socket a with Some h => [Close h] | None => [] end in
  (BluetoothConnection (set_connected b false)
     (BTAttrs (address a) (bt_port a) None (bluetooth_available a)
        (using_bleak a)),
   calls).

(** [connection.disconnect()]; [late] is the client that the accept
    thread of a TCP server stores while the method runs, after the
    method has cleared [client_socket]. *)
Definition disconnect (c : connection) (late : option handle)
  : connection * list call :=
  match c with
  | SerialConnection b a => Serial_disconnect b a
  | TCPConnection cls b a => TCP_disconnect cls b a late
  | UDPConnection b a => UDP_disconnect b a
  | BluetoothConnection b a => Bluetooth_disconnect b a
  end.

(** *** [connect]

    What the operating system does during one [connect()]. *)
Record connect_env : Type := ConnectEnv {
  new_handle : handle;
    (** the socket or port that is created *)
  open_error : option exn;
    (** raised while it is created or opened *)
  setup_error : option exn;
    (** raised by [setsockopt], [bind], [listen] or [connect] on it *)
  late_error : option exn;
    (** raised by the step that follows the setting of [is_connected]:
        for UDP the setting of the default destination, for a TCP
        server the start of the accept thread *)
  new_thread : nat
    (** the accept thread that is started *)
}.

Definition connection_error (prefix : string) (e : exn) : exn :=
  ConnectionError (prefix +:+ Py.str_exn e).

(** [serial.Serial(port=None, ...)] builds the object without opening
    it. *)
Definition Serial_connect (b : base) (a : serial_attrs) (env : connect_env)
  : result bool * connection :=
  match open_error env with
  | Some e => (Raise (connection_error "串口连接失败: " e), SerialConnection b a)
  | None =>
      let opened := match port_name a with PNone => false | _ => true end in
      (Ok opened,
       SerialConnection (set_connected b opened)
         (SerialAttrs (port_name a) (baudrate a) (databits a) (parity a)
            (stopbits a) (Some (PortObj (new_handle env) opened))))
  end.

(** In server mode the flag is set before the accept thread is made
    and started, inside the same [try]: when [start()] raises, the
    thread object is stored, not alive, and the flag stays set. *)
Definition TCP_connect (cls : tcp_class) (b : base) (a : tcp_attrs)
    (env : connect_env) : result bool * connection :=
  match open_error env with
  | Some e => (Raise (connection_error "TCP连接失败: " e), TCPConnection cls b a)
  | None =>
      let with_socket thread :=
        TCPAttrs (host a) (port a) (is_server a) (Some (new_handle env))
          (client_socket a) thread in
      match setup_error env with
      | Some e =>
          (Raise (connection_error "TCP连接失败: " e),
           TCPConnection cls b (with_socket (server_thread a)))
      | None =>
          if py_truthy (is_server a)
          then
            match late_error env with
            | Some e =>
                (Raise (connection_error "TCP连接失败: " e),
                 TCPConnection cls (set_connected b true)
                   (with_socket (Some (ThreadObj (new_thread env) false))))
            | None =>
                (Ok true,
                 TCPConnection cls (set_connected b true)
                   (with_socket (Some (ThreadObj (new_thread env) true))))
            end
          else (Ok true,
                TCPConnection cls (set_connected b true)
                  (with_socket (server_thread a)))
      end
  end.

Definition UDP_connect (b : base) (a : udp_attrs) (env : connect_env)
  : result bool * connection :=
  match open_error env with
  | Some e => (Raise (connection_error "UDP连接失败: " e), UDPConnection b a)
  | None =>
      let a1 := UDPAttrs (local_host a) (local_port a) (remote_host a)
                  (remote_port a) (Some (new_handle env)) in
      match setup_error env with
      | Some e => (Raise (connection_error "UDP连接失败: " e), UDPConnection b a1)
      | None =>
          let b1 := set_connected b true in
          if py_truthy (remote_host a) && py_truthy (remote_port a) then
            match late_error env with
            | Some e =>
                (Raise (connection_error "UDP连接失败: " e), UDPConnection b1 a1)
            | None => (Ok true, UDPConnection b1 a1)
            end
          else (Ok true, UDPConnection b1 a1)
      end
  end.

(** [BluetoothManager.create_bluetooth_socket] wraps whatever is raised
    in a [BluetoothError], which [connect] turns into a
    [ConnectionError] with the same text. *)
Definition Bluetooth_connect (b : base) (a : bt_attrs) (env : connect_env)
  : result bool * connection :=
  if negb (bluetooth_available a) then
    (Raise (connection_error "蓝牙连接失败: "
              (ConnectionError "请安装pybluez库以支持蓝牙功能")),
     BluetoothConnection b a)
  else
    match (match open_error env with Some e => Some e | None => setup_error env end) with
    | Some e =>
        (Raise (ConnectionError
                  (Py.str_exn (BluetoothError ("蓝牙连接失败: " +:+ Py.str_exn e)))),
         BluetoothConnection b a)
    | None =>
        (Ok true,
         BluetoothConnection (set_connected b true)
           (BTAttrs (address a) (bt_port a) (Some (new_handle env))
              (bluetooth_available a) (using_bleak a)))
    end.

Definition connect (c : connection) (env : connect_env)
  : result bool * connection :=
  match c with
  | SerialConnection b a => Serial_connect b a env
  | TCPConnection cls b a => TCP_connect cls b a env
  | UDPConnection b a => UDP_connect b a env
  | BluetoothConnection b a => Bluetooth_connect b a env
  end.

(** One successful [accept()] in [_accept_client]: the previous client,
    if any, is closed and the new one takes its place. *)
Definition accept_client (cls : tcp_class) (b : base) (a : tcp_attrs)
    (client : handle) : connection * list call :=
  (TCPConnection cls b
     (TCPAttrs (host a) (port a) (is_server a) (socket a) (Some client)
        (server_thread a)),
   match client_socket a with Some old => [Close old] | None => [] end).

(** The accept thread has left its loop. *)
Definition thread_exit (c : connection) : connection :=
  match c with
  | TCPConnection cls b a =>
      TCPConnection cls b
        (TCPAttrs (host a) (port a) (is_server a) (socket a) (client_socket a)
           (match server_thread a with
            | Some (ThreadObj tid _) => Some (ThreadObj tid false)
            | None => None
            end))
  | other => other
  end.

(** *** [send] and [receive]

    What the socket or port answers during one call. *)
Record io_env : Type := IOEnv {
  send_reply : result Z;
    (** the number of bytes [send], [sendto] or [write] reports *)
  waiting : result Z;
    (** [serial_port.in_waiting] *)
  recv_reply : result (list byte)
    (** what [recv], [recvfrom] or [read] delivers *)
}.

Definition Serial_send (a : serial_attrs) (data : list byte) (env : io_env)
  : result Z * list call :=
  match serial_port a with
  | Some (PortObj h true) => (send_reply env, [Send h data])
  | _ => (Ok 0%Z, [])
  end.

Definition Serial_receive (a : serial_attrs) (env : io_env)
  : result (list byte) * list call :=
  match serial_port a with
  | Some (PortObj h true) =>
      match waiting env with
      | Raise _ => (Ok [], [InWaiting h])
      | Ok n =>
          (match recv_reply env with Ok data => Ok data | Raise _ => Ok [] end,
           if (n =? 0)%Z then [InWaiting h; Recv h 4096]
           else [InWaiting h; InWaiting h; Recv h n])
      end
  | _ => (Ok [], [])
  end.

Definition TCP_send (a : tcp_attrs) (data : list byte) (env : io_env)
  : result Z * list call :=
  match py_truthy (is_server a), client_socket a, socket a with
  | true, Some h, _ => (send_reply env, [Send h data])
  | false, _, Some h => (send_reply env, [Send h data])
  | _, _, _ => (Ok 0%Z, [])
  end.

Definition recv_nonblocking (h : handle) (env : io_env)
  : result (list byte) * list call :=
  (match recv_reply env with Ok data => Ok data | Raise _ => Ok [] end,
   [SetBlocking h false; Recv h 4096]).

Definition TCP_receive (a : tcp_attrs) (env : io_env)
  : result (list byte) * list call :=
  match py_truthy (is_server a), client_socket a, socket a with
  | true, Some h, _ => recv_nonblocking h env
  | false, _, Some h => recv_nonblocking h env
  | _, _, _ => (Ok [], [])
  end.

(** [UDPConnection.send(data, remote_host=None, remote_port=None)] *)
Definition UDP_send (a : udp_attrs) (data : list byte)
    (to_host to_port : pyval) (env : io_env) : result Z * list call :=
  match udp_socket a with
  | Some h =>
      if py_truthy to_host && py_truthy to_port
      then (send_reply env, [SendTo h data to_host to_port])
      else if py_truthy (remote_host a) && py_truthy (remote_port a)
      then (send_reply env, [Send h data])
      else (Ok 0%Z, [])
  | None => (Ok 0%Z, [])
  end.

Definition UDP_receive (a : udp_attrs) (env : io_env)
  : result (list byte) * list call :=
  match udp_socket a with
  | Some h => recv_nonblocking h env
  | None => (Ok [], [])
  end.

Definition Bluetooth_send (b : base) (a : bt_attrs) (data : list byte)
    (env : io_env) : result Z * list call :=
  match bt_socket a, is_connected b with
  | Some h, true =>
      (match send_reply env with Ok n => Ok n | Raise _ => Ok 0%Z end,
       [Send h data])
  | _, _ => (Ok 0%Z, [])
  end.

Definition Bluetooth_receive (b : base) (a : bt_attrs) (env : io_env)
  : result (list byte) * list call :=
  match bt_socket a, is_connected b with
  | Some h, true =>
      (match recv_reply env with Ok data => Ok data | Raise _ => Ok [] end,
       [SetTimeout h; Recv h 4096])
  | _, _ => (Ok [], [])
  end.

(** [connection.send(data)] *)
Definition send (c : connection) (data : list byte) (env : io_env)
  : result Z * list call :=
  match c with
  | SerialConnection _ a => Serial_send a data env
  | TCPConnection _ _ a => TCP_send a data env
  | UDPConnection _ a => UDP_send a data PNone PNone env
  | BluetoothConnection b a => Bluetooth_send b a data env
  end.

(** [connection.receive()] *)
Definition receive (c : connection) (env : io_env)
  : result (list byte) * list call :=
  match c with
  | SerialConnection _ a => Serial_receive a env
  | TCPConnection _ _ a => TCP_receive a env
  | UDPConnection _ a => UDP_receive a env
  | BluetoothConnection b a => Bluetooth_receive b a env
  end.

(** *** The life of a connection object *)

(** The states an object goes through: it is built by a constructor,
    then changed by its own methods and, for a TCP server, by its
    accept thread. *)
Inductive reachable : connection -> Prop :=
| reach_Serial (pn br db pa sb : pyval) :
    reachable (Serial_init pn br db pa sb)
| reach_TCP (cls : tcp_class) (h p s : pyval) :
    reachable (TCP_init cls h p s)
| reach_UDP (lh lp rh rp : pyval) :
    reachable (UDP_init lh lp rh rp)
| reach_Bluetooth (be : backend) (a p : pyval) :
    reachable (Bluetooth_init be a p)
| reach_connect (c : connection) (env : connect_env) :
    reachable c -> reachable (snd (connect c env))
| reach_disconnect (c : connection) (late : option handle) :
    reachable c -> reachable (fst (disconnect c late))
| reach_accept (cls : tcp_class) (b : base) (a : tcp_attrs) (client : handle) :
    reachable (TCPConnection cls b a) ->
    reachable (fst (accept_client cls b a client))
| reach_thread_exit (c : connection) :
    reachable c -> reachable (thread_exit c).

(** The sockets and ports that the object refers to and that are
    open. *)
Definition open_handles (c : connection) : list handle :=
  match c with
  | SerialConnection _ a =>
      match serial_port a with
      | Some (PortObj h true) => [h]
      | _ => []
      end
  | TCPConnection _ _ a =>
      (option_list (client_socket a) ++ option_list (socket a))%list
  | UDPConnection _ a => option_list (udp_socket a)
  | BluetoothConnection _ a => option_list (bt_socket a)
  end.

(** The object holds on to nothing: its socket references are [None];
    a serial connection keeps the reference to its port object, which
    is closed. *)
Definition released (c : connection) : Prop :=
  match c with
  | SerialConnection _ a =>
      match serial_port a with
      | Some p => is_open p = false
      | None => True
      end
  | TCPConnection _ _ a => socket a = None ∧ client_socket a = None
  | UDPConnection _ a => udp_socket a = None
  | BluetoothConnection _ a => bt_socket a = None
  end.

(** A serial connection that says it is connected has an open port. *)
Definition serial_flag_sound (c : connection) : Prop :=
  match c with
  | SerialConnection b a =>
      is_connected b = true → ∃ h, serial_port a = Some (PortObj h true)
  | _ => True
  end.

(** The client that [disconnect] leaves in the object: the one that the
    accept thread of a TCP server stores while the method waits for
    it. *)
Definition left_behind (c : connection) (late : option handle)
  : option handle :=
  match c with
  | TCPConnection _ _ a =>
      match server_thread a with
      | Some (ThreadObj _ true) => late
      | _ => None
      end
  | _ => None
  end.

(** The handles that a list of calls closes. *)
Definition closed_by (calls : list call) : list handle :=
  omap (fun k => match k with Close h => Some h | _ => None end) calls.

(** The socket or port that a call is made on; [join] is made on a
    thread. *)
Definition call_handle (k : call) : option handle :=
  match k with
  | Close h | Send h _ | SendTo h _ _ _ | Recv h _ | InWaiting h
  | SetBlocking h _ | SetTimeout h => Some h
  | Join _ => None
  end.

(** The key of [connection_types] that stands for the class of the
    object. *)
Definition kind (c : connection) : string :=
  match c with
  | SerialConnection _ _ => "serial"
  | TCPConnection TCP _ _ => "tcp"
  | TCPConnection WiFi _ _ => "wifi"
  | TCPConnection Ethernet _ _ => "ethernet"
  | UDPConnection _ _ => "udp"
  | BluetoothConnection _ _ => "bluetooth"
  end.

End Connection.

(** ** connection_manager.py: the manager *)

Module ConnectionManager.

Import Connection.

(** Connections are objects: the manager holds references, and the
    lookup table and [current_connection] may refer to the same one. *)
Record t : Type := Mk {
  objects : gmap nat connection;
  next_object : nat;
  current_connection : option nat;
  connections : gmap string nat
}.

(** [ConnectionManager()] *)
Definition init : t := Mk ∅ 0 None ∅.

(** Keyword arguments, in the order of the call. *)
Definition kwargs : Type := list (string * pyval).

Definition quoted (name : string) : string := "'" +:+ name +:+ "'".

Definition missing_message (cls : string) (names : list string) : string :=
  cls +:+ ".__init__() missing " +:+ pretty (length names)
  +:+ " required positional argument"
  +:+ (match names with [_] => "" | _ => "s" end) +:+ ": "
  +:+ (match names with
       | [a; b] => quoted a +:+ " and " +:+ quoted b
       | _ => Py.join ", " (map quoted names)
       end).

(** Binding [**kwargs] to the parameters of a constructor, each with
    its default if it has one: the values in parameter order, or the
    [TypeError] of a keyword that is no parameter or of a required
    parameter that is not given. *)
Definition bind_kwargs (cls : string) (params : list (string * option pyval))
    (kw : kwargs) : result (list pyval) :=
  match filter (fun k => k ∉ map fst params) (map fst kw) with
  | k :: _ =>
      Raise (TypeError (cls +:+ ".__init__() got an unexpected keyword argument "
                        +:+ quoted k))
  | [] =>
      match filter (fun n => Py.dict_get kw n = None)
              (map fst (filter (fun p => snd p = None) params)) with
      | [] =>
          Ok (map (fun p => default (default PNone (snd p))
                              (Py.dict_get kw (fst p))) params)
      | names => Raise (TypeError (missing_message cls names))
      end
  end.

Definition new_Serial (be : backend) (kw : kwargs) : result connection :=
  args ← bind_kwargs "SerialConnection"
           [ ("port_name", None); ("baudrate", None);
             ("databits", Some (PInt 8)); ("parity", Some (PStr "N"));
             ("stopbits", Some (PInt 1)) ] kw;
  match args with
  | [a; b; c; d; e] => Ok (Serial_init a b c d e)
  | _ => Raise (TypeError "SerialConnection.__init__()")
  end.

Definition new_TCP (cls : tcp_class) (name : string) (be : backend)
    (kw : kwargs) : result connection :=
  args ← bind_kwargs name
           [ ("host", None); ("port", None); ("is_server", Some (PBool false)) ]
           kw;
  match args with
  | [a; b; c] => Ok (TCP_init cls a b c)
  | _ => Raise (TypeError (name +:+ ".__init__()"))
  end.

Definition new_UDP (be : backend) (kw : kwargs) : result connection :=
  args ← bind_kwargs "UDPConnection"
           [ ("local_host", None); ("local_port", None);
             ("remote_host", Some PNone); ("remote_port", Some PNone) ] kw;
  match args with
  | [a; b; c; d] => Ok (UDP_init a b c d)
  | _ => Raise (TypeError "UDPConnection.__init__()")
  end.

Definition new_Bluetooth (be : backend) (kw : kwargs) : result connection :=
  args ← bind_kwargs "BluetoothConnection"
           [ ("address", None); ("port", Some (PInt 1)) ] kw;
  match args with
  | [a; b] => Ok (Bluetooth_init be a b)
  | _ => Raise (TypeError "BluetoothConnection.__init__()")
  end.

(** The local dictionary [connection_types] of [create_connection]. *)
Definition connection_types
  : list (string * (backend -> kwargs -> result connection)) :=
  [ ("serial", new_Serial);
    ("tcp", new_TCP TCP "TCPConnection");
    ("udp", new_UDP);
    ("wifi", new_TCP WiFi "WiFiConnection");
    ("ethernet", new_TCP Ethernet "EthernetConnection");
    ("bluetooth", new_Bluetooth) ].

(** [create_connection(connection_type, **kwargs)]; [be] is the
    Bluetooth library found when a [BluetoothConnection] is built. *)
Definition create_connection (m : t) (connection_type : string)
    (kw : kwargs) (be : backend) : result nat * t :=
  match Py.dict_get connection_types (Py.lower connection_type) with
  | None =>
      (Raise (ValueError ("不支持的连接类型: " +:+ connection_type)), m)
  | Some class =>
      match class be kw with
      | Raise e => (Raise e, m)
      | Ok connection =>
          let ref := next_object m in
          (Ok ref,
           Mk (<[ ref := connection ]> (objects m)) (S ref) (Some ref)
              (<[ get_info connection := ref ]> (connections m)))
      end
  end.

Definition current (m : t) : option connection :=
  ref ← current_connection m; objects m !! ref.

(** [connect()] *)
Definition connect (m : t) (env : connect_env) : result bool * t :=
  match current_connection m, current m with
  | Some ref, Some c =>
      let '(r, c') := Connection.connect c env in
      (r, Mk (<[ ref := c' ]> (objects m)) (next_object m)
             (current_connection m) (connections m))
  | _, _ => (Ok false, m)
  end.

(** [disconnect()]; [late] as for [Connection.disconnect]. *)
Definition disconnect (m : t) (late : option handle) : t * list call :=
  match current_connection m, current m with
  | Some ref, Some c =>
      let '(c', calls) := Connection.disconnect c late in
      (Mk (<[ ref := c' ]> (objects m)) (next_object m)
          (current_connection m) (connections m), calls)
  | _, _ => (m, [])
  end.

(** [send_data(data)] *)
Definition send_data (m : t) (data : list byte) (env : io_env)
  : result Z * list call :=
  match current m with
  | Some c => if connected c then Connection.send c data env else (Ok 0%Z, [])
  | None => (Ok 0%Z, [])
  end.

Definition get_current_connection (m : t) : option nat := current_connection m.

(** The six type names. *)
Definition accepted_names : list string :=
  [ "serial"; "tcp"; "udp"; "wifi"; "ethernet"; "bluetooth" ].

(** [get_connection_info()] *)
Definition get_connection_info (m : t) : string :=
  match current m with
  | Some c => get_info c
  | None => "未连接"
  end.


(** What the manager keeps true of its references: every object it holds
    was built by a constructor and changed by the methods of its class
    only, its number is below the next one to be given, and the current
    connection and the entries of the lookup table refer to objects it
    holds. *)
Definition sound (m : t) : Prop :=
  (∀ ref c, objects m !! ref = Some c → ref < next_object m ∧ reachable c)
  ∧ (∀ ref, current_connection m = Some ref → is_Some (objects m !! ref))
  ∧ (∀ info ref, connections m !! info = Some ref → is_Some (objects m !! ref)).

End ConnectionManager.

(** ** bluetooth_manager.py: scanning for devices *)

Module BluetoothManager.

Record BluetoothDevice : Type := Device {
  name : string;
  address : string
}.

(** [BluetoothDevice.__str__] *)
Definition device_str (d : BluetoothDevice) : string :=
  name d +:+ " [" +:+ address d +:+ "]".

(** The attributes of [BluetoothManager] that scanning reads and
    writes. *)
Record t : Type := Mk {
  devices : list BluetoothDevice;
  scanning : bool;
  bluetooth_available : bool;
  using_bleak : bool
}.

(** [BluetoothManager()], with the library that [_initialize_bluetooth]
    finds. *)
Definition init (be : Connection.backend) : t :=
  Mk [] false
     (match be with Connection.NoBackend => false | _ => true end)
     (match be with Connection.Bleak => true | _ => false end).

Inductive signal : Type :=
| scan_started
| scan_finished (found : list BluetoothDevice)
| scan_error (msg : string).








End BluetoothManager.

(** ** main_app.py: formatting, sending and redrawing *)

Module MainApp.

(** A [QTextCharFormat] as the window sets it up: the foreground
    colour, and whether the weight is bold. *)
Record char_format : Type := CharFormat {
  foreground : string;
  bold : bool
}.

(** One [cursor.insertText]: the text and the format given with it, if
    any.  The document of [receive_text] is the list of the insertions
    made at its end since it was last cleared. *)
Record fragment : Type := Fragment {
  text : string;
  format : option char_format
}.

(** An entry of [data_history].  The time stamp is kept as the string
    that [toString("yyyy-MM-dd HH:mm:ss.zzz")] gives for it. *)
Record entry : Type := Entry {
  raw_data : list byte;
  timestamp : string;
  is_sent : bool
}.

(** The part of the window the receive display depends on.  The check
    boxes and combo boxes hold what [isChecked()] and [currentText()]
    return; [current_theme] is the global of [theme_manager.py].  The
    scroll bar, whose value [_refresh_display] saves and restores, is
    left out. *)
Record window : Type := Window {
  data_history : list entry;
  receive_text : list fragment;
  hex_receive_check : bool;
  timestamp_check : bool;
  newline_check : bool;
  receive_encoding_combo : string;
  error_handling_combo : string;
  serial_thread : option Workers.worker;
  current_theme : ThemeManager.palette
}.

Definition toPlainText (doc : list fragment) : string :=
  fold_right (fun f acc => text f +:+ acc) "" doc.

Section WithCodec.

Variable decode : Codec.decoder.

(** [_format_data(raw_data, hex_mode, encoding, error_handling)] *)
Definition _format_data (raw_data : list byte) (hex_mode : bool)
    (encoding error_handling : string) : result string :=
  if hex_mode
  then Ok (Py.join " " (map Hex.format_02X raw_data) +:+ " ")
  else decode encoding error_handling raw_data.

Definition with_receive_text (w : window) (doc : list fragment) : window :=
  Window (data_history w) doc (hex_receive_check w) (timestamp_check w)
    (newline_check w) (receive_encoding_combo w) (error_handling_combo w)
    (serial_thread w) (current_theme w).

Definition with_serial_thread (w : window) (th : option Workers.worker)
  : window :=
  Window (data_history w) (receive_text w) (hex_receive_check w)
    (timestamp_check w) (newline_check w) (receive_encoding_combo w)
    (error_handling_combo w) th (current_theme w).

Definition info_bold (w : window) : char_format :=
  CharFormat (ThemeManager.INFO (ThemeManager.get_theme (current_theme w) None))
    true.

(** The body of the [for] loop of [_refresh_display] for the entries
    that are left, on the document so far: the document at the end,
    and the exception that [_format_data] raised, if it did. *)
Fixpoint redraw (w : window) (entries : list entry) (doc : list fragment)
  : list fragment * option exn :=
  match entries with
  | [] => (doc, None)
  | e :: rest =>
      let theme := ThemeManager.get_theme (current_theme w) None in
      let doc1 :=
        if timestamp_check w
        then (doc ++ [Fragment ("[" +:+ timestamp e +:+ "] ")
                        (Some (info_bold w))])%list
        else doc in
      let doc2 :=
        (doc1 ++ [Fragment (if is_sent e then "[发送] " else "[收到] ")
                    (Some (info_bold w))])%list in
      let payload :=
        if is_sent e
        then Ok (Fragment (string_of_list_byte (raw_data e))
                   (Some (CharFormat (ThemeManager.SUCCESS theme) false)))
        else
          formatted_data ←
            _format_data (raw_data e) (hex_receive_check w)
              (SerialConfig.get_encoding_value (receive_encoding_combo w))
              (SerialConfig.get_error_handling_value (error_handling_combo w));
          Ok (Fragment formatted_data
                (Some (CharFormat (ThemeManager.DARK theme) false))) in
      match payload with
      | Raise ex => (doc2, Some ex)
      | Ok frag =>
          let doc3 := (doc2 ++ [frag])%list in
          let doc4 := if newline_check w
                      then (doc3 ++ [Fragment Py.nl None])%list else doc3 in
          redraw w rest doc4
      end
  end.

(** [_refresh_display()]: the window afterwards, and the exception
    that left the method, if one did. *)
Definition _refresh_display (w : window) : window * option exn :=
  let '(doc, ex) := redraw w (data_history w) [] in
  (with_receive_text w doc, ex).

(** [toggle_hex_receive()], the slot of the hex check box. *)
Definition toggle_hex_receive (w : window) : window * option exn :=
  let th := (fun t => Workers.update_settings t
                        (Some (hex_receive_check w)) None None)
            <$> serial_thread w in
  _refresh_display (with_serial_thread w th).

(** [on_receive_encoding_changed()], the slot of the encoding box. *)
Definition on_receive_encoding_changed (w : window) : window * option exn :=
  let th := (fun t => Workers.update_settings t None
                        (Some (SerialConfig.get_encoding_value
                                 (receive_encoding_combo w))) None)
            <$> serial_thread w in
  _refresh_display (with_serial_thread w th).

(** [on_error_handling_changed()], the slot of the error policy
    box. *)
Definition on_error_handling_changed (w : window) : window * option exn :=
  let th := (fun t => Workers.update_settings t None None
                        (Some (SerialConfig.get_error_handling_value
                                 (error_handling_combo w))))
            <$> serial_thread w in
  (with_serial_thread w th, None).

(** The rendering of one stored entry, derived from its raw bytes
    under the options the window shows now: the time stamp if asked
    for, the tag, the payload in hex or decoded, the line break if
    asked for. *)
Definition entry_rendering (w : window) (e : entry)
  : result (list fragment) :=
  let theme := ThemeManager.get_theme (current_theme w) None in
  payload ←
    (if is_sent e
     then Ok (Fragment (string_of_list_byte (raw_data e))
                (Some (CharFormat (ThemeManager.SUCCESS theme) false)))
     else
       formatted ←
         _format_data (raw_data e) (hex_receive_check w)
           (SerialConfig.get_encoding_value (receive_encoding_combo w))
           (SerialConfig.get_error_handling_value (error_handling_combo w));
       Ok (Fragment formatted
             (Some (CharFormat (ThemeManager.DARK theme) false))));
  Ok ((if timestamp_check w
       then [Fragment ("[" +:+ timestamp e +:+ "] ") (Some (info_bold w))]
       else [])
      ++ [Fragment (if is_sent e then "[发送] " else "[收到] ")
            (Some (info_bold w));
          payload]
      ++ (if newline_check w then [Fragment Py.nl None] else []))%list.

(** The whole log, every stored entry rendered in order, or the
    exception of the first entry that does not decode. *)
Definition history_rendering (w : window) : result (list fragment) :=
  (fun rendered => concat rendered)
  <$> mapM (entry_rendering w) (data_history w).

Definition with_data_history (w : window) (h : list entry) : window :=
  Window h (receive_text w) (hex_receive_check w) (timestamp_check w)
    (newline_check w) (receive_encoding_combo w) (error_handling_combo w)
    (serial_thread w) (current_theme w).

(** [append_received_data(data)]; [now] is the current time as the
    method formats it. *)
Definition append_received_data (w : window) (now : string) (data : string)
  : window :=
  let theme := ThemeManager.get_theme (current_theme w) None in
  let doc := receive_text w in
  let doc1 :=
    if timestamp_check w
    then (doc ++ [Fragment ("[" +:+ now +:+ "] ") (Some (info_bold w))])%list
    else doc in
  let doc2 :=
    (doc1 ++ [Fragment "[收到] " (Some (info_bold w));
              Fragment data
                (Some (CharFormat (ThemeManager.DARK theme) false))])%list in
  let doc3 := if newline_check w && negb (Py.endswith_char data Py.LF)
              then (doc2 ++ [Fragment Py.nl None])%list else doc2 in
  with_receive_text w doc3.

(** [append_raw_received_data(raw_data)], the slot of
    [raw_data_received]; [now] is the current time. *)
Definition append_raw_received_data (w : window) (now : string)
    (raw : list byte) : window * option exn :=
  let w1 := with_data_history w (data_history w ++ [Entry raw now false])%list in
  match _format_data raw (hex_receive_check w)
          (SerialConfig.get_encoding_value (receive_encoding_combo w))
          (SerialConfig.get_error_handling_value (error_handling_combo w)) with
  | Raise ex => (w1, Some ex)
  | Ok formatted_data => (append_received_data w1 now formatted_data, None)
  end.

(** [clear_receive_area()] *)
Definition clear_receive_area (w : window) : window :=
  with_data_history (with_receive_text w []) [].

End WithCodec.

(** The hex branch of [send_data]: the spaces are removed and the rest
    is read as pairs of hexadecimal digits. *)
Definition hex_send_bytes (data : string) : result (list byte) :=
  Hex.fromhex (Py.replace_char " " "" data).


(** [sep in s] *)
Fixpoint contains (sep s : string) : bool :=
  String.prefix sep s
  || match s with
     | "" => false
     | String _ s' => contains sep s'
     end.

(** [s.split(sep)[0]] for a non-empty [sep]: what comes before the first
    occurrence of [sep], or all of [s] when there is none. *)
Fixpoint before_first (sep s : string) : string :=
  if String.prefix sep s then ""
  else match s with
       | "" => ""
       | String c s' => String c (before_first sep s')
       end.

(** The port name that opening a serial connection takes from the text
    of the port box:
    [port_text.split(" - ")[0] if " - " in port_text else port_text]. *)
Definition port_name_of (port_text : string) : string :=
  if contains " - " port_text then before_first " - " port_text
  else port_text.

End MainApp.

(** * Theorems *)

(** ** Strings *)

Section StringFacts.

Lemma str_app_nil_l (s : string) : "" +:+ s = s.
Proof. reflexivity. Qed.

Lemma str_app_cons (a : ascii) (s t : string) :
  String a s +:+ t = String a (s +:+ t).
Proof. reflexivity. Qed.

Lemma str_app_nil_r (s : string) : s +:+ "" = s.
Proof. induction s as [|a s IH]; [done|]. by rewrite str_app_cons, IH. Qed.

Lemma str_app_assoc (s t u : string) : (s +:+ t) +:+ u = s +:+ (t +:+ u).
Proof. induction s as [|a s IH]; [done|]. by rewrite !str_app_cons, IH. Qed.

End StringFacts.

(** ** Hexadecimal rendering and parsing *)

Section HexFacts.

Lemma format_02X_shape (b : byte) :
  ∃ hi lo, Hex.format_02X b = String hi (String lo "")
           ∧ Hex.digit_value hi = Some (Byte.to_N b / 16)%N
           ∧ Hex.digit_value lo = Some (Byte.to_N b mod 16)%N
           ∧ existsb (Ascii.eqb hi) (list_ascii_of_string "0123456789ABCDEF")
             = true
           ∧ existsb (Ascii.eqb lo) (list_ascii_of_string "0123456789ABCDEF")
             = true.
Proof. destruct b; do 2 eexists; repeat split; reflexivity. Qed.

Lemma fromhex_from_pair (b : byte) (pos : nat) (s : string) :
  Hex.fromhex_from pos (Hex.format_02X b +:+ s) =
  (rest ← Hex.fromhex_from (S (S pos)) s; Ok (b :: rest)).
Proof. destruct b; reflexivity. Qed.

Lemma replace_space_pair (b : byte) (s : string) :
  Py.replace_char " " "" (Hex.format_02X b +:+ s) =
  Hex.format_02X b +:+ Py.replace_char " " "" s.
Proof. destruct b; reflexivity. Qed.

Lemma replace_space_space (s : string) :
  Py.replace_char " " "" (" " +:+ s) = Py.replace_char " " "" s.
Proof. reflexivity. Qed.

(** The line of a non-empty sequence, byte by byte. *)
Lemma hex_line_cons (b b' : byte) (rest : list byte) :
  Hex.hex_line (b :: b' :: rest) =
  Hex.format_02X b +:+ " " +:+ Hex.hex_line (b' :: rest).
Proof.
  unfold Hex.hex_line. cbn [map Py.join]. by rewrite !str_app_assoc.
Qed.

Lemma hex_line_single (b : byte) :
  Hex.hex_line [b] = Hex.format_02X b +:+ " ".
Proof. reflexivity. Qed.

Lemma hex_line_nonempty (b : byte) (rest : list byte) :
  Hex.hex_line (b :: rest) = Hex.spec_spaced_pairs (b :: rest).
Proof.
  revert b. induction rest as [|b' rest IH]; intros b.
  - by rewrite hex_line_single.
  - rewrite hex_line_cons, IH. reflexivity.
Qed.

(** Without its spaces the line is the pairs, one after the other. *)
Lemma replace_space_spaced_pairs (data : list byte) (pos : nat) :
  Hex.fromhex_from pos (Py.replace_char " " "" (Hex.spec_spaced_pairs data))
  = Ok data.
Proof.
  revert pos. induction data as [|b rest IH]; intros pos; [done|].
  cbn [Hex.spec_spaced_pairs].
  rewrite replace_space_pair, replace_space_space, fromhex_from_pair, IH.
  reflexivity.
Qed.

Lemma hex_send_bytes_hex_line (data : list byte) :
  MainApp.hex_send_bytes (Hex.hex_line data) = Ok data.
Proof.
  unfold MainApp.hex_send_bytes, Hex.fromhex.
  destruct data as [|b rest]; [done|].
  rewrite hex_line_nonempty. apply replace_space_spaced_pairs.
Qed.

End HexFacts.

(** ** Dictionaries as association lists *)

Section DictFacts.

Context {V : Type}.

Lemma dict_get_Some_elem (d : list (string * V)) (key : string) (v : V) :
  Py.dict_get d key = Some v → key ∈ map fst d.
Proof.
  induction d as [|[k x] d IH]; [done|]. cbn [Py.dict_get map fst].
  destruct (String.eqb_spec k key) as [->|Hne].
  - intros _. apply list_elem_of_here.
  - intros H. apply list_elem_of_further. auto.
Qed.

Lemma dict_get_None_not_elem (d : list (string * V)) (key : string) :
  Py.dict_get d key = None → key ∉ map fst d.
Proof.
  induction d as [|[k x] d IH]; cbn [Py.dict_get map fst].
  - intros _. apply not_elem_of_nil.
  - destruct (String.eqb_spec k key) as [->|Hne]; [done|].
    intros H. apply not_elem_of_cons. split; [congruence|auto].
Qed.

Lemma dict_get_elem (d : list (string * V)) (key : string) :
  key ∈ map fst d ↔ is_Some (Py.dict_get d key).
Proof.
  split.
  - intros Hin. destruct (Py.dict_get d key) eqn:E; [eauto|].
    by apply dict_get_None_not_elem in E.
  - intros [v Hv]. by eapply dict_get_Some_elem.
Qed.

End DictFacts.

(** ** C1: the progress of a file transfer *)

Section FileSend.

Import FileSendThread.

Lemma read_shorter (n : Z) (rest : list byte) :
  (read n rest).1 ≠ [] → length (read n rest).2 < length rest.
Proof.
  unfold read. destruct (n <? 0)%Z eqn:E; cbn [fst snd].
  - destruct rest; [done|]. cbn. lia.
  - intros Hne. rewrite length_drop.
    destruct rest as [|b rest]; [by rewrite take_nil in Hne|].
    destruct (Z.to_nat n); [done|]. cbn. lia.
Qed.

(** The loop ends: as much fuel as the file has bytes, and one more,
    is enough. *)
Lemma loop_terminates (fuel : nat) (th : t) (sc : schedule) (file_size : Z)
    (i : nat) (rest : list byte) (sent_size : Z) :
  length rest < fuel →
  is_Some (loop fuel th sc file_size i rest sent_size).
Proof.
  revert i rest sent_size.
  induction fuel as [|fuel IH]; intros i rest sent_size Hlen; [lia|].
  cbn [loop]. destruct (running_at sc i && is_open_at sc i); [|by eexists].
  pose proof (read_shorter (chunk_size th) rest) as Hshort.
  destruct (read (chunk_size th) rest) as [chunk rest'].
  cbn [fst snd] in Hshort.
  destruct chunk as [|b chunk]; [by eexists|].
  destruct (if hex_mode th then _ else _) as [chunk'|e]; [|by eexists].
  destruct (write_raises sc i); [by eexists|].
  destruct (progress _ _); [|by eexists].
  destruct (IH (S i) rest' (sent_size + Z.of_nat (length chunk'))%Z)
    as [[e [sigs wr]] ->]; [|by eexists].
  specialize (Hshort ltac:(done)). lia.
Qed.

(** [run] always comes to its final message. *)
Lemma run_with_terminates (th : t) (sc : schedule) (file_size : Z)
    (opened : result (list byte)) :
  ∃ tr, run_with th sc file_size opened = Some tr
        ∧ ∃ ok msg sigs, signals tr = (sigs ++ [finished ok msg])%list.
Proof.
  unfold run_with. destruct opened as [content|e].
  - destruct (loop_terminates (S (length content)) th sc file_size 0 content 0
                ltac:(lia)) as [[e [sigs wr]] ->].
    destruct e as [sent [|]|e]; eexists; (split; [reflexivity|]);
      cbn [signals]; eauto.
  - eexists. split; [reflexivity|]. by eexists false, _, [].
Qed.

(** Every progress value is the formula of the source at the count of
    the bytes written so far. *)
Lemma loop_progress_formula (fuel : nat) (th : t) (sc : schedule)
    (file_size : Z) (i : nat) (rest : list byte) (sent_size : Z)
    (e : loop_end) (tr : trace) :
  loop fuel th sc file_size i rest sent_size = Some (e, tr) →
  Forall2 (fun value total => progress total file_size = Ok value)
    (progress_values tr)
    (take (length (progress_values tr))
       (running_totals sent_size (written tr))).
Proof.
  revert i rest sent_size e tr.
  induction fuel as [|fuel IH]; intros i rest sent_size e tr; [done|].
  cbn [loop]. destruct (running_at sc i && is_open_at sc i);
    [|intros [= <- <-]; constructor].
  destruct (read (chunk_size th) rest) as [chunk rest'].
  destruct chunk as [|b chunk]; [intros [= <- <-]; constructor|].
  destruct (if hex_mode th then _ else _) as [chunk'|ex];
    [|intros [= <- <-]; constructor].
  destruct (write_raises sc i); [intros [= <- <-]; constructor|].
  destruct (progress _ _) as [value|ex] eqn:Hp;
    [|intros [= <- <-]; constructor].
  destruct (loop fuel _ _ _ _ _ _) as [[e' [sigs wr]]|] eqn:Hl; [|done].
  intros [= <- <-]. apply IH in Hl.
  unfold progress_values in *. cbn [signals written omap] in *.
  cbn [running_totals length take]. by constructor.
Qed.

(** When the size taken is 0 the formula gives 100. *)
Lemma progress_size_zero (sent_size : Z) : progress sent_size 0 = Ok 100%Z.
Proof. reflexivity. Qed.

End FileSend.

(** In hex mode a chunk read from the file goes out as two digits per
    byte, and it is the length of what goes out that [run] adds to
    [sent_size]. *)
Lemma hex_chunk_doubles (chunk : list byte) :
  ∃ out, Codec.encode_ascii_text "utf-8" (Hex.bytes_hex chunk) = Ok out
         ∧ length out = 2 * length chunk.
Proof.
  exists (list_byte_of_string (Hex.bytes_hex chunk)). split; [reflexivity|].
  unfold list_byte_of_string.
  induction chunk as [|b chunk IH]; [done|].
  cbn [Hex.bytes_hex list_ascii_of_string map length]. rewrite IH. lia.
Qed.

(** C1, the failing input: a file of 1024 bytes sent in hex mode with
    the chunk size 1024 and the codec utf-8.  The size taken is 1024;
    the one chunk goes out as 2048 hex digits, and the worker counts
    those: it emits the progress value 200, outside the range 0 to 100
    of the progress dialog, before it reports success. *)
Theorem C1_hex_mode_progress_200 :
  let f := OS.FS {[ "data.bin" := replicate 1024 Byte.x41 ]} ∅ in
  let th := FileSendThread.init "data.bin" true "utf-8" in
  FileSendThread.get_file_size th f = 1024%Z
  ∧ ∃ tr, FileSendThread.run th FileSendThread.undisturbed f = Some tr
          ∧ FileSendThread.signals tr
            = [ FileSendThread.progress_updated 200;
                FileSendThread.finished true "文件发送完成，共发送 2048 字节" ]
          ∧ map length (FileSendThread.written tr) = [2048]
          ∧ ¬ Forall (fun v => (0 <= v <= 100)%Z)
                (FileSendThread.progress_values tr).
Proof.
  cbv zeta. split; [by vm_compute|].
  eexists. split; [by vm_compute|].
  split; [reflexivity|]. split; [by vm_compute|].
  intros H. apply Forall_cons in H as [[_ H] _]. revert H. by vm_compute.
Qed.

(** A file of 2048 bytes, not in hex mode: two progress values, 50 then
    100, and the success message with 2048 bytes. *)
Example file_send_2048_plain :
  let f := OS.FS {[ "data.bin" := replicate 2048 Byte.x41 ]} ∅ in
  let th := FileSendThread.init "data.bin" false "utf-8" in
  ∃ tr, FileSendThread.run th FileSendThread.undisturbed f = Some tr
        ∧ FileSendThread.signals tr
          = [ FileSendThread.progress_updated 50;
              FileSendThread.progress_updated 100;
              FileSendThread.finished true "文件发送完成，共发送 2048 字节" ]
        ∧ map length (FileSendThread.written tr) = [1024; 1024].
Proof.
  cbv zeta. eexists. split; [by vm_compute|]. split; [reflexivity|by vm_compute].
Qed.

(** The same file when [stop()] comes after the first chunk: one
    progress value, then the message of a cancelled transfer. *)
Example file_send_2048_cancelled :
  let f := OS.FS {[ "data.bin" := replicate 2048 Byte.x41 ]} ∅ in
  let th := FileSendThread.init "data.bin" false "utf-8" in
  ∃ tr, FileSendThread.run th
          (FileSendThread.Schedule (Some 1) None None) f = Some tr
        ∧ FileSendThread.signals tr
          = [ FileSendThread.progress_updated 50;
              FileSendThread.finished false "文件发送已取消" ].
Proof. cbv zeta. eexists. split; [by vm_compute|reflexivity]. Qed.

(** The file of 2048 bytes in hex mode: the values are 100 and 200. *)
Example file_send_2048_hex :
  let f := OS.FS {[ "data.bin" := replicate 2048 Byte.x41 ]} ∅ in
  let th := FileSendThread.init "data.bin" true "utf-8" in
  ∃ tr, FileSendThread.run th FileSendThread.undisturbed f = Some tr
        ∧ FileSendThread.signals tr
          = [ FileSendThread.progress_updated 100;
              FileSendThread.progress_updated 200;
              FileSendThread.finished true "文件发送完成，共发送 4096 字节" ].
Proof. cbv zeta. eexists. split; [by vm_compute|reflexivity]. Qed.

(** An empty file: the loop reads nothing, no progress value is emitted
    and the transfer is reported as done with 0 bytes. *)
Example file_send_empty :
  let f := OS.FS {[ "data.bin" := [] ]} ∅ in
  let th := FileSendThread.init "data.bin" false "utf-8" in
  FileSendThread.run th FileSendThread.undisturbed f
  = Some (FileSendThread.Trace
            [ FileSendThread.finished true "文件发送完成，共发送 0 字节" ] []).
Proof. by vm_compute. Qed.

(** The size could not be taken (0) while the file opens with 10 bytes:
    the one progress value is 100. *)
Example file_send_size_unknown :
  let th := FileSendThread.init "data.bin" false "utf-8" in
  ∃ tr, FileSendThread.run_with th FileSendThread.undisturbed 0
          (Ok (replicate 10 Byte.x41)) = Some tr
        ∧ FileSendThread.progress_values tr = [100%Z].
Proof. cbv zeta. eexists. split; [by vm_compute|reflexivity]. Qed.

(** The quotient is a float: for a file of 102400 bytes the value after
    the chunk number 29 is 28, since 0.29 * 100 is just below 29. *)
Example progress_is_float_arithmetic :
  FileSendThread.progress 29696 102400 = Ok 28%Z
  ∧ FileSendThread.progress 1024 2048 = Ok 50%Z
  ∧ FileSendThread.progress 2048 2048 = Ok 100%Z.
Proof. repeat split; by vm_compute. Qed.

(** ** C2: hexadecimal rendering and the hex branch of sending *)

Section HexRoundTrip.

(** C2, counterexample: for the empty byte sequence the rendering in
    hex receive mode is a single space, not the empty run of pairs
    each followed by a space; and the two are not inverse in the other
    direction: the hex branch of sending reads the text 0a as the byte
    0A, which is rendered as "0A ". *)
Lemma C2_empty_sequence_counterexample :
  MainApp._format_data Codec.decode_single_byte [] true "ascii" "replace"
  = Ok " "
  ∧ Hex.spec_spaced_pairs [] = ""
  ∧ MainApp._format_data Codec.decode_single_byte [] true "ascii" "replace"
    ≠ Ok (Hex.spec_spaced_pairs [])
  ∧ MainApp.hex_send_bytes "0a" = Ok [Byte.x0a]
  ∧ MainApp._format_data Codec.decode_single_byte [Byte.x0a] true "ascii"
      "replace" = Ok "0A "
  ∧ "0A " ≠ "0a".
Proof. repeat split; discriminate. Qed.

(** C2, amended: for every non-empty byte sequence the hex rendering
    is the upper-case two-digit pairs, each followed by a space, and
    for the empty sequence it is a single space; for every byte
    sequence, the rendering fed through the hex branch of sending
    (spaces removed, then read as pairs of hex digits) gives the
    sequence back; the bytes 0A FF 00 render as "0A FF 00 ". *)
Theorem C2_hex_render_then_send (decode : Codec.decoder) (data : list byte)
    (encoding error_handling : string) :
  MainApp._format_data decode data true encoding error_handling
  = Ok (match data with
        | [] => " "
        | _ :: _ => Hex.spec_spaced_pairs data
        end)
  ∧ (rendering ← MainApp._format_data decode data true encoding error_handling;
     MainApp.hex_send_bytes rendering) = Ok data
  ∧ MainApp._format_data decode [Byte.x0a; Byte.xff; Byte.x00] true
      encoding error_handling = Ok "0A FF 00 ".
Proof.
  split; [|split].
  - unfold MainApp._format_data. destruct data as [|b rest]; [done|].
    f_equal. apply hex_line_nonempty.
  - unfold MainApp._format_data. cbn [mbind Py.result_bind].
    apply hex_send_bytes_hex_line.
  - reflexivity.
Qed.

End HexRoundTrip.

(** ** C3: presets saved to a file and loaded again *)

Section PresetFiles.

Import PresetManager.

Lemma list_byte_of_string_app (a b : string) :
  list_byte_of_string (a +:+ b)
  = (list_byte_of_string a ++ list_byte_of_string b)%list.
Proof.
  induction a as [|c a IH]; [done|].
  rewrite str_app_cons. cbn. f_equal. exact IH.
Qed.

Lemma contains_char_app (c : ascii) (a b : string) :
  Py.contains_char c (a +:+ b)
  = Py.contains_char c a || Py.contains_char c b.
Proof.
  induction a as [|d a IH]; [done|].
  rewrite str_app_cons. cbn [Py.contains_char]. by rewrite IH, orb_assoc.
Qed.

(** A text without carriage returns is read as it is. *)
Lemma universal_newlines_id (s : string) :
  Py.contains_char Py.CR s = false → OS.universal_newlines s = s.
Proof.
  induction s as [|c s IH]; [done|]. cbn [Py.contains_char].
  intros [Hc Hs]%orb_false_elim. cbn [OS.universal_newlines].
  rewrite Hc. f_equal. auto.
Qed.

Lemma unlines_no_CR (lines : list string) :
  Forall one_line lines → Py.contains_char Py.CR (OS.unlines lines) = false.
Proof.
  induction 1 as [|l rest [_ Hl] _ IH]; [done|].
  cbn [OS.unlines]. rewrite !contains_char_app, Hl, IH. reflexivity.
Qed.

Lemma iter_lines_line (l rest : string) :
  Py.contains_char Py.LF l = false →
  OS.iter_lines (l +:+ Py.nl +:+ rest) = (l +:+ Py.nl) :: OS.iter_lines rest.
Proof.
  induction l as [|c l IH]; [done|]. cbn [Py.contains_char].
  intros [Hc Hl]%orb_false_elim. rewrite !str_app_cons.
  cbn [OS.iter_lines]. rewrite Hc, (IH Hl). reflexivity.
Qed.

Lemma iter_lines_unlines (lines : list string) :
  Forall one_line lines →
  OS.iter_lines (OS.unlines lines) = map (fun l => l +:+ Py.nl) lines.
Proof.
  induction 1 as [|l rest [Hl _] _ IH]; [done|].
  cbn [OS.unlines map]. by rewrite iter_lines_line, IH.
Qed.

Lemma rstrip_line (l : string) :
  Py.contains_char Py.LF l = false → Py.rstrip_char Py.LF (l +:+ Py.nl) = l.
Proof.
  induction l as [|c l IH]; [done|]. cbn [Py.contains_char].
  intros [Hc Hl]%orb_false_elim. rewrite str_app_cons.
  cbn [Py.rstrip_char]. rewrite (IH Hl), Hc. by destruct l.
Qed.

(** What reading the lines of a written text gives back. *)
Lemma text_lines_unlines (lines : list string) :
  Forall one_line lines →
  map (Py.rstrip_char Py.LF) (OS.text_lines (OS.unlines lines)) = lines.
Proof.
  intros Hall. unfold OS.text_lines.
  rewrite universal_newlines_id by by apply unlines_no_CR.
  rewrite iter_lines_unlines by done.
  rewrite map_map. induction Hall as [|l rest [Hl _] _ IH]; [done|].
  cbn [map]. by rewrite rstrip_line, IH.
Qed.

(** Well-formed texts one after the other are a well-formed text. *)
Lemma utf8_run_app (s : OS.utf8_state) (a b : list byte) :
  OS.utf8_run s a = true → OS.utf8_valid b = true →
  OS.utf8_run s (a ++ b) = true.
Proof.
  revert s. induction a as [|x a IH]; intros s; cbn [OS.utf8_run app].
  - by destruct s.
  - destruct (OS.utf8_next s (Byte.to_N x)); [apply IH|done].
Qed.

Lemma utf8_valid_app (a b : list byte) :
  OS.utf8_valid a = true → OS.utf8_valid b = true →
  OS.utf8_valid (a ++ b) = true.
Proof. apply utf8_run_app. Qed.

(** A preset as a Python string: its bytes are well-formed UTF-8. *)
Lemma utf8_valid_unlines (lines : list string) :
  Forall (fun l => OS.utf8_valid (list_byte_of_string l) = true) lines →
  OS.utf8_valid (list_byte_of_string (OS.unlines lines)) = true.
Proof.
  induction 1 as [|l rest Hl _ IH]; [done|]. cbn [OS.unlines].
  rewrite !list_byte_of_string_app. by repeat apply utf8_valid_app.
Qed.

(** The writes of [save_presets_to_file], one after the other. *)
Lemma write_all_willing (lines : list string) (k : nat) (content : list byte) :
  write_all willing k lines content
  = (Ok tt, Holds (content ++ list_byte_of_string (OS.unlines lines))).
Proof.
  revert k content. induction lines as [|l rest IH]; intros k content.
  - cbn. by rewrite app_nil_r.
  - cbn [write_all willing write_failure OS.unlines]. rewrite IH.
    by rewrite !list_byte_of_string_app, <- !(assoc_L (++)).
Qed.

(** Whatever the operating system does: when the loop comes to its end
    the file holds the lines, and nothing else. *)
Lemma write_all_holds (env : save_env) (lines : list string) (k : nat)
    (content held : list byte) (r : result unit) :
  write_all env k lines content = (r, Holds held) →
  r = Ok tt ∧ held = (content ++ list_byte_of_string (OS.unlines lines))%list.
Proof.
  revert k content. induction lines as [|l rest IH]; intros k content.
  - cbn [write_all OS.unlines]. rewrite app_nil_r.
    destruct (write_failure env) as [[j e]|]; [destruct (j =? k)%nat|];
      by intros [= <- <-].
  - cbn [write_all OS.unlines].
    assert (write_all env (S k) rest
              (content ++ list_byte_of_string (l +:+ Py.nl)) = (r, Holds held) →
            r = Ok tt
            ∧ held = (content ++ list_byte_of_string
                                   (l +:+ Py.nl +:+ OS.unlines rest))%list)
      as Hstep.
    { intros [-> ->]%IH. split; [done|].
      by rewrite !list_byte_of_string_app, <- !(assoc_L (++)). }
    destruct (write_failure env) as [[j e]|]; [destruct (j =? k)%nat|];
      [done|exact Hstep..].
Qed.

Lemma truthy_str_true (s : string) : s ≠ "" → Py.truthy_str s = true.
Proof. by destruct s. Qed.

(** Saving a list succeeds exactly when the list is not empty and the
    operating system lets the file be written; the file then holds the
    lines of the list, and nothing else. *)
Lemma save_presets_to_file_ok (pm : t) (f : OS.fs) (env : save_env)
    (path : string) (outcome : saved) :
  save_presets_to_file pm f env path = (Ok true, outcome) →
  presets pm ≠ []
  ∧ file outcome = Holds (list_byte_of_string (OS.unlines (presets pm))).
Proof.
  unfold save_presets_to_file, save_body.
  destruct (presets pm) as [|x l] eqn:Hp; [done|].
  destruct (if _ : bool then mkdir_failure env else None); [done|].
  destruct (open_failure env); [done|].
  destruct (write_all env 0 (x :: l) []) as [r effect] eqn:Hw.
  destruct r as [[]|e]; [|done]. intros [= <-]. split; [done|]. cbn [file].
  destruct effect as [|held|].
  - exfalso. revert Hw. generalize 0 (@nil byte). generalize (x :: l).
    induction l0 as [|y l0 IH]; intros k content; cbn [write_all];
      repeat case_match; (done || apply IH).
  - by apply write_all_holds in Hw as [_ ->].
  - exfalso. revert Hw. generalize 0 (@nil byte). generalize (x :: l).
    induction l0 as [|y l0 IH]; intros k content; cbn [write_all];
      repeat case_match; (done || apply IH).
Qed.

Lemma save_presets_to_file_willing (pm : t) (f : OS.fs) (path : string) :
  presets pm ≠ [] →
  ∃ made, save_presets_to_file pm f willing path
          = (Ok true,
             Saved made (Holds (list_byte_of_string (OS.unlines (presets pm))))).
Proof.
  intros Hne. unfold save_presets_to_file, save_body.
  destruct (presets pm) as [|x l] eqn:Hp; [done|].
  cbn [willing mkdir_failure open_failure].
  destruct (_ && _); rewrite write_all_willing; by eexists.
Qed.

Lemma load_presets_from_file_content (message : list byte → string) (pm : t)
    (f : OS.fs) (path : string) (content : list byte) :
  path ≠ "" → OS.files f !! path = Some content →
  OS.utf8_valid content = true →
  load_presets_from_file message pm f path
  = (Ok true,
     Mk (map (Py.rstrip_char Py.LF)
           (OS.text_lines (string_of_list_byte content)))
        (default_presets pm)).
Proof.
  intros Hpath Hc Hvalid.
  unfold load_presets_from_file, load_body, OS.path_exists, OS.open_read,
    OS.decode_utf8.
  rewrite (truthy_str_true _ Hpath), Hc.
  rewrite bool_decide_eq_true_2 by eauto. cbn. by rewrite Hvalid.
Qed.

(** The path function at work. *)
Example dirname_examples :
  map OS.dirname ["a/b"; "/a"; "a"; "a//b"; "//a"; ""; "/"; "/a/b/c.txt"]
  = ["a"; "/"; ""; "a"; "//"; ""; "/"; "/a/b"].
Proof. reflexivity. Qed.

(** The decoder at work: two- and three-byte characters, a stray
    continuation byte, an overlong form, a surrogate, a text cut
    short. *)
Example utf8_valid_examples :
  map OS.utf8_valid
    [ list_byte_of_string "AT 设备";
      [Byte.x41; Byte.xff];
      [Byte.x80];
      [Byte.xc0; Byte.x80];
      [Byte.xed; Byte.xa0; Byte.x80];
      [Byte.xe8; Byte.xae] ]
  = [true; false; false; false; false; false].
Proof. reflexivity. Qed.

(** C3, counterexample: two lists that hold no line feed and do not
    come back.  A preset with a carriage return inside is saved, and
    the file is read back as two presets: reading a text file turns
    the carriage return into a line end.  The empty list is not saved
    at all: [save_presets_to_file] raises. *)
Lemma C3_carriage_return_counterexample :
  let preset := "a" +:+ String Py.CR "" +:+ "b" in
  Py.contains_char Py.LF preset = false
  ∧ (∃ made content,
       save_presets_to_file (Mk [preset] builtin_defaults) (OS.FS ∅ ∅) willing
         "p.txt"
       = (Ok true, Saved made (Holds content))
       ∧ load_presets_from_file (fun _ => "") (init None)
           (OS.FS {[ "p.txt" := content ]} ∅) "p.txt"
         = (Ok true, Mk ["a"; "b"] builtin_defaults)
       ∧ ["a"; "b"] ≠ [preset])
  ∧ save_presets_to_file (Mk [] builtin_defaults) (OS.FS ∅ ∅) willing "p.txt"
    = (Raise (Exception_ "保存预设失败: 没有预设可保存"), Saved None Untouched).
Proof.
  cbv zeta. split; [reflexivity|]. split; [|reflexivity].
  eexists _, _. split; [reflexivity|]. split; [by vm_compute|done].
Qed.

(** C3, amended: a list of presets that hold neither a line feed nor
    a carriage return (and are texts, that is well-formed UTF-8),
    saved to a path, is loaded again from that path as the same list
    in the same order, whatever the manager that loads held before.
    Saving succeeds when the list is not empty and the operating
    system lets the directory be made and the file be written; the
    file then holds the presets, one per line.  Loading from a path
    that does not exist fails with the not-found error of the method,
    which leaves it wrapped in an exception of the same text, and the
    list in memory stays as it was. *)
Theorem C3_save_then_load (message : list byte → string) (pm other : t)
    (f f' : OS.fs) (env : save_env) (path : string) (outcome : saved)
    (content : list byte) :
  (presets pm ≠ [] →
   ∃ made, save_presets_to_file pm f willing path
           = (Ok true,
              Saved made
                (Holds (list_byte_of_string (OS.unlines (presets pm))))))
  ∧ (Forall one_line (presets pm) →
     Forall (fun l => OS.utf8_valid (list_byte_of_string l) = true)
       (presets pm) →
     path ≠ "" →
     save_presets_to_file pm f env path = (Ok true, outcome) →
     file outcome = Holds content →
     OS.files f' !! path = Some content →
     load_presets_from_file message other f' path
     = (Ok true, Mk (presets pm) (default_presets other)))
  ∧ (OS.path_exists f path = false →
     load_body message other f path
     = Raise (FileNotFoundError ("文件不存在: " +:+ path))
     ∧ load_presets_from_file message other f path
       = (Raise (Exception_ ("加载预设失败: " +:+ "文件不存在: " +:+ path)),
          other)).
Proof.
  split; [apply save_presets_to_file_willing|]. split.
  - intros Hlines Hvalid Hpath Hsave Hfile Hthere.
    apply save_presets_to_file_ok in Hsave as [_ Hheld].
    rewrite Hheld in Hfile. injection Hfile as <-.
    rewrite (load_presets_from_file_content _ _ _ _ _ Hpath Hthere)
      by by apply utf8_valid_unlines.
    by rewrite string_of_list_byte_of_string, text_lines_unlines.
  - intros Hmissing. unfold load_presets_from_file, load_body.
    rewrite Hmissing. done.
Qed.

(** C3 at work: the list a, b, c through the file [out/presets.txt],
    whose directory is made on the way, and a load from a path that is
    not there. *)
Lemma C3_save_then_load_witness :
  save_presets_to_file (Mk ["a"; "b"; "c"] builtin_defaults) (OS.FS ∅ ∅)
    willing "out/presets.txt"
  = (Ok true,
     Saved (Some "out")
       (Holds (list_byte_of_string ("a" +:+ Py.nl +:+ "b" +:+ Py.nl
                                    +:+ "c" +:+ Py.nl))))
  ∧ load_presets_from_file (fun _ => "") (init None)
      (OS.FS {[ "out/presets.txt" :=
                  list_byte_of_string ("a" +:+ Py.nl +:+ "b" +:+ Py.nl
                                       +:+ "c" +:+ Py.nl) ]}
             {[ "out" := 4096%Z ]})
      "out/presets.txt"
    = (Ok true, Mk ["a"; "b"; "c"] builtin_defaults)
  ∧ load_presets_from_file (fun _ => "") (init None) (OS.FS ∅ ∅) "missing.txt"
    = (Raise (Exception_ "加载预设失败: 文件不存在: missing.txt"), init None).
Proof.
  split; [reflexivity|]. split.
  - refine (proj1 (proj2
      (C3_save_then_load (fun _ => "") (Mk ["a"; "b"; "c"] builtin_defaults)
         (init None) (OS.FS ∅ ∅)
         (OS.FS {[ "out/presets.txt" :=
                     list_byte_of_string ("a" +:+ Py.nl +:+ "b" +:+ Py.nl
                                          +:+ "c" +:+ Py.nl) ]}
                {[ "out" := 4096%Z ]})
         willing "out/presets.txt"
         (Saved (Some "out")
            (Holds (list_byte_of_string ("a" +:+ Py.nl +:+ "b" +:+ Py.nl
                                         +:+ "c" +:+ Py.nl))))
         (list_byte_of_string ("a" +:+ Py.nl +:+ "b" +:+ Py.nl
                               +:+ "c" +:+ Py.nl)))) _ _ _ _ _ _).
    + repeat constructor.
    + repeat constructor.
    + done.
    + reflexivity.
    + reflexivity.
    + reflexivity.
  - refine (proj2 (proj2 (proj2
      (C3_save_then_load (fun _ => "") (init None) (init None) (OS.FS ∅ ∅)
         (OS.FS ∅ ∅) willing "missing.txt" (Saved None Untouched) [])) _)).
    reflexivity.
Defined.

End PresetFiles.

(** ** C4: the connection factory *)

Section Factory.

Import Connection ConnectionManager.

Lemma lower_char_idemp (c : ascii) :
  Py.lower_char (Py.lower_char c) = Py.lower_char c.
Proof. destruct c as [[] [] [] [] [] [] [] []]; reflexivity. Qed.

Lemma lower_idemp (s : string) : Py.lower (Py.lower s) = Py.lower s.
Proof.
  induction s as [|c s IH]; [done|].
  cbn [Py.lower]. by rewrite lower_char_idemp, IH.
Qed.

Lemma accepted_names_keys : map fst connection_types = accepted_names.
Proof. reflexivity. Qed.

Lemma new_Serial_kind be kw c : new_Serial be kw = Ok c → kind c = "serial".
Proof.
  unfold new_Serial. destruct (bind_kwargs _ _ _) as [args|]; [|done].
  cbn [mbind Py.result_bind].
  destruct args as [|? [|? [|? [|? [|? [|]]]]]]; try done. by intros [= <-].
Qed.

Lemma new_TCP_kind cls name be kw c :
  new_TCP cls name be kw = Ok c → kind c = kind (TCP_init cls PNone PNone PNone).
Proof.
  unfold new_TCP. destruct (bind_kwargs _ _ _) as [args|]; [|done].
  cbn [mbind Py.result_bind].
  destruct args as [|? [|? [|? [|]]]]; try done. intros [= <-]. by destruct cls.
Qed.

Lemma new_UDP_kind be kw c : new_UDP be kw = Ok c → kind c = "udp".
Proof.
  unfold new_UDP. destruct (bind_kwargs _ _ _) as [args|]; [|done].
  cbn [mbind Py.result_bind].
  destruct args as [|? [|? [|? [|? [|]]]]]; try done. by intros [= <-].
Qed.

Lemma new_Bluetooth_kind be kw c :
  new_Bluetooth be kw = Ok c → kind c = "bluetooth".
Proof.
  unfold new_Bluetooth. destruct (bind_kwargs _ _ _) as [args|]; [|done].
  cbn [mbind Py.result_bind].
  destruct args as [|? [|? [|]]]; try done. by intros [= <-].
Qed.

(** The class found under a key builds objects of the kind of that
    key, not yet connected. *)
Lemma connection_types_kind key class be kw c :
  Py.dict_get connection_types key = Some class →
  class be kw = Ok c → kind c = key.
Proof.
  unfold connection_types. cbn [Py.dict_get].
  repeat match goal with
         | |- context [String.eqb ?name key] =>
             destruct (String.eqb_spec name key) as [<-|_];
             [intros [= <-] H;
              first [ exact (new_Serial_kind _ _ _ H)
                    | exact (new_TCP_kind _ _ _ _ _ H)
                    | exact (new_UDP_kind _ _ _ H)
                    | exact (new_Bluetooth_kind _ _ _ H) ]|]
         end.
  done.
Qed.

(** C4: [create_connection] takes the six type names in any mix of
    upper and lower case, with the same result as for the lower-case
    name: on success the new object is of the class of that name, it
    is the current connection and it is in the lookup table under its
    info string; when the constructor refuses the arguments the
    manager is as before; each of the six names does succeed with the
    arguments of its class.  For every name outside the six it raises
    [ValueError] and leaves the manager, with its current connection
    and its lookup table, as it was. *)
Theorem C4_create_connection (m : t) (connection_type : string)
    (kw : kwargs) (be : backend) :
  (Py.lower connection_type ∉ accepted_names →
   create_connection m connection_type kw be
   = (Raise (ValueError ("不支持的连接类型: " +:+ connection_type)), m))
  ∧ (Py.lower connection_type ∈ accepted_names →
     create_connection m connection_type kw be
     = create_connection m (Py.lower connection_type) kw be
     ∧ match create_connection m connection_type kw be with
       | (Ok ref, m') =>
           ∃ c, objects m' !! ref = Some c
                ∧ kind c = Py.lower connection_type
                ∧ current_connection m' = Some ref
                ∧ connections m' !! get_info c = Some ref
       | (Raise e, m') => m' = m ∧ ∃ msg, e = TypeError msg
       end)
  ∧ Forall (fun name =>
              ∃ kw' ref m', create_connection m name kw' be = (Ok ref, m'))
      accepted_names.
Proof.
  unfold create_connection. split; [|split].
  - intros Hnot. rewrite <- accepted_names_keys in Hnot.
    destruct (Py.dict_get connection_types (Py.lower connection_type))
      as [class|] eqn:E; [|done].
    by apply dict_get_Some_elem in E.
  - intros Hin. rewrite <- accepted_names_keys in Hin.
    apply dict_get_elem in Hin as [class Hclass].
    rewrite lower_idemp, Hclass. split; [done|].
    destruct (class be kw) as [c|e] eqn:E.
    + exists c. cbn [objects current_connection connections].
      rewrite !lookup_insert_eq.
      eauto using connection_types_kind.
    + split; [done|]. clear -Hclass E. revert Hclass E.
      unfold connection_types. cbn [Py.dict_get].
      repeat match goal with
             | |- context [String.eqb ?name (Py.lower connection_type)] =>
                 destruct (String.eqb_spec name (Py.lower connection_type))
                   as [_|_];
                 [intros [= <-];
                  unfold new_Serial, new_TCP, new_UDP, new_Bluetooth,
                    bind_kwargs;
                  repeat case_match; cbn; intros; simplify_eq; eauto|]
             end.
      done.
  - repeat constructor.
    + by eexists [("port_name", PStr "COM3"); ("baudrate", PInt 115200)], _, _.
    + by eexists [("host", PStr "127.0.0.1"); ("port", PInt 8080)], _, _.
    + by eexists [("local_host", PStr "0.0.0.0"); ("local_port", PInt 8080)], _, _.
    + by eexists [("host", PStr "127.0.0.1"); ("port", PInt 8080)], _, _.
    + by eexists [("host", PStr "127.0.0.1"); ("port", PInt 8080)], _, _.
    + by eexists [("address", PStr "00:11:22:33:44:55")], _, _.
Qed.

(** C4 at work: SERIAL and serial build a serial connection, which
    becomes the current one; carrier-pigeon is refused and the manager
    that holds that connection stays as it is. *)
Lemma C4_create_connection_witness :
  let kw := [ ("port_name", PStr "COM3"); ("baudrate", PInt 115200) ] in
  let made := Serial_init (PStr "COM3") (PInt 115200) (PInt 8) (PStr "N")
                (PInt 1) in
  let m1 := Mk {[ 0 := made ]} 1 (Some 0) {[ "串口 COM3，波特率 115200" := 0 ]} in
  create_connection init "SERIAL" kw NoBackend = (Ok 0, m1)
  ∧ create_connection init "SERIAL" kw NoBackend
    = create_connection init "serial" kw NoBackend
  ∧ create_connection m1 "carrier-pigeon" kw NoBackend
    = (Raise (ValueError "不支持的连接类型: carrier-pigeon"), m1).
Proof.
  cbv zeta. split; [reflexivity|]. split.
  - refine (proj1 (proj1 (proj2 (C4_create_connection init "SERIAL" _
                                   NoBackend)) _)).
    by refine (bool_decide_unpack _ _).
  - refine (proj1 (C4_create_connection _ "carrier-pigeon" _ NoBackend) _).
    by refine (bool_decide_unpack _ _).
Defined.

End Factory.

(** ** C5: the three places that format received bytes *)

Section Formatting.

Variable decode : Codec.decoder.

Lemma SerialThread_pass_format (w : Workers.worker) (data : list byte) :
  Workers.SerialThread_pass decode w (Ok data) =
  match data with
  | [] => ([], true)
  | _ :: _ =>
      match MainApp._format_data decode data (Workers.hex_mode w)
              (Workers.encoding w) (Workers.error_handling w) with
      | Ok text => ([Workers.data_received text], true)
      | Raise e => ([Workers.reception_error e], false)
      end
  end.
Proof.
  destruct data as [|b rest]; [done|].
  unfold Workers.SerialThread_pass, MainApp._format_data.
  cbn [mbind Py.result_bind].
  destruct (Workers.hex_mode w); [done|].
  by destruct (decode _ _ _).
Qed.

Lemma DataReceiveThread_pass_format (w : Workers.worker) (data : list byte) :
  Workers.DataReceiveThread_pass decode w (Ok data) =
  match data with
  | [] => ([], true)
  | _ :: _ =>
      match MainApp._format_data decode data (Workers.hex_mode w)
              (Workers.encoding w) (Workers.error_handling w) with
      | Ok text =>
          ([Workers.raw_data_received data; Workers.data_received text], true)
      | Raise e => ([Workers.raw_data_received data; Workers.reception_error e], false)
      end
  end.
Proof. by destruct data. Qed.

Lemma pass_agree (w : Workers.worker) (incoming : result (list byte)) :
  Workers.texts (Workers.SerialThread_pass decode w incoming).1
  = Workers.texts (Workers.DataReceiveThread_pass decode w incoming).1
  ∧ Workers.errors (Workers.SerialThread_pass decode w incoming).1
    = Workers.errors (Workers.DataReceiveThread_pass decode w incoming).1
  ∧ (Workers.SerialThread_pass decode w incoming).2
    = (Workers.DataReceiveThread_pass decode w incoming).2.
Proof.
  destruct incoming as [data|e]; [|done].
  rewrite SerialThread_pass_format, DataReceiveThread_pass_format.
  destruct data as [|b rest]; [done|].
  by destruct (MainApp._format_data _ _ _ _ _).
Qed.

Lemma texts_app (a b : list Workers.signal) :
  Workers.texts (a ++ b) = (Workers.texts a ++ Workers.texts b)%list.
Proof. apply omap_app. Qed.

Lemma errors_app (a b : list Workers.signal) :
  Workers.errors (a ++ b) = (Workers.errors a ++ Workers.errors b)%list.
Proof. apply omap_app. Qed.

Lemma loop_agree (obs : list Workers.observation) (w : Workers.worker) :
  Workers.texts (Workers.loop (Workers.SerialThread_pass decode) w obs).1
  = Workers.texts (Workers.loop (Workers.DataReceiveThread_pass decode) w obs).1
  ∧ Workers.errors (Workers.loop (Workers.SerialThread_pass decode) w obs).1
    = Workers.errors
        (Workers.loop (Workers.DataReceiveThread_pass decode) w obs).1
  ∧ (Workers.loop (Workers.SerialThread_pass decode) w obs).2
    = (Workers.loop (Workers.DataReceiveThread_pass decode) w obs).2.
Proof.
  revert w. induction obs as [|o rest IH]; intros w; [done|].
  destruct o as [incoming|hex enc err| |]; cbn [Workers.loop]; [|apply IH|done..].
  destruct (pass_agree w incoming) as (Ht & He & Hc).
  destruct (Workers.SerialThread_pass decode w incoming) as [s1 c1].
  destruct (Workers.DataReceiveThread_pass decode w incoming) as [s2 c2].
  cbn [fst snd] in Ht, He, Hc. subst c2.
  destruct c1; [|done].
  destruct (IH w) as (IHt & IHe & IHw).
  destruct (Workers.loop (Workers.SerialThread_pass decode) w rest).
  destruct (Workers.loop (Workers.DataReceiveThread_pass decode) w rest).
  cbn [fst snd] in *. rewrite !texts_app, !errors_app.
  repeat split; congruence.
Qed.

(** C5, amended: the serial read worker, the generic receiver thread
    and the formatting helper of the window compute the same text for
    every byte sequence that is not empty, which is what the workers
    format.  For every such sequence and every setting, the helper
    returns, and a pass of either worker publishes, the same string:
    in hex mode the two-digit upper-case pairs, each followed by a
    space, otherwise the bytes decoded with the codec and the error
    policy of the setting (and when decoding raises, all three raise or
    report that error).  Over any course of observations the two
    workers publish the same texts and the same errors. *)
Theorem C5_three_formatters_agree (w : Workers.worker) (data : list byte) :
  data ≠ [] →
  let expected :=
    if Workers.hex_mode w then Ok (Hex.spec_spaced_pairs data)
    else decode (Workers.encoding w) (Workers.error_handling w) data in
  MainApp._format_data decode data (Workers.hex_mode w)
    (Workers.encoding w) (Workers.error_handling w) = expected
  ∧ Workers.SerialThread_pass decode w (Ok data)
    = match expected with
      | Ok text => ([Workers.data_received text], true)
      | Raise e => ([Workers.reception_error e], false)
      end
  ∧ Workers.DataReceiveThread_pass decode w (Ok data)
    = match expected with
      | Ok text =>
          ([Workers.raw_data_received data; Workers.data_received text], true)
      | Raise e =>
          ([Workers.raw_data_received data; Workers.reception_error e], false)
      end
  ∧ ∀ obs : list Workers.observation,
      Workers.texts (Workers.SerialThread_run decode w obs).1
      = Workers.texts (Workers.DataReceiveThread_run decode w obs).1
      ∧ Workers.errors (Workers.SerialThread_run decode w obs).1
        = Workers.errors (Workers.DataReceiveThread_run decode w obs).1.
Proof.
  intros Hdata. cbv zeta.
  assert (MainApp._format_data decode data (Workers.hex_mode w)
            (Workers.encoding w) (Workers.error_handling w)
          = if Workers.hex_mode w then Ok (Hex.spec_spaced_pairs data)
            else decode (Workers.encoding w) (Workers.error_handling w) data)
    as Hsame.
  { unfold MainApp._format_data. destruct (Workers.hex_mode w); [|done].
    destruct data as [|b rest]; [done|]. f_equal. apply hex_line_nonempty. }
  split; [exact Hsame|]. rewrite <- Hsame.
  split; [|split].
  - rewrite SerialThread_pass_format. by destruct data.
  - rewrite DataReceiveThread_pass_format. by destruct data.
  - intros obs. unfold Workers.SerialThread_run, Workers.DataReceiveThread_run.
    destruct (loop_agree obs (Workers.start w)) as (Ht & He & _). done.
Qed.

End Formatting.

(** C5, counterexample: the empty byte sequence in hex mode.  The
    helper of the window returns a single space for it; the two
    workers, which format only what is not empty, publish no text at
    all for an empty read.  So the three do not produce the same
    string for every byte sequence. *)
Lemma C5_empty_read_counterexample :
  let w := Workers.Worker true true "utf-8" "replace" in
  MainApp._format_data Codec.decode_single_byte [] true "utf-8" "replace"
  = Ok " "
  ∧ Workers.SerialThread_pass Codec.decode_single_byte w (Ok []) = ([], true)
  ∧ Workers.DataReceiveThread_pass Codec.decode_single_byte w (Ok [])
    = ([], true)
  ∧ Workers.texts
      (fst (Workers.SerialThread_pass Codec.decode_single_byte w (Ok [])))
    ≠ [" "]
  ∧ Workers.texts
      (fst (Workers.DataReceiveThread_pass Codec.decode_single_byte w (Ok [])))
    ≠ [" "].
Proof. repeat split; discriminate. Qed.

(** C5 at work: the bytes 0A FF in hex mode, and under the strict
    [ascii] codec, where all three come to the same error. *)
Lemma C5_three_formatters_agree_witness :
  Workers.SerialThread_pass Codec.decode_single_byte
    (Workers.Worker true true "ascii" "strict") (Ok [Byte.x0a; Byte.xff])
  = ([Workers.data_received "0A FF "], true)
  ∧ Workers.DataReceiveThread_pass Codec.decode_single_byte
      (Workers.Worker true false "ascii" "strict") (Ok [Byte.x0a; Byte.xff])
    = ([Workers.raw_data_received [Byte.x0a; Byte.xff];
        Workers.reception_error
          (UnicodeDecodeError
             "'ascii' codec can't decode byte 0xff in position 1: ordinal not in range(128)")],
       false).
Proof.
  split.
  - exact (proj1 (proj2
      (C5_three_formatters_agree Codec.decode_single_byte
         (Workers.Worker true true "ascii" "strict") [Byte.x0a; Byte.xff]
         ltac:(done)))).
  - exact (proj1 (proj2 (proj2
      (C5_three_formatters_agree Codec.decode_single_byte
         (Workers.Worker true false "ascii" "strict") [Byte.x0a; Byte.xff]
         ltac:(done))))).
Defined.

(** A run of both workers over the same observations, with the [ascii]
    codec: a text, a switch to hex mode, an undecodable byte. *)
Example workers_example :
  let w := Workers.init false "ascii" "strict" in
  let obs := [ Workers.Poll (Ok [Byte.x68; Byte.x69]);
               Workers.Poll (Ok []);
               Workers.Update (Some true) None None;
               Workers.Poll (Ok [Byte.x0a; Byte.xff]);
               Workers.Update (Some false) None None;
               Workers.Poll (Ok [Byte.xff]);
               Workers.Poll (Ok [Byte.x68]) ] in
  (Workers.SerialThread_run Codec.decode_single_byte w obs).1
  = [ Workers.data_received "hi";
      Workers.data_received "0A FF ";
      Workers.error_occurred
        "接收错误: 'ascii' codec can't decode byte 0xff in position 0: ordinal not in range(128)" ]
  ∧ (Workers.DataReceiveThread_run Codec.decode_single_byte w obs).1
    = [ Workers.raw_data_received [Byte.x68; Byte.x69];
        Workers.data_received "hi";
        Workers.raw_data_received [Byte.x0a; Byte.xff];
        Workers.data_received "0A FF ";
        Workers.raw_data_received [Byte.xff];
        Workers.error_occurred
          "接收错误: 'ascii' codec can't decode byte 0xff in position 0: ordinal not in range(128)" ].
Proof. split; reflexivity. Qed.

(** ** C6: the theme store *)

Section Themes.

Import ThemeManager.

Lemma get_all_themes_eight : get_all_themes = eight_names.
Proof. reflexivity. Qed.

Lemma get_all_themes_NoDup : NoDup get_all_themes.
Proof. refine (@bool_decide_unpack (NoDup get_all_themes) _ _). by vm_compute. Qed.

(** The palettes of [THEMES] are those of the specification's table. *)
Lemma THEMES_is_spec_table :
  Forall (fun entry =>
            ∃ en, english_name entry.1 = Some en
                  ∧ Py.dict_get spec_palette_table en = Some entry.2)
         THEMES.
Proof. repeat constructor; eexists; split; reflexivity. Qed.

Lemma initial_theme_is_blue :
  Py.dict_get THEMES "蓝色" = Some initial_theme.
Proof. reflexivity. Qed.

(** C6: for each of the eight theme names, [set_theme] returns [True]
    and [get_theme()] then returns the palette of that name, with its
    eleven roles as in the specification's table; for every other
    name [set_theme] returns [False] and leaves the current theme as
    it is, and [get_theme] of that name is the current palette. *)
Theorem C6_set_theme_get_theme (current : palette) (name : string) :
  match Py.dict_get THEMES name with
  | Some p =>
      name ∈ eight_names
      ∧ set_theme current name = (true, p)
      ∧ get_theme (snd (set_theme current name)) None = p
      ∧ (∃ en, english_name name = Some en
               ∧ Py.dict_get spec_palette_table en = Some p)
  | None =>
      (name ∉ eight_names)
      ∧ set_theme current name = (false, current)
      ∧ get_theme (snd (set_theme current name)) None = current
      ∧ get_theme current (Some name) = current
  end
  ∧ Forall (fun n => is_Some (Py.dict_get THEMES n)) eight_names.
Proof.
  split.
  - destruct (Py.dict_get THEMES name) as [p|] eqn:E.
    + pose proof (dict_get_Some_elem _ _ _ E) as Hin.
      split; [exact Hin|]. unfold set_theme. rewrite E.
      split; [done|]. split; [done|].
      pose proof THEMES_is_spec_table as Hall.
      rewrite Forall_forall in Hall.
      assert ((name, p) ∈ THEMES) as Hmem.
      { clear -E. revert E. generalize THEMES.
        induction l as [|[k x] l IH]; [done|]. cbn [Py.dict_get].
        destruct (String.eqb_spec k name) as [->|Hne].
        - intros [= ->]. apply list_elem_of_here.
        - intros H. apply list_elem_of_further. auto. }
      exact (Hall _ Hmem).
    + pose proof (dict_get_None_not_elem _ _ E) as Hnot.
      split; [exact Hnot|]. unfold set_theme, get_theme. rewrite E.
      repeat split. by destruct (Py.truthy_str name).
  - repeat constructor; eexists; reflexivity.
Qed.

End Themes.

(** ** C7: adding a preset *)

Section Presets.

Import PresetManager.

Lemma truthy_str_empty (s : string) : Py.truthy_str s = false ↔ s = "".
Proof. by destruct s. Qed.

(** C7: [add_preset] returns [False] and leaves the list as it is when
    the text is empty or already in the list; for every non-empty text
    that is not in the list it returns [True], the list is one longer,
    the text is its last element and every preset keeps its place. *)
Theorem C7_add_preset (pm : t) (text : string) :
  (text = "" ∨ text ∈ presets pm → add_preset pm text = (false, pm))
  ∧ (text ≠ "" → text ∉ presets pm →
     (add_preset pm text).1 = true
     ∧ presets (add_preset pm text).2 = (presets pm ++ [text])%list
     ∧ length (presets (add_preset pm text).2) = S (length (presets pm))
     ∧ last (presets (add_preset pm text).2) = Some text
     ∧ (∀ i x, presets pm !! i = Some x →
               presets (add_preset pm text).2 !! i = Some x)
     ∧ default_presets (add_preset pm text).2 = default_presets pm).
Proof.
  unfold add_preset, Py.str_in. split.
  - intros [->|Hin]; [done|].
    rewrite (bool_decide_eq_true_2 _ Hin). by rewrite andb_false_r.
  - intros Hne Hnot.
    rewrite (bool_decide_eq_false_2 _ Hnot).
    destruct (Py.truthy_str text) eqn:E;
      [|by apply truthy_str_empty in E].
    cbn [andb negb fst snd presets default_presets].
    split; [done|]. split; [done|].
    split; [rewrite length_app; cbn; lia|].
    split; [apply last_snoc|].
    split; [|done]. intros i x Hi. by apply lookup_app_l_Some.
Qed.

(** C7 at work: a duplicate and an empty text are refused, a new text
    goes to the end. *)
Lemma C7_add_preset_witness :
  add_preset (init None) "1234567890" = (false, init None)
  ∧ add_preset (init None) "" = (false, init None)
  ∧ presets (add_preset (init None) "AT+RST").2
    = [ "Hello, World!"; "Serial communication test"; "1234567890";
        "AT+RST" ].
Proof.
  split; [|split].
  - apply (proj1 (C7_add_preset (init None) "1234567890")).
    right. by refine (bool_decide_unpack _ _).
  - apply (proj1 (C7_add_preset (init None) "")). by left.
  - apply (proj2 (C7_add_preset (init None) "AT+RST")); [done|].
    by refine (bool_decide_unpack _ _).
Defined.

End Presets.

(** ** C8: the three handlers of the receive display options *)

Section DisplayOptions.

Import MainApp.

Variable decode : Codec.decoder.

Lemma result_fmap_bind {A B C} (f : B → C) (r : result A) (k : A → result B) :
  f <$> (r ≫= k) = r ≫= (fun a => f <$> k a).
Proof. by destruct r. Qed.

(** One turn of the loop of [_refresh_display] appends the rendering
    of the entry, or raises as that rendering does. *)
Lemma redraw_cons (w : window) (e : entry) (rest : list entry)
    (doc : list fragment) :
  match entry_rendering decode w e with
  | Ok rendered =>
      redraw decode w (e :: rest) doc
      = redraw decode w rest (doc ++ rendered)%list
  | Raise ex => snd (redraw decode w (e :: rest) doc) = Some ex
  end.
Proof.
  cbn [redraw]. unfold entry_rendering.
  destruct (is_sent e); [|destruct (_format_data decode _ _ _ _)];
    cbn [mbind Py.result_bind mret Py.result_ret]; try done;
    destruct (timestamp_check w), (newline_check w);
    f_equal; cbn; by rewrite <- ?(assoc_L (++)).
Qed.

(** The loop lays the renderings of the entries one after the other,
    and stops at the first that raises. *)
Lemma redraw_renders (w : window) (entries : list entry) (doc : list fragment) :
  match mapM (entry_rendering decode w) entries with
  | Ok rendered =>
      redraw decode w entries doc = ((doc ++ concat rendered)%list, None)
  | Raise ex => snd (redraw decode w entries doc) = Some ex
  end.
Proof.
  revert doc. induction entries as [|e rest IH]; intros doc.
  - cbn. by rewrite app_nil_r.
  - pose proof (redraw_cons w e rest doc) as Hstep. cbn [mapM].
    destruct (entry_rendering decode w e) as [rendered|ex];
      cbn [mbind Py.result_bind]; [|exact Hstep].
    rewrite Hstep. specialize (IH (doc ++ rendered)%list).
    destruct (mapM (entry_rendering decode w) rest) as [more|ex];
      cbn [mbind Py.result_bind mret Py.result_ret]; [|exact IH].
    rewrite IH. cbn [concat]. by rewrite (assoc_L (++)).
Qed.

Lemma _refresh_display_renders (w : window) :
  data_history (fst (_refresh_display decode w)) = data_history w
  ∧ serial_thread (fst (_refresh_display decode w)) = serial_thread w
  ∧ match history_rendering decode w with
    | Ok doc =>
        receive_text (fst (_refresh_display decode w)) = doc
        ∧ snd (_refresh_display decode w) = None
    | Raise ex => snd (_refresh_display decode w) = Some ex
    end.
Proof.
  unfold _refresh_display, history_rendering.
  pose proof (redraw_renders w (data_history w) []) as H.
  destruct (redraw decode w (data_history w) []) as [doc ex].
  split; [done|]. split; [done|].
  destruct (mapM _ _) as [rendered|ex']; cbn in *; [|done].
  by simplify_eq.
Qed.

(** Replacing the worker changes no rendering. *)
Lemma history_rendering_with_serial_thread (w : window)
    (th : option Workers.worker) :
  history_rendering decode (with_serial_thread w th)
  = history_rendering decode w.
Proof. reflexivity. Qed.

(** In hex mode every received entry has a rendering. *)
Lemma history_rendering_hex (w : window) :
  hex_receive_check w = true →
  is_ok (history_rendering decode w) = true.
Proof.
  intros Hhex. unfold history_rendering.
  assert (∀ entries, ∃ rendered,
             mapM (entry_rendering decode w) entries = Ok rendered) as H.
  { induction entries as [|e rest [rendered IH]]; [by eexists|].
    cbn [mapM]. rewrite IH. unfold entry_rendering, _format_data.
    rewrite Hhex. destruct (is_sent e); by eexists. }
  destruct (H (data_history w)) as [rendered ->]. done.
Qed.

(** C8, amended: when every stored entry decodes under the settings
    shown (as it always does in hex mode), the slot of the hex check
    box and the slot of the encoding box replace the receive log by
    the rendering of every stored entry, derived from its raw bytes and
    in order, leave the stored entries and the options as they are and
    raise nothing; the live worker, if there is one, has then the new
    hex mode, or the new encoding, and its other settings as before.
    The slot of the error policy box gives the live worker the new
    policy, leaves its other settings, and redraws nothing: the receive
    log, the stored entries and the options are what they were. *)
Theorem C8_display_option_handlers (w : window) :
  (∀ doc, history_rendering decode w = Ok doc →
     toggle_hex_receive decode w
     = (Window (data_history w) doc (hex_receive_check w) (timestamp_check w)
          (newline_check w) (receive_encoding_combo w)
          (error_handling_combo w)
          (match serial_thread w with
           | Some t =>
               Some (Workers.Worker (Workers.running t) (hex_receive_check w)
                       (Workers.encoding t) (Workers.error_handling t))
           | None => None
           end)
          (current_theme w),
        None)
     ∧ on_receive_encoding_changed decode w
       = (Window (data_history w) doc (hex_receive_check w)
            (timestamp_check w) (newline_check w) (receive_encoding_combo w)
            (error_handling_combo w)
            (match serial_thread w with
             | Some t =>
                 Some (Workers.Worker (Workers.running t) (Workers.hex_mode t)
                         (SerialConfig.get_encoding_value
                            (receive_encoding_combo w))
                         (Workers.error_handling t))
             | None => None
             end)
            (current_theme w),
          None))
  ∧ on_error_handling_changed w
    = (Window (data_history w) (receive_text w) (hex_receive_check w)
         (timestamp_check w) (newline_check w) (receive_encoding_combo w)
         (error_handling_combo w)
         (match serial_thread w with
          | Some t =>
              Some (Workers.Worker (Workers.running t) (Workers.hex_mode t)
                      (Workers.encoding t)
                      (SerialConfig.get_error_handling_value
                         (error_handling_combo w)))
          | None => None
          end)
         (current_theme w),
       None)
  ∧ (hex_receive_check w = true →
     is_ok (history_rendering decode w) = true).
Proof.
  assert (∀ th doc, history_rendering decode w = Ok doc →
            _refresh_display decode (with_serial_thread w th)
            = (Window (data_history w) doc (hex_receive_check w)
                 (timestamp_check w) (newline_check w)
                 (receive_encoding_combo w) (error_handling_combo w) th
                 (current_theme w), None)) as Hdraw.
  { intros th doc Hdoc.
    pose proof (_refresh_display_renders (with_serial_thread w th))
      as (_ & _ & H).
    rewrite history_rendering_with_serial_thread, Hdoc in H.
    destruct H as [Htext Hex]. unfold _refresh_display in *.
    destruct (redraw decode _ _ _) as [doc' ex]. cbn [fst snd] in *.
    subst ex. cbn [receive_text with_receive_text] in Htext. by subst doc'. }
  split; [|split].
  - intros doc Hdoc. unfold toggle_hex_receive, on_receive_encoding_changed.
    rewrite !(Hdraw _ _ Hdoc). by destruct (serial_thread w).
  - unfold on_error_handling_changed, with_serial_thread.
    by destruct (serial_thread w).
  - apply history_rendering_hex.
Qed.

End DisplayOptions.

(** Two entries received as text: after the hex box is ticked the slot
    redraws both from their bytes, in order. *)
Example toggle_hex_receive_example :
  let blue := ThemeManager.initial_theme in
  let history := [ MainApp.Entry [Byte.x68; Byte.x69] "2024-01-01 10:00:00.000" false;
                   MainApp.Entry [Byte.x0a; Byte.xff] "2024-01-01 10:00:01.000" false ] in
  let w := MainApp.Window history
             [ MainApp.Fragment "stale" None ]
             true false true "ASCII" "严格模式 (报错)"
             (Some (Workers.Worker true false "ascii" "strict")) blue in
  MainApp.toPlainText
    (MainApp.receive_text
       (fst (MainApp.toggle_hex_receive Codec.decode_single_byte w)))
  = "[收到] 68 69 " +:+ Py.nl +:+ "[收到] 0A FF " +:+ Py.nl
  ∧ MainApp.serial_thread
      (fst (MainApp.toggle_hex_receive Codec.decode_single_byte w))
    = Some (Workers.Worker true true "ascii" "strict").
Proof. split; reflexivity. Qed.

(** The log shows a byte replaced under the policy [replace]; the
    policy box is moved to [ignore]: the worker takes the new policy,
    the log keeps the replacement character, and only a redraw would
    drop it. *)
Example on_error_handling_changed_example :
  let blue := ThemeManager.initial_theme in
  let shown := [ MainApp.Fragment "[收到] " (Some (MainApp.CharFormat "#87CEFA" true));
                 MainApp.Fragment ("a" +:+ Codec.replacement_character)
                   (Some (MainApp.CharFormat "#0A2463" false)) ] in
  let w := MainApp.Window
             [ MainApp.Entry [Byte.x61; Byte.xff] "2024-01-01 10:00:00.000" false ]
             shown false false false "ASCII" "忽略错误"
             (Some (Workers.Worker true false "ascii" "replace")) blue in
  fst (MainApp.on_error_handling_changed w)
  = MainApp.with_serial_thread w
      (Some (Workers.Worker true false "ascii" "ignore"))
  ∧ MainApp.receive_text (fst (MainApp.on_error_handling_changed w)) = shown
  ∧ MainApp.toPlainText
      (MainApp.receive_text
         (fst (MainApp._refresh_display Codec.decode_single_byte w)))
    = "[收到] a".
Proof. repeat split; reflexivity. Qed.

(** C8, counterexample: three entries are stored, the second of them
    a byte that the [ascii] codec does not decode, and the error policy
    is the strict one.  The slot of the hex check box, with the box
    not ticked, does not redraw the whole log: it stops at the tag of
    the second entry, the third entry is not drawn, and the decoding
    error leaves the slot. *)
Lemma C8_strict_redraw_counterexample :
  let blue := ThemeManager.initial_theme in
  let history := [ MainApp.Entry [Byte.x68] "2024-01-01 10:00:00.000" false;
                   MainApp.Entry [Byte.xff] "2024-01-01 10:00:01.000" false;
                   MainApp.Entry [Byte.x69] "2024-01-01 10:00:02.000" false ] in
  let w := MainApp.Window history [] false false false "ASCII" "严格模式 (报错)"
             None blue in
  MainApp.toPlainText
    (MainApp.receive_text
       (fst (MainApp.toggle_hex_receive Codec.decode_single_byte w)))
  = "[收到] h[收到] "
  ∧ snd (MainApp.toggle_hex_receive Codec.decode_single_byte w)
    = Some (UnicodeDecodeError
              "'ascii' codec can't decode byte 0xff in position 0: ordinal not in range(128)")
  ∧ MainApp.toPlainText
      (MainApp.receive_text
         (fst (MainApp.on_receive_encoding_changed Codec.decode_single_byte w)))
    = "[收到] h[收到] "
  ∧ MainApp.entry_rendering Codec.decode_single_byte w
      (MainApp.Entry [Byte.x69] "2024-01-01 10:00:02.000" false)
    = Ok [ MainApp.Fragment "[收到] " (Some (MainApp.CharFormat "#87CEFA" true));
           MainApp.Fragment "i" (Some (MainApp.CharFormat "#0A2463" false)) ].
Proof. repeat split; reflexivity. Qed.

(** C8 at work, with the [ascii] codec: in hex mode the history of a
    window always has a rendering, and the slot of the hex box puts it
    in the receive log in place of what was there and tells the
    worker. *)
Lemma C8_display_option_handlers_witness :
  let w := MainApp.Window
             [ MainApp.Entry [Byte.x68; Byte.xff] "2024-01-01 10:00:00.000" false ]
             [ MainApp.Fragment "stale" None ]
             true false false "ASCII" "严格模式 (报错)"
             (Some (Workers.Worker true false "ascii" "strict"))
             ThemeManager.initial_theme in
  is_ok (MainApp.history_rendering Codec.decode_single_byte w) = true
  ∧ MainApp.toggle_hex_receive Codec.decode_single_byte w
    = (MainApp.Window
         [ MainApp.Entry [Byte.x68; Byte.xff] "2024-01-01 10:00:00.000" false ]
         [ MainApp.Fragment "[收到] " (Some (MainApp.CharFormat "#87CEFA" true));
           MainApp.Fragment "68 FF " (Some (MainApp.CharFormat "#0A2463" false)) ]
         true false false "ASCII" "严格模式 (报错)"
         (Some (Workers.Worker true true "ascii" "strict"))
         ThemeManager.initial_theme,
       None).
Proof.
  cbv zeta. split.
  - refine (proj2 (proj2
              (C8_display_option_handlers Codec.decode_single_byte _)) _).
    reflexivity.
  - refine (proj1 (proj1
              (C8_display_option_handlers Codec.decode_single_byte _) _ _)).
    reflexivity.
Defined.

(** ** C9: disconnecting twice *)

Section Disconnect.

Import Connection.

Lemma reachable_serial_flag_sound (c : connection) :
  reachable c → serial_flag_sound c.
Proof.
  induction 1 as [ | | | |c env _ IH|c late _ IH|cls b a client _ _|c _ IH];
    try done.
  - destruct c as [b a|cls b a|b a|b a]; cbn [connect].
    + unfold Serial_connect. destruct (open_error env); [exact IH|].
      cbn. destruct (port_name a); cbn; by eauto.
    + unfold TCP_connect.
      by repeat (case_match; try done).
    + unfold UDP_connect. by repeat (case_match; try done).
    + unfold Bluetooth_connect. by repeat (case_match; try done).
  - destruct c as [b a|cls b a|b a|b a]; cbn [disconnect].
    + unfold Serial_disconnect.
      destruct a as [pn br db pa sb [[h []]|]]; cbn in *; [done|exact IH..].
    + unfold TCP_disconnect. by repeat case_match.
    + done.
    + done.
  - by destruct c.
Qed.

(** What [disconnect] does, with the client that the accept thread
    leaves behind, if it leaves one: the flag is cleared, every handle
    that was open has been closed, and the object holds nothing but
    that client, which a second call closes. *)
Lemma disconnect_result (c : connection) (late : option handle) :
  serial_flag_sound c →
  connected (fst (disconnect c late)) = false
  ∧ open_handles (fst (disconnect c late)) = option_list (left_behind c late)
  ∧ closed_by (snd (disconnect c late)) = open_handles c
  ∧ snd (disconnect (fst (disconnect c late)) None)
    = match left_behind c late with Some h => [Close h] | None => [] end
  ∧ (left_behind c late = None →
     released (fst (disconnect c late))
     ∧ ∀ again, disconnect (fst (disconnect c late)) again
                = (fst (disconnect c late), [])).
Proof.
  destruct c as [[ic ct st] a|cls [ic ct st] a|[ic ct st] a|[ic ct st] a];
    cbn [disconnect serial_flag_sound left_behind].
  - intros Hsound. unfold Serial_disconnect.
    destruct a as [pn br db pa sb [[h []]|]]; cbn in *; [done|..].
    + destruct ic; [|done]. by destruct Hsound as [? [=]].
    + destruct ic; [|done]. by destruct Hsound as [? [=]].
  - intros _. unfold TCP_disconnect.
    destruct a as [h p s [sk|] [ck|] [[tid []]|]]; destruct late; done.
  - intros _. unfold UDP_disconnect. destruct a as [? ? ? ? [sk|]]; done.
  - intros _. unfold Bluetooth_disconnect.
    destruct a as [? ? [sk|] ? ?]; done.
Qed.

(** Without an accept thread at work, [disconnect] is as the
    specification has it, for every class and every state an object
    can be in: the flag is false, nothing is held open, and a second
    call changes nothing and makes no call. *)
Lemma disconnect_alone_idempotent (c : connection) (late again : option handle) :
  reachable c → left_behind c late = None →
  connected (fst (disconnect c late)) = false
  ∧ released (fst (disconnect c late))
  ∧ open_handles (fst (disconnect c late)) = []
  ∧ closed_by (snd (disconnect c late)) = open_handles c
  ∧ disconnect (fst (disconnect c late)) again = (fst (disconnect c late), []).
Proof.
  intros Hreach Hnone.
  destruct (disconnect_result c late (reachable_serial_flag_sound c Hreach))
    as (H1 & H2 & H3 & _ & H5).
  destruct (H5 Hnone) as [H6 H7]. rewrite Hnone in H2. done.
Qed.

(** C9, the failing run: a TCP server that is connected, with its
    listening socket 3 and its accept thread 1 alive, is disconnected
    while a client, socket 7, arrives: the accept thread comes back
    from [accept()] and stores it after [disconnect()] has cleared
    [client_socket].  When [disconnect()] returns, the flag is false
    but the object holds the open socket 7: its references are not
    released.  The second [disconnect()] is no no-op: it closes
    socket 7 and changes the object. *)
Theorem C9_disconnect_leaves_late_client :
  let server :=
    snd (connect (TCP_init TCP (PStr "0.0.0.0") (PInt 8080) (PBool true))
           (ConnectEnv 3 None None None 1)) in
  let after := fst (disconnect server (Some 7)) in
  reachable server
  ∧ disconnect server (Some 7)
    = (TCPConnection TCP (Base false "TCP" [])
         (TCPAttrs (PStr "0.0.0.0") (PInt 8080) (PBool true) None (Some 7)
            None),
       [Close 3; Join 1])
  ∧ connected after = false
  ∧ open_handles after = [7]
  ∧ ¬ released after
  ∧ disconnect after None
    = (TCPConnection TCP (Base false "TCP" [])
         (TCPAttrs (PStr "0.0.0.0") (PInt 8080) (PBool true) None None None),
       [Close 7])
  ∧ disconnect after None ≠ (after, []).
Proof.
  cbv zeta. split; [apply reach_connect, reach_TCP|].
  repeat split; try reflexivity.
  - by intros [_ [=]].
  - discriminate.
Qed.

(** The same server disconnected with no client on its way, twice. *)
Example disconnect_twice_alone :
  let server :=
    fst (accept_client TCP (Base true "TCP" [])
           (TCPAttrs (PStr "0.0.0.0") (PInt 8080) (PBool true) (Some 3) None
              (Some (ThreadObj 1 true))) 4) in
  disconnect server None
  = (TCPConnection TCP (Base false "TCP" [])
       (TCPAttrs (PStr "0.0.0.0") (PInt 8080) (PBool true) None None None),
     [Close 4; Close 3; Join 1])
  ∧ disconnect (fst (disconnect server None)) None
    = (fst (disconnect server None), []).
Proof. split; reflexivity. Qed.

End Disconnect.

(** ** C10: a TCP server that no client has reached yet *)

Section ServerWithoutClient.

Import Connection.

(** C10: for a TCP, WiFi or Ethernet connection in server mode whose
    client socket reference is absent, [send] returns 0 and makes no
    call on any socket, and [receive] returns the empty bytes, for
    every data and whatever the sockets would answer; neither call
    raises. *)
Theorem C10_server_without_client (cls : tcp_class) (b : base) (a : tcp_attrs)
    (data : list byte) (env : io_env) :
  py_truthy (is_server a) = true → client_socket a = None →
  send (TCPConnection cls b a) data env = (Ok 0%Z, [])
  ∧ receive (TCPConnection cls b a) env = (Ok [], []).
Proof.
  intros Hserver Hclient. cbn [send receive].
  unfold TCP_send, TCP_receive. by rewrite Hserver, Hclient.
Qed.

(** C10 at work: a server that has just been connected, with its
    listening socket open, asked to send two bytes to a peer that
    would take them and to receive from a peer that would answer. *)
Lemma C10_server_without_client_witness :
  let server :=
    snd (connect (TCP_init WiFi (PStr "0.0.0.0") (PInt 8080) (PBool true))
           (ConnectEnv 3 None None None 1)) in
  open_handles server = [3]
  ∧ send server [Byte.x68; Byte.x69] (IOEnv (Ok 2%Z) (Ok 0%Z) (Ok [Byte.x6f]))
    = (Ok 0%Z, [])
  ∧ receive server (IOEnv (Ok 2%Z) (Ok 0%Z) (Ok [Byte.x6f])) = (Ok [], []).
Proof.
  cbv zeta. split; [reflexivity|].
  apply (C10_server_without_client WiFi
           (Base true "WiFi" [])
           (TCPAttrs (PStr "0.0.0.0") (PInt 8080) (PBool true) (Some 3) None
              (Some (ThreadObj 1 true))));
    reflexivity.
Defined.

End ServerWithoutClient.

(** * Further properties of the code *)

(** ** The preset list: editing, deleting, keeping it clean *)

Section PresetList.

Import PresetManager.

Lemma in_range_bool (index : Z) (n : nat) :
  ((0 <=? index)%Z && (index <? Z.of_nat n)%Z = true)
  ↔ (0 <= index < Z.of_nat n)%Z.
Proof. rewrite andb_true_iff, Z.leb_le, Z.ltb_lt. done. Qed.

Lemma get_preset_lookup (pm : t) (index : Z) :
  (0 <= index)%Z → get_preset pm index = presets pm !! Z.to_nat index.
Proof.
  intros Hpos. unfold get_preset.
  destruct ((0 <=? index)%Z && (index <? Z.of_nat (length (presets pm)))%Z)
    eqn:E; [done|].
  symmetry. apply lookup_ge_None.
  apply andb_false_iff in E as [E|E]; [apply Z.leb_gt in E; lia|].
  apply Z.ltb_ge in E. lia.
Qed.

Lemma get_preset_negative (pm : t) (index : Z) :
  (index < 0)%Z → get_preset pm index = None.
Proof.
  intros Hneg. unfold get_preset.
  by rewrite (proj2 (Z.leb_gt 0 index) Hneg).
Qed.

(** X1: [edit_preset] with an index inside the list and a non-empty text
    returns [True] and replaces the preset at that index in place: it
    is what [get_preset] then returns there, the list is as long as
    before and [get_preset] gives what it gave at every other index.
    With an index outside the list (a negative one included: it does
    not count from the end) or an empty text it returns [False] and
    changes nothing. *)
Theorem edit_preset_in_place (pm : t) (index : Z) (new_text : string) :
  ((0 <= index < Z.of_nat (length (presets pm)))%Z → new_text ≠ "" →
   fst (edit_preset pm index new_text) = true
   ∧ get_preset (snd (edit_preset pm index new_text)) index = Some new_text
   ∧ length (presets (snd (edit_preset pm index new_text)))
     = length (presets pm)
   ∧ ∀ j, j ≠ index →
          get_preset (snd (edit_preset pm index new_text)) j = get_preset pm j)
  ∧ (¬ (0 <= index < Z.of_nat (length (presets pm)))%Z ∨ new_text = "" →
     edit_preset pm index new_text = (false, pm)).
Proof.
  unfold edit_preset. split.
  - intros Hin Hne. rewrite (proj2 (in_range_bool _ _) Hin).
    rewrite (truthy_str_true _ Hne). cbn [andb fst snd].
    split; [done|]. split; [|split].
    + rewrite get_preset_lookup by lia. cbn [presets].
      apply list_lookup_insert_eq. lia.
    + cbn [presets]. apply length_insert.
    + intros j Hj. destruct (Z.lt_ge_cases j 0) as [Hneg|Hpos].
      * by rewrite !get_preset_negative.
      * rewrite !get_preset_lookup by done. cbn [presets].
        apply list_lookup_insert_ne. lia.
  - intros [Hout| ->].
    + destruct (_ && (index <? _)%Z) eqn:E; [|done].
      by apply in_range_bool in E.
    + by rewrite andb_false_r.
Qed.

Lemma edit_preset_in_place_witness :
  let pm := init None in
  get_preset (snd (edit_preset pm 1 "AT+GMR")) 1 = Some "AT+GMR"
  ∧ get_preset (snd (edit_preset pm 1 "AT+GMR")) 0 = Some "Hello, World!"
  ∧ edit_preset pm (-1) "AT+GMR" = (false, pm)
  ∧ edit_preset pm 3 "AT+GMR" = (false, pm)
  ∧ edit_preset pm 1 "" = (false, pm).
Proof.
  cbv zeta.
  pose proof (edit_preset_in_place (init None) 1 "AT+GMR") as [Hin _].
  destruct Hin as (_ & H1 & _ & H2); [cbn; lia|done|].
  split; [exact H1|]. split; [apply (H2 0%Z); lia|].
  split; [|split].
  - apply (proj2 (edit_preset_in_place (init None) (-1) "AT+GMR")). left. lia.
  - apply (proj2 (edit_preset_in_place (init None) 3 "AT+GMR")).
    left. cbn. lia.
  - apply (proj2 (edit_preset_in_place (init None) 1 "")). by right.
Defined.

(** X2: [delete_preset] with an index inside the list returns [True]
    and removes exactly the preset at that index: the list is one
    shorter, the presets before the index keep their place and those
    after it move down by one.  With an index outside the list, a
    negative one included, it returns [False] and changes nothing. *)
Theorem delete_preset_shifts (pm : t) (index : Z) :
  ((0 <= index < Z.of_nat (length (presets pm)))%Z →
   fst (delete_preset pm index) = true
   ∧ S (length (presets (snd (delete_preset pm index))))
     = length (presets pm)
   ∧ (∀ j, (j < index)%Z →
           get_preset (snd (delete_preset pm index)) j = get_preset pm j)
   ∧ (∀ j, (index <= j)%Z →
           get_preset (snd (delete_preset pm index)) j
           = get_preset pm (j + 1)))
  ∧ (¬ (0 <= index < Z.of_nat (length (presets pm)))%Z →
     delete_preset pm index = (false, pm)).
Proof.
  unfold delete_preset. split.
  - intros Hin. rewrite (proj2 (in_range_bool _ _) Hin). cbn [fst snd].
    split; [done|]. split; [|split].
    + cbn [presets]. rewrite length_delete; [lia|].
      apply lookup_lt_is_Some. lia.
    + intros j Hj. destruct (Z.lt_ge_cases j 0) as [Hneg|Hpos].
      * by rewrite !get_preset_negative.
      * rewrite !get_preset_lookup by done. cbn [presets].
        apply list_lookup_delete_lt. lia.
    + intros j Hj. rewrite !get_preset_lookup by lia. cbn [presets].
      rewrite list_lookup_delete_ge by lia. f_equal. lia.
  - intros Hout. destruct (_ && _) eqn:E; [|done].
    by apply in_range_bool in E.
Qed.

Lemma delete_preset_shifts_witness :
  let pm := init None in
  get_preset (snd (delete_preset pm 0)) 0 = Some "Serial communication test"
  ∧ get_preset (snd (delete_preset pm 0)) 1 = Some "1234567890"
  ∧ delete_preset pm (-1) = (false, pm)
  ∧ delete_preset pm 3 = (false, pm).
Proof.
  cbv zeta.
  pose proof (delete_preset_shifts (init None) 0) as [Hin Hout].
  destruct Hin as (_ & _ & _ & H); [cbn; lia|].
  split; [rewrite (H 0%Z) by lia; reflexivity|].
  split; [rewrite (H 1%Z) by lia; reflexivity|].
  split.
  - apply (proj2 (delete_preset_shifts (init None) (-1))). lia.
  - apply (proj2 (delete_preset_shifts (init None) 3)). cbn. lia.
Defined.

(** X3: a list of presets without duplicates and without empty presets
    stays so under [add_preset] and [delete_preset], whatever their
    arguments; [edit_preset] keeps it free of empty presets (it does
    not look for duplicates). *)
Theorem preset_list_stays_clean (pm : t) (text : string) (index : Z) :
  (NoDup (presets pm) →
   NoDup (presets (snd (add_preset pm text)))
   ∧ NoDup (presets (snd (delete_preset pm index))))
  ∧ (Forall (fun preset => preset ≠ "") (presets pm) →
     Forall (fun preset => preset ≠ "") (presets (snd (add_preset pm text)))
     ∧ Forall (fun preset => preset ≠ "")
         (presets (snd (edit_preset pm index text)))
     ∧ Forall (fun preset => preset ≠ "")
         (presets (snd (delete_preset pm index)))).
Proof.
  split.
  - intros Hnd. split.
    + unfold add_preset, Py.str_in.
      destruct (Py.truthy_str text); [|done].
      destruct (bool_decide (text ∈ presets pm)) eqn:E; [done|].
      apply bool_decide_eq_false in E. cbn [andb negb snd presets].
      apply NoDup_app. split; [done|]. split; [|apply NoDup_singleton].
      intros x Hx Hx'. apply list_elem_of_singleton in Hx'. by subst.
    + unfold delete_preset. destruct (_ && _); [|done]. cbn [snd presets].
      eapply sublist_NoDup; [exact Hnd|apply sublist_delete].
  - intros Hall. split; [|split].
    + unfold add_preset. destruct (Py.truthy_str text) eqn:E; [|done].
      destruct (negb _); [|done]. cbn [andb snd presets].
      apply Forall_app. split; [done|]. constructor; [|done].
      intros ->. done.
    + unfold edit_preset.
      destruct (Py.truthy_str text) eqn:E;
        [|by rewrite andb_false_r].
      destruct (_ && (index <? _)%Z); [|done]. cbn [andb snd presets].
      apply Forall_insert; [done|]. by intros ->.
    + unfold delete_preset. destruct (_ && _); [|done]. cbn [snd presets].
      by apply Forall_delete.
Qed.

Lemma preset_list_stays_clean_witness :
  NoDup (presets (snd (add_preset (init None) "AT")))
  ∧ Forall (fun preset => preset ≠ "")
      (presets (snd (edit_preset (init None) 0 ""))).
Proof.
  split.
  - apply (proj1 (preset_list_stays_clean (init None) "AT" 0)).
    refine (bool_decide_unpack _ _). by vm_compute.
  - apply (proj2 (preset_list_stays_clean (init None) "" 0)).
    repeat constructor; discriminate.
Defined.

End PresetList.

(** ** Preset files: what saving leaves behind, what loading accepts *)

Section PresetFilesMore.

Import PresetManager.

Lemma write_all_not_untouched (env : save_env) (lines : list string) (k : nat)
    (content : list byte) :
  snd (write_all env k lines content) ≠ Untouched
  ∧ (snd (write_all env k lines content) = Cut →
     is_Some (write_failure env)
     ∧ ∃ e, fst (write_all env k lines content) = Raise e).
Proof.
  revert k content. induction lines as [|l rest IH]; intros k content;
    cbn [write_all].
  - destruct (write_failure env) as [[j e]|]; [destruct (j =? k)%nat|];
      cbn; split; try done; intros _; split; by eauto.
  - destruct (write_failure env) as [[j e]|];
      [destruct (j =? k)%nat|]; [|apply IH..].
    cbn. split; [done|]. intros _. split; by eauto.
Qed.

(** X4: what [save_presets_to_file] leaves behind, whatever the
    operating system does.  It returns only for a list that is not
    empty, and the file then holds the presets, one per line, and
    nothing else: what the file held before is gone, not appended to.
    When it raises, the file was either not opened at all (so it is for
    the empty list, which makes no directory either) or was emptied by
    the opening before a write raised.  A directory is made only when
    the directory part of the path names nothing that exists. *)
Theorem save_presets_to_file_footprint (pm : t) (f : OS.fs) (env : save_env)
    (path : string) :
  let outcome := save_presets_to_file pm f env path in
  match fst outcome with
  | Ok _ =>
      fst outcome = Ok true
      ∧ presets pm ≠ []
      ∧ file (snd outcome)
        = Holds (list_byte_of_string (OS.unlines (presets pm)))
  | Raise _ =>
      file (snd outcome) = Untouched
      ∨ (file (snd outcome) = Cut ∧ is_Some (write_failure env))
  end
  ∧ (presets pm = [] → snd outcome = Saved None Untouched)
  ∧ (∀ d, made_directory (snd outcome) = Some d →
          d = OS.dirname path ∧ d ≠ "" ∧ OS.path_exists f d = false).
Proof.
  cbv zeta. split; [|split].
  - destruct (save_presets_to_file pm f env path) as [[r|e] outcome] eqn:Hsave;
      cbn [fst snd].
    + assert (r = true) as ->.
      { revert Hsave. unfold save_presets_to_file.
        destruct (save_body _ _ _ _) as [[]]; by intros [= <-]. }
      split; [done|]. by apply save_presets_to_file_ok in Hsave.
    + revert Hsave. unfold save_presets_to_file, save_body.
      destruct (presets pm) as [|x l]; [intros [= _ <-]; by left|].
      destruct (if _ : bool then mkdir_failure env else None);
        [intros [= _ <-]; by left|].
      destruct (open_failure env); [intros [= _ <-]; by left|].
      pose proof (write_all_not_untouched env (x :: l) 0 []) as [Hnot Hcut].
      destruct (write_all env 0 (x :: l) []) as [[[]|e'] effect] eqn:Hw;
        [done|]. intros [= _ <-]. cbn [file snd fst] in *.
      destruct effect as [|held|]; [done| |right; split; [done|]; by apply Hcut].
      by apply write_all_holds in Hw as [[=] _].
  - unfold save_presets_to_file, save_body. by intros ->.
  - intros d. unfold save_presets_to_file, save_body.
    destruct (presets pm) as [|x l]; [done|].
    destruct (Py.truthy_str (OS.dirname path)
              && negb (OS.path_exists f (OS.dirname path))) eqn:Hmissing.
    + apply andb_true_iff in Hmissing as [Hd Hex].
      apply negb_true_iff in Hex.
      assert (OS.dirname path ≠ "") by (by destruct (OS.dirname path)).
      destruct (mkdir_failure env); [done|].
      destruct (open_failure env); [by intros [= <-]|].
      destruct (write_all env 0 (x :: l) []) as [[[]|e'] effect];
        by intros [= <-].
    + destruct (open_failure env); [done|].
      by destruct (write_all env 0 (x :: l) []) as [[[]|e'] effect].
Qed.

Lemma save_presets_to_file_footprint_witness :
  save_presets_to_file (init None) (OS.FS ∅ ∅)
    (SaveEnv None None (Some (1, OSError "[Errno 28] No space left on device")))
    "new/p.txt"
  = (Raise (Exception_ "保存预设失败: [Errno 28] No space left on device"),
     Saved (Some "new") Cut)
  ∧ (∀ d, Some "new" = Some d →
          d = "new" ∧ d ≠ "" ∧ OS.path_exists (OS.FS ∅ ∅) d = false).
Proof.
  split; [reflexivity|].
  exact (proj2 (proj2
    (save_presets_to_file_footprint (init None) (OS.FS ∅ ∅)
       (SaveEnv None None
          (Some (1, OSError "[Errno 28] No space left on device")))
       "new/p.txt"))).
Defined.

Lemma universal_newlines_line (l rest : string) (t : OS.terminator) :
  Py.contains_char Py.CR l = false →
  OS.universal_newlines (l +:+ OS.terminator_text t +:+ rest)
  = l +:+ Py.nl +:+ OS.universal_newlines rest.
Proof.
  induction l as [|c l IH].
  - intros _. by destruct t.
  - cbn [Py.contains_char]. intros [Hc Hl]%orb_false_elim.
    rewrite !str_app_cons. cbn [OS.universal_newlines].
    rewrite Hc, (IH Hl). reflexivity.
Qed.

Lemma iter_lines_last (l : string) :
  Py.contains_char Py.LF l = false →
  OS.iter_lines l = if Py.truthy_str l then [l] else [].
Proof.
  induction l as [|c l IH]; [done|]. cbn [Py.contains_char].
  intros [Hc Hl]%orb_false_elim. cbn [OS.iter_lines Py.truthy_str].
  rewrite Hc, (IH Hl). by destruct l.
Qed.

Lemma rstrip_no_LF (l : string) :
  Py.contains_char Py.LF l = false → Py.rstrip_char Py.LF l = l.
Proof.
  induction l as [|c l IH]; [done|]. cbn [Py.contains_char].
  intros [Hc Hl]%orb_false_elim. cbn [Py.rstrip_char].
  rewrite (IH Hl), Hc. by destruct l.
Qed.

Lemma loaded_lines (lines : list (string * OS.terminator)) (last : string) :
  Forall one_line lines.*1 → one_line last →
  map (Py.rstrip_char Py.LF)
      (OS.text_lines (OS.terminated_lines lines +:+ last))
  = (lines.*1 ++ (if Py.truthy_str last then [last] else []))%list.
Proof.
  intros Hall [HlastLF HlastCR]. unfold OS.text_lines.
  induction lines as [|[l t] rest IH].
  - cbn [OS.terminated_lines fmap list_fmap app].
    rewrite str_app_nil_l, universal_newlines_id by done.
    rewrite iter_lines_last by done.
    destruct (Py.truthy_str last); [|done]. cbn [map].
    by rewrite rstrip_no_LF.
  - apply Forall_cons in Hall as [[HlLF HlCR] Hall].
    cbn [OS.terminated_lines]. rewrite !str_app_assoc.
    rewrite universal_newlines_line by done.
    rewrite iter_lines_line by done. cbn [map].
    rewrite rstrip_line by done. rewrite (IH Hall). reflexivity.
Qed.

(** X5: [load_presets_from_file] takes a file as it finds it.  When
    the bytes of the file are well-formed UTF-8, each line may end in
    a line feed or, as files written on Windows do, in a carriage
    return and a line feed, and a last line may have no end at all:
    the presets are then the lines in their order without their ends,
    empty lines and repeated lines included (the checks of
    [add_preset] are not made), and they replace the list in memory.
    When the bytes are not well-formed UTF-8 the decoder raises, the
    method raises an exception that carries the text of that error,
    and the list in memory stays as it was. *)
Theorem load_presets_any_line_ends (message : list byte → string) (pm : t)
    (f : OS.fs) (path : string) (content : list byte) :
  path ≠ "" →
  OS.files f !! path = Some content →
  (OS.utf8_valid content = true →
   ∀ (lines : list (string * OS.terminator)) (last : string),
     Forall one_line lines.*1 → one_line last →
     content = list_byte_of_string (OS.terminated_lines lines +:+ last) →
     load_presets_from_file message pm f path
     = (Ok true,
        Mk (lines.*1 ++ (if Py.truthy_str last then [last] else []))%list
           (default_presets pm)))
  ∧ (OS.utf8_valid content = false →
     load_presets_from_file message pm f path
     = (Raise (Exception_ ("加载预设失败: " +:+ message content)), pm)).
Proof.
  intros Hpath Hfile. split.
  - intros Hvalid lines last Hall Hlast ->.
    rewrite (load_presets_from_file_content _ _ _ _ _ Hpath Hfile Hvalid).
    rewrite string_of_list_byte_of_string. by rewrite loaded_lines.
  - intros Hbad.
    unfold load_presets_from_file, load_body, OS.path_exists, OS.open_read,
      OS.decode_utf8.
    rewrite (truthy_str_true _ Hpath), Hfile.
    rewrite bool_decide_eq_true_2 by eauto. cbn. by rewrite Hbad.
Qed.

Lemma load_presets_any_line_ends_witness :
  load_presets_from_file (fun _ => "") (init None)
    (OS.FS {[ "p.txt" := list_byte_of_string
                (OS.terminated_lines
                   [("AT", OS.Windows); ("", OS.Unix); ("AT", OS.Unix)]
                 +:+ "ATZ") ]} ∅)
    "p.txt"
  = (Ok true, Mk ["AT"; ""; "AT"; "ATZ"] builtin_defaults)
  ∧ load_presets_from_file
      (fun _ => "'utf-8' codec can't decode byte 0xff in position 3: invalid start byte")
      (init None)
      (OS.FS {[ "q.txt" := [Byte.x41; Byte.x54; Byte.x0a; Byte.xff; Byte.x0a] ]}
         ∅)
      "q.txt"
    = (Raise (Exception_ "加载预设失败: 'utf-8' codec can't decode byte 0xff in position 3: invalid start byte"),
       init None).
Proof.
  split.
  - refine (proj1 (load_presets_any_line_ends (fun _ => "") (init None) _
                     "p.txt" _ _ _) _
              [("AT", OS.Windows); ("", OS.Unix); ("AT", OS.Unix)] "ATZ"
              _ _ _).
    + done.
    + reflexivity.
    + reflexivity.
    + repeat constructor.
    + by split.
    + reflexivity.
  - refine (proj2 (load_presets_any_line_ends _ (init None) _ "q.txt" _ _ _) _).
    + done.
    + reflexivity.
    + reflexivity.
Defined.

End PresetFilesMore.

(** ** The option tables and the port names *)

Section Settings.

Lemma dict_get_value {V} (d : list (string * V)) (key : string) (v : V) :
  Py.dict_get d key = Some v → v ∈ map snd d.
Proof.
  induction d as [|[k x] d IH]; [done|]. cbn [Py.dict_get map snd].
  destruct (String.eqb k key).
  - intros [= ->]. apply list_elem_of_here.
  - intros H. apply list_elem_of_further. auto.
Qed.

(** X6: whatever text the encoding box or the error-handling box
    holds, [get_encoding_value] and [get_error_handling_value] return
    one of the values of their table; a text that is none of the
    options offered gives [utf-8] and [replace]. *)
Theorem option_values_known (name : string) :
  SerialConfig.get_encoding_value name ∈ map snd SerialConfig.ENCODING_OPTIONS
  ∧ SerialConfig.get_error_handling_value name
    ∈ map snd SerialConfig.ERROR_HANDLING_OPTIONS
  ∧ (name ∉ SerialConfig.get_encoding_options →
     SerialConfig.get_encoding_value name = "utf-8")
  ∧ (name ∉ SerialConfig.get_error_handling_options →
     SerialConfig.get_error_handling_value name = "replace").
Proof.
  unfold SerialConfig.get_encoding_value, SerialConfig.get_error_handling_value.
  split; [|split; [|split]].
  - destruct (Py.dict_get SerialConfig.ENCODING_OPTIONS name) eqn:E.
    + by apply dict_get_value in E.
    + cbn. set_solver.
  - destruct (Py.dict_get SerialConfig.ERROR_HANDLING_OPTIONS name) eqn:E.
    + by apply dict_get_value in E.
    + cbn. set_solver.
  - intros Hout.
    destruct (Py.dict_get SerialConfig.ENCODING_OPTIONS name) eqn:E; [|done].
    by apply dict_get_Some_elem in E.
  - intros Hout.
    destruct (Py.dict_get SerialConfig.ERROR_HANDLING_OPTIONS name) eqn:E;
      [|done].
    by apply dict_get_Some_elem in E.
Qed.

Lemma option_values_known_witness :
  SerialConfig.get_encoding_value "EBCDIC" = "utf-8"
  ∧ SerialConfig.get_error_handling_value "EBCDIC" = "replace".
Proof.
  destruct (option_values_known "EBCDIC") as (_ & _ & Henc & Herr).
  split; [apply Henc|apply Herr]; by refine (bool_decide_unpack _ _).
Defined.

Lemma before_first_absent (sep s : string) :
  MainApp.contains sep s = false → MainApp.before_first sep s = s.
Proof.
  induction s as [|c s IH]; cbn [MainApp.contains MainApp.before_first].
  - by destruct (String.prefix sep "").
  - intros [-> Hs]%orb_false_elim. by rewrite (IH Hs).
Qed.

Lemma port_label_split (device description : string) :
  Py.contains_char " " device = false →
  MainApp.contains " - " (SerialConfig.port_label device description) = true
  ∧ MainApp.before_first " - " (SerialConfig.port_label device description)
    = device.
Proof.
  unfold SerialConfig.port_label.
  induction device as [|c device IH].
  { intros _. rewrite str_app_nil_l, !str_app_cons.
    destruct description; split; reflexivity. }
  cbn [Py.contains_char]. intros [Hc Hd]%orb_false_elim.
  destruct (IH Hd) as [IH1 IH2]. rewrite str_app_cons.
  cbn [MainApp.contains MainApp.before_first]. rewrite IH1, IH2, orb_true_r.
  assert (String.prefix " - " (String c (device +:+ " - " +:+ description))
          = false) as ->; [|done].
  cbn [String.prefix]. destruct (ascii_dec " " c) as [<-|]; done.
Qed.

(** X7: the port name that opening a serial connection takes from the
    text of the port box is what comes before the first " - " of the
    text, and the whole text when there is none: the test for " - "
    made before the split changes nothing, so the connection dialog
    and the older [open_serial] take the same name.  For an entry of
    [get_available_ports] whose device name holds no space it is the
    device name, whatever the description. *)
Theorem port_name_extraction (device description port_text : string) :
  MainApp.port_name_of port_text = MainApp.before_first " - " port_text
  ∧ (Py.contains_char " " device = false →
     MainApp.port_name_of (SerialConfig.port_label device description)
     = device).
Proof.
  split.
  - unfold MainApp.port_name_of.
    destruct (MainApp.contains " - " port_text) eqn:E; [done|].
    by rewrite before_first_absent.
  - intros Hdev. unfold MainApp.port_name_of.
    by destruct (port_label_split device description Hdev) as [-> ->].
Qed.

Lemma port_name_extraction_witness :
  MainApp.port_name_of
    (SerialConfig.port_label "/dev/ttyUSB0" "USB Serial - CP2102")
  = "/dev/ttyUSB0".
Proof.
  apply (proj2 (port_name_extraction "/dev/ttyUSB0" "USB Serial - CP2102" "")).
  reflexivity.
Defined.

End Settings.

(** ** The signals of the two receiving workers *)

Section WorkerRuns.

Variable decode : Codec.decoder.

Section AnyPass.

Variable pass : Workers.worker → result (list byte) → list Workers.signal * bool.

(** What both bodies have in common: a pass either goes on without an
    error signal, or ends the loop with an error as its last signal. *)
Hypothesis pass_ends_on_error : ∀ w incoming,
  (snd (pass w incoming) = true ∧ Workers.errors (fst (pass w incoming)) = [])
  ∨ (snd (pass w incoming) = false
     ∧ ∃ before e, fst (pass w incoming)
                   = (before ++ [Workers.reception_error e])%list
                   ∧ Workers.errors before = []).

Lemma loop_error_last (w : Workers.worker) (obs : list Workers.observation) :
  Workers.errors (fst (Workers.loop pass w obs)) = []
  ∨ ∃ before e, fst (Workers.loop pass w obs)
                = (before ++ [Workers.reception_error e])%list
                ∧ Workers.errors before = [].
Proof.
  revert w. induction obs as [|o rest IH]; intros w; [by left|].
  destruct o as [incoming|hex enc err| |]; cbn [Workers.loop];
    [|apply IH|by left..].
  destruct (pass_ends_on_error w incoming) as [[Hc He]|[Hc He]];
    destruct (pass w incoming) as [sigs c]; cbn [fst snd] in *; subst c.
  - destruct (IH w) as [Hnone|(before & e & Hsigs & Hbefore)];
      destruct (Workers.loop pass w rest) as [more w']; cbn [fst] in *.
    + left. by rewrite errors_app, He, Hnone.
    + right. exists (sigs ++ before)%list, e. subst more.
      split; [by rewrite (assoc_L (++))|]. by rewrite errors_app, He, Hbefore.
  - by right.
Qed.

Lemma loop_stopped_no_error (w : Workers.worker)
    (obs : list Workers.observation) :
  Workers.running w = true →
  Workers.running (snd (Workers.loop pass w obs)) = false →
  Workers.errors (fst (Workers.loop pass w obs)) = [].
Proof.
  revert w. induction obs as [|o rest IH]; intros w Hrun; [done|].
  destruct o as [incoming|hex enc err| |]; cbn [Workers.loop];
    [|by apply IH|done..].
  destruct (pass_ends_on_error w incoming) as [[Hc He]|[Hc He]];
    destruct (pass w incoming) as [sigs c]; cbn [fst snd] in *; subst c.
  - specialize (IH w Hrun).
    destruct (Workers.loop pass w rest) as [more w']; cbn [fst snd] in *.
    intros Hstop. by rewrite errors_app, He, (IH Hstop).
  - cbn [snd]. congruence.
Qed.

End AnyPass.

Lemma SerialThread_pass_ends_on_error (w : Workers.worker)
    (incoming : result (list byte)) :
  (snd (Workers.SerialThread_pass decode w incoming) = true
   ∧ Workers.errors (fst (Workers.SerialThread_pass decode w incoming)) = [])
  ∨ (snd (Workers.SerialThread_pass decode w incoming) = false
     ∧ ∃ before e, fst (Workers.SerialThread_pass decode w incoming)
                   = (before ++ [Workers.reception_error e])%list
                   ∧ Workers.errors before = []).
Proof.
  destruct incoming as [data|e]; [|right; split; [done|by exists [], e]].
  rewrite SerialThread_pass_format. destruct data as [|b data]; [by left|].
  destruct (MainApp._format_data _ _ _ _ _) as [text|e]; [by left|].
  right. split; [done|]. by exists [], e.
Qed.

Lemma DataReceiveThread_pass_ends_on_error (w : Workers.worker)
    (incoming : result (list byte)) :
  (snd (Workers.DataReceiveThread_pass decode w incoming) = true
   ∧ Workers.errors (fst (Workers.DataReceiveThread_pass decode w incoming))
     = [])
  ∨ (snd (Workers.DataReceiveThread_pass decode w incoming) = false
     ∧ ∃ before e, fst (Workers.DataReceiveThread_pass decode w incoming)
                   = (before ++ [Workers.reception_error e])%list
                   ∧ Workers.errors before = []).
Proof.
  destruct incoming as [data|e]; [|right; split; [done|by exists [], e]].
  rewrite DataReceiveThread_pass_format. destruct data as [|b data]; [by left|].
  destruct (MainApp._format_data _ _ _ _ _) as [text|e]; [by left|].
  right. split; [done|]. by exists [Workers.raw_data_received (b :: data)], e.
Qed.

(** X8: a run of either receiving worker reports at most one error,
    and an error is the last signal of the run: after it nothing more
    is read or published.  A worker that ended because [stop()] was
    called has reported no error. *)
Theorem worker_error_ends_run (w : Workers.worker)
    (obs : list Workers.observation) :
  let serial := Workers.SerialThread_run decode w obs in
  let receiver := Workers.DataReceiveThread_run decode w obs in
  (Workers.errors (fst serial) = []
   ∨ ∃ before e, fst serial = (before ++ [Workers.reception_error e])%list
                 ∧ Workers.errors before = [])
  ∧ (Workers.errors (fst receiver) = []
     ∨ ∃ before e, fst receiver = (before ++ [Workers.reception_error e])%list
                   ∧ Workers.errors before = [])
  ∧ (Workers.running (snd serial) = false → Workers.errors (fst serial) = [])
  ∧ (Workers.running (snd receiver) = false →
     Workers.errors (fst receiver) = []).
Proof.
  cbv zeta. unfold Workers.SerialThread_run, Workers.DataReceiveThread_run.
  split; [|split; [|split]].
  - apply loop_error_last, SerialThread_pass_ends_on_error.
  - apply loop_error_last, DataReceiveThread_pass_ends_on_error.
  - by apply loop_stopped_no_error; [apply SerialThread_pass_ends_on_error|].
  - by apply loop_stopped_no_error;
      [apply DataReceiveThread_pass_ends_on_error|].
Qed.

(** X9: the signals of [DataReceiveThread.run] come in pairs, the raw
    bytes of a reception and then their text, and the raw bytes are
    never empty; the run may end on an error, alone when receiving
    raised, after the raw bytes when their decoding raised.  Without
    the raw signals they are the signals of [SerialThread.run] over
    the same observations, in the same order. *)
Theorem receiver_signals_in_pairs (w : Workers.worker)
    (obs : list Workers.observation) :
  let sigs := fst (Workers.DataReceiveThread_run decode w obs) in
  (∃ (pairs : list (list byte * string)) (tail : list Workers.signal),
     sigs = (flat_map (fun p => [Workers.raw_data_received (fst p);
                                 Workers.data_received (snd p)]) pairs
             ++ tail)%list
     ∧ Forall (fun p => fst p ≠ []) pairs
     ∧ (tail = []
        ∨ (∃ e, tail = [Workers.reception_error e])
        ∨ (∃ data e, data ≠ []
                     ∧ tail = [Workers.raw_data_received data;
                               Workers.reception_error e])))
  ∧ List.filter (fun s => match s with
                        | Workers.raw_data_received _ => false
                        | _ => true
                        end) sigs
    = fst (Workers.SerialThread_run decode w obs).
Proof.
  cbv zeta. unfold Workers.SerialThread_run, Workers.DataReceiveThread_run.
  generalize (Workers.start w). clear w.
  intros w. revert w. induction obs as [|o rest IH]; intros w.
  { split; [|done]. exists [], []. repeat split; [constructor|by left]. }
  destruct o as [incoming|hex enc err| |]; cbn [Workers.loop]; [|apply IH| |].
  2,3: split; [|done]; exists [], []; repeat split; [constructor|by left].
  destruct incoming as [data|e].
  2:{ split; [|done]. exists [], [Workers.reception_error e].
      repeat split; [constructor|right; left; by eexists]. }
  rewrite SerialThread_pass_format, DataReceiveThread_pass_format.
  destruct data as [|b data]; [|destruct (MainApp._format_data _ _ _ _ _)
                                  as [text|e]].
  - destruct (IH w) as [Hshape Hfilter].
    destruct (Workers.loop (Workers.DataReceiveThread_pass decode) w rest).
    destruct (Workers.loop (Workers.SerialThread_pass decode) w rest).
    done.
  - destruct (IH w) as [(pairs & tail & Hsigs & Hpairs & Htail) Hfilter].
    destruct (Workers.loop (Workers.DataReceiveThread_pass decode) w rest)
      as [more w1].
    destruct (Workers.loop (Workers.SerialThread_pass decode) w rest)
      as [more' w2].
    cbn [fst] in *. split.
    + exists ((b :: data, text) :: pairs), tail. subst more.
      split; [done|]. split; [by constructor|done].
    + cbn. by rewrite Hfilter.
  - split; [|done].
    exists [], [Workers.raw_data_received (b :: data);
                Workers.reception_error e].
    repeat split; [constructor|]. right. right. by exists (b :: data), e.
Qed.

(** X10: in hex mode the text of a reception is always made.  When a
    worker set to hex mode is never switched out of it and no read
    raises, its run reports no error, and the texts published by
    [DataReceiveThread.run] are the hex lines of the raw byte strings
    it published, one for one. *)
Theorem hex_mode_never_fails (w : Workers.worker)
    (obs : list Workers.observation) :
  Workers.hex_mode w = true →
  Forall (fun o => match o with
                   | Workers.Update (Some false) _ _ => False
                   | Workers.Poll (Raise _) => False
                   | _ => True
                   end) obs →
  let sigs := fst (Workers.DataReceiveThread_run decode w obs) in
  Workers.errors sigs = []
  ∧ Workers.errors (fst (Workers.SerialThread_run decode w obs)) = []
  ∧ Workers.texts sigs = map Hex.hex_line (Workers.raws sigs).
Proof.
  intros Hhex Hobs. cbv zeta.
  unfold Workers.SerialThread_run, Workers.DataReceiveThread_run.
  destruct (loop_agree decode obs (Workers.start w)) as (_ & -> & _).
  assert (Workers.hex_mode (Workers.start w) = true) as Hstart by done.
  revert Hstart. generalize (Workers.start w). clear w Hhex.
  intros w Hhex.
  enough (Workers.errors
            (fst (Workers.loop (Workers.DataReceiveThread_pass decode) w obs))
          = []
          ∧ Workers.texts
              (fst (Workers.loop (Workers.DataReceiveThread_pass decode) w obs))
            = map Hex.hex_line
                (Workers.raws
                   (fst (Workers.loop (Workers.DataReceiveThread_pass decode)
                           w obs)))) as [He Ht] by done.
  revert w Hhex. induction Hobs as [|o rest Ho _ IH]; intros w Hhex; [done|].
  destruct o as [[data|e]|hex enc err| |]; cbn [Workers.loop]; try done.
  - rewrite DataReceiveThread_pass_format.
    unfold MainApp._format_data. rewrite Hhex.
    destruct (IH w Hhex) as [He Ht].
    destruct (Workers.loop (Workers.DataReceiveThread_pass decode) w rest)
      as [more w'].
    destruct data as [|b data]; [done|]. cbn [fst app] in *.
    unfold Workers.errors, Workers.texts, Workers.raws in *.
    cbn [omap list_omap map]. by rewrite He, Ht.
  - apply IH. destruct hex as [[|]|]; done.
Qed.

End WorkerRuns.

Lemma worker_error_ends_run_witness :
  let w := Workers.init false "ascii" "strict" in
  let obs := [ Workers.Poll (Ok [Byte.x68]); Workers.Stop;
               Workers.Poll (Ok [Byte.xff]) ] in
  Workers.errors
    (fst (Workers.SerialThread_run Codec.decode_single_byte w obs)) = []
  ∧ Workers.errors
      (fst (Workers.DataReceiveThread_run Codec.decode_single_byte w obs)) = [].
Proof.
  cbv zeta.
  destruct (worker_error_ends_run Codec.decode_single_byte
              (Workers.init false "ascii" "strict")
              [ Workers.Poll (Ok [Byte.x68]); Workers.Stop;
                Workers.Poll (Ok [Byte.xff]) ]) as (_ & _ & Hs & Hr).
  split; [apply Hs|apply Hr]; reflexivity.
Defined.

Lemma hex_mode_never_fails_witness :
  let w := Workers.init true "ascii" "strict" in
  let obs := [ Workers.Poll (Ok [Byte.xff]);
               Workers.Update None (Some "utf-8") None;
               Workers.Poll (Ok [Byte.x0a; Byte.xff]) ] in
  Workers.errors
    (fst (Workers.DataReceiveThread_run Codec.decode_single_byte w obs)) = []
  ∧ Workers.errors
      (fst (Workers.SerialThread_run Codec.decode_single_byte w obs)) = []
  ∧ Workers.texts
      (fst (Workers.DataReceiveThread_run Codec.decode_single_byte w obs))
    = map Hex.hex_line
        (Workers.raws
           (fst (Workers.DataReceiveThread_run Codec.decode_single_byte w obs))).
Proof.
  cbv zeta.
  apply (hex_mode_never_fails Codec.decode_single_byte
           (Workers.init true "ascii" "strict")).
  - reflexivity.
  - repeat constructor.
Defined.

(** ** File transfers: the signals, the bytes that go out *)

Section FileSendMore.

Import FileSendThread.

Local Open Scope nat_scope.

Lemma progress_values_progress (values : list Z) (last : list signal) :
  omap (fun s => match s with progress_updated v => Some v | _ => None end)
    (map progress_updated values ++ last)%list
  = (values
     ++ omap (fun s => match s with progress_updated v => Some v | _ => None end)
          last)%list.
Proof.
  rewrite omap_app. f_equal. induction values as [|v values IH]; [done|].
  cbn [map omap list_omap]. by rewrite IH.
Qed.

(** The books of the loop: its signals are progress values, one for
    each chunk written (the last chunk apart when taking its progress
    raised), and the count it leaves with is the count it came with
    plus the bytes written. *)
Lemma loop_account (fuel : nat) (th : t) (sc : schedule) (file_size : Z)
    (i : nat) (rest : list byte) (sent_size : Z) (e : loop_end) (tr : trace) :
  loop fuel th sc file_size i rest sent_size = Some (e, tr) →
  signals tr = map progress_updated (progress_values tr)
  ∧ length (progress_values tr) ≤ length (written tr)
  ∧ length (written tr) ≤ S (length (progress_values tr))
  ∧ match e with
    | Left sent_size' still_running =>
        sent_size' = (sent_size + Z.of_nat (length (concat (written tr))))%Z
        ∧ length (progress_values tr) = length (written tr)
    | Raised _ => True
    end.
Proof.
  revert i rest sent_size e tr.
  induction fuel as [|fuel IH]; intros i rest sent_size e tr; [done|].
  cbn [loop]. destruct (running_at sc i && is_open_at sc i);
    [|intros [= <- <-]; cbn; repeat split; lia].
  destruct (read (chunk_size th) rest) as [chunk rest'].
  destruct chunk as [|b chunk]; [intros [= <- <-]; cbn; repeat split; lia|].
  destruct (if hex_mode th then _ else _) as [chunk'|ex];
    [|intros [= <- <-]; cbn; repeat split; lia].
  destruct (write_raises sc i); [intros [= <- <-]; cbn; repeat split; lia|].
  destruct (progress _ _) as [value|ex] eqn:Hp;
    [|intros [= <- <-]; cbn; repeat split; lia].
  destruct (loop fuel _ _ _ _ _ _) as [[e' [sigs wr]]|] eqn:Hl; [|done].
  intros [= <- <-]. apply IH in Hl as (Hsigs & Hle & Hge & He).
  unfold progress_values in *. cbn [signals written omap list_omap] in *.
  cbn [map length concat]. rewrite <- Hsigs.
  split; [done|]. split; [lia|]. split; [lia|].
  destruct e' as [sent' r|]; [|done]. destruct He as [-> He].
  rewrite length_app. split; lia.
Qed.

(** X11: [FileSendThread.run] always comes to an end, and its signals
    are progress values followed by one [finished] signal, which is
    the last: whether the file opens or not, whatever the size taken,
    whenever the transfer is stopped, the port closed or a write
    raises.  There is one progress value for each chunk written,
    except that a last chunk may have gone out without one. *)
Theorem file_send_signals (th : t) (sc : schedule) (file_size : Z)
    (opened : result (list byte)) :
  ∃ tr ok msg,
    run_with th sc file_size opened = Some tr
    ∧ signals tr
      = (map progress_updated (progress_values tr) ++ [finished ok msg])%list
    ∧ final_messages tr = [(ok, msg)]
    ∧ length (progress_values tr) ≤ length (written tr)
    ∧ length (written tr) ≤ S (length (progress_values tr)).
Proof.
  unfold run_with. destruct opened as [content|ex].
  2:{ eexists _, false, _. split; [reflexivity|]. cbn. repeat split; lia. }
  destruct (loop_terminates (S (length content)) th sc file_size 0 content 0
              ltac:(lia)) as [[e [sigs wr]] Hl].
  rewrite Hl. apply loop_account in Hl as (Hsigs & Hle & Hge & _).
  cbn [signals written] in *.
  remember (progress_values (Trace sigs wr)) as values eqn:Hvalues.
  clear Hvalues. subst sigs.
  assert (∀ ok msg,
    let tr := Trace (map progress_updated values ++ [finished ok msg]) wr in
    signals tr
    = (map progress_updated (progress_values tr) ++ [finished ok msg])%list
    ∧ final_messages tr = [(ok, msg)]
    ∧ length (progress_values tr) ≤ length (written tr)
    ∧ length (written tr) ≤ S (length (progress_values tr))) as Hall.
  { intros ok msg. cbv zeta. unfold progress_values, final_messages.
    cbn [signals written]. rewrite progress_values_progress.
    cbn [omap list_omap]. rewrite app_nil_r. split; [done|].
    split; [|split; lia].
    rewrite omap_app. cbn [omap list_omap].
    replace (omap _ (map progress_updated values))
      with (@nil (bool * string)); [done|].
    clear. induction values; done. }
  destruct e as [sent [|]|ex]; eexists _, _, _; (split; [reflexivity|]);
    apply Hall.
Qed.

(** X12: when the transfer is reported as done, the number of bytes in
    the message is the number of bytes written to the port, in either
    mode: in hex mode that is the count of hex digits sent, not of
    bytes read from the file. *)
Theorem file_send_reports_bytes_written (th : t) (sc : schedule)
    (file_size : Z) (opened : result (list byte)) (tr : trace) (msg : string) :
  run_with th sc file_size opened = Some tr →
  (finished true msg) ∈ signals tr →
  msg = "文件发送完成，共发送 "
        +:+ pretty (Z.of_nat (length (concat (written tr)))) +:+ " 字节".
Proof.
  unfold run_with. destruct opened as [content|ex].
  2:{ intros [= <-]. cbn. intros Hin. by apply list_elem_of_singleton in Hin. }
  destruct (loop _ _ _ _ _ _ _) as [[e [sigs wr]]|] eqn:Hl; [|done].
  apply loop_account in Hl as (Hsigs & _ & _ & He). cbn [signals written] in *.
  assert (finished true msg ∉ sigs) as Hnot.
  { rewrite Hsigs. intros (v & [=] & _)%list_elem_of_fmap. }
  destruct e as [sent [|]|ex]; intros [= <-]; cbn [signals written];
    intros [Hin|Hin%list_elem_of_singleton]%elem_of_app; try done.
  destruct He as [-> _]. by injection Hin as ->.
Qed.

Lemma file_send_reports_bytes_written_witness :
  ∃ tr msg,
    run_with (init "data.bin" true "utf-8") undisturbed 3
      (Ok [Byte.x0a; Byte.xff; Byte.x00]) = Some tr
    ∧ msg = "文件发送完成，共发送 6 字节"
    ∧ msg = "文件发送完成，共发送 "
            +:+ pretty (Z.of_nat (length (concat (written tr)))) +:+ " 字节".
Proof.
  eexists _, _. split; [by vm_compute|]. split; [reflexivity|].
  eapply (file_send_reports_bytes_written
            (init "data.bin" true "utf-8") undisturbed 3
            (Ok [Byte.x0a; Byte.xff; Byte.x00])).
  - by vm_compute.
  - cbn [signals]. apply list_elem_of_further, list_elem_of_here.
Defined.

Lemma loop_blocked (fuel : nat) (th : t) (sc : schedule) (file_size : Z)
    (i k : nat) (rest : list byte) (sent_size : Z) (e : loop_end) (tr : trace) :
  running_at sc k && is_open_at sc k = false ∨ is_Some (write_raises sc k) →
  i ≤ k →
  loop fuel th sc file_size i rest sent_size = Some (e, tr) →
  length (written tr) ≤ k - i.
Proof.
  intros Hk. revert i rest sent_size e tr.
  induction fuel as [|fuel IH]; intros i rest sent_size e tr Hi; [done|].
  cbn [loop]. destruct (running_at sc i && is_open_at sc i) eqn:Hgo;
    [|intros [= <- <-]; cbn; lia].
  destruct (read (chunk_size th) rest) as [chunk rest'].
  destruct chunk as [|b chunk]; [intros [= <- <-]; cbn; lia|].
  destruct (if hex_mode th then _ else _) as [chunk'|ex];
    [|intros [= <- <-]; cbn; lia].
  destruct (write_raises sc i) eqn:Hw; [intros [= <- <-]; cbn; lia|].
  assert (i ≠ k) as Hne.
  { intros ->. destruct Hk as [Hk|[x Hk]]; congruence. }
  destruct (progress _ _) as [value|ex];
    [|intros [= <- <-]; cbn; lia].
  destruct (loop fuel _ _ _ _ _ _) as [[e' [sigs wr]]|] eqn:Hl; [|done].
  intros [= <- <-]. apply IH in Hl; [|lia]. cbn [written length] in *. lia.
Qed.

(** X13: nothing is written once the transfer is stopped or the port
    is closed, and nothing after a write has raised.  When [stop()]
    has taken effect or the port is closed by the test number [k] of
    the loop, or the write of pass [k] raises, at most [k] chunks have
    gone out. *)
Theorem file_send_stops_writing (th : t) (sc : schedule) (file_size : Z)
    (opened : result (list byte)) (tr : trace) (k : nat) :
  stop_before sc = Some k ∨ closed_before sc = Some k
  ∨ (∃ e, write_error sc = Some (k, e)) →
  run_with th sc file_size opened = Some tr →
  length (written tr) ≤ k.
Proof.
  intros Hk. unfold run_with. destruct opened as [content|ex].
  2:{ intros [= <-]. cbn. lia. }
  destruct (loop _ _ _ _ _ _ _) as [[e [sigs wr]]|] eqn:Hl; [|done].
  apply (loop_blocked _ _ _ _ _ k) in Hl; [| |lia].
  - cbn [written] in Hl.
    destruct e as [sent [|]|ex]; intros [= <-]; cbn [written]; lia.
  - unfold running_at, is_open_at, write_raises, before.
    destruct Hk as [->|[->|[e0 ->]]].
    + left. by rewrite Nat.ltb_irrefl.
    + left. by rewrite Nat.ltb_irrefl, andb_false_r.
    + right. rewrite Nat.eqb_refl. by eexists.
Qed.

Lemma file_send_stops_writing_witness :
  ∃ tr, run_with (init "data.bin" false "utf-8") (Schedule (Some 1) None None)
          2048 (Ok (replicate 2048 Byte.x41)) = Some tr
        ∧ length (written tr) ≤ 1.
Proof.
  eexists. split; [by vm_compute|].
  apply (file_send_stops_writing (init "data.bin" false "utf-8")
           (Schedule (Some 1) None None) 2048 (Ok (replicate 2048 Byte.x41))).
  - by left.
  - by vm_compute.
Defined.

Lemma read_splits (n : Z) (rest : list byte) :
  rest = (fst (read n rest) ++ snd (read n rest))%list
  ∧ (n ≠ 0%Z → fst (read n rest) = [] → rest = []).
Proof.
  unfold read. destruct (n <? 0)%Z eqn:E; cbn [fst snd].
  - by rewrite app_nil_r.
  - split; [by rewrite take_drop|]. intros Hn. apply Z.ltb_ge in E.
    destruct rest as [|b rest]; [done|].
    destruct (Z.to_nat n) eqn:En; [lia|done].
Qed.

Lemma loop_plain (fuel : nat) (th : t) (sc : schedule) (file_size : Z)
    (i : nat) (rest : list byte) (sent_size : Z) (e : loop_end) (tr : trace) :
  hex_mode th = false →
  loop fuel th sc file_size i rest sent_size = Some (e, tr) →
  ∃ unread,
    rest = (concat (written tr) ++ unread)%list
    ∧ Forall (fun chunk => chunk ≠ []) (written tr)
    ∧ (chunk_size th ≠ 0%Z → closed_before sc = None →
       (∃ sent, e = Left sent true) → unread = []).
Proof.
  intros Hplain. revert i rest sent_size e tr.
  induction fuel as [|fuel IH]; intros i rest sent_size e tr; [done|].
  cbn [loop]. destruct (running_at sc i && is_open_at sc i) eqn:Hgo.
  2:{ intros [= <- <-]. exists rest. split; [done|]. split; [constructor|].
      intros _ Hopen [sent [= _ Hrun]]. unfold is_open_at in Hgo.
      by rewrite Hopen, Hrun in Hgo. }
  destruct (read_splits (chunk_size th) rest) as [Hsplit Hempty].
  destruct (read (chunk_size th) rest) as [chunk rest']. cbn [fst snd] in *.
  destruct chunk as [|b chunk].
  { intros [= <- <-]. exists rest. split; [done|]. split; [constructor|].
    intros Hn _ _. by apply Hempty. }
  rewrite Hplain.
  destruct (write_raises sc i).
  { intros [= <- <-]. exists rest. split; [done|]. split; [constructor|].
    by intros _ _ [sent [=]]. }
  destruct (progress _ _) as [value|ex].
  2:{ intros [= <- <-]. exists rest'. cbn [written concat].
      rewrite app_nil_r. split; [done|]. split; [by repeat constructor|].
      by intros _ _ [sent [=]]. }
  destruct (loop fuel _ _ _ _ _ _) as [[e' [sigs wr]]|] eqn:Hl; [|done].
  intros [= <- <-]. apply IH in Hl as (unread & Hrest & Hall & Hdone).
  exists unread. cbn [written concat] in *.
  split; [by rewrite Hsplit, Hrest, (assoc_L (++))|].
  split; [by constructor|done].
Qed.

(** X14: outside hex mode the chunks written to the port are, one
    after the other, a beginning of the file, and none of them is
    empty.  When the transfer is reported as done, the chunk size is
    not 0 and the port was never closed, they are the whole file. *)
Theorem file_send_plain_content (th : t) (sc : schedule) (file_size : Z)
    (content : list byte) (tr : trace) :
  hex_mode th = false →
  run_with th sc file_size (Ok content) = Some tr →
  (∃ unread, content = (concat (written tr) ++ unread)%list)
  ∧ Forall (fun chunk => chunk ≠ []) (written tr)
  ∧ (chunk_size th ≠ 0%Z → closed_before sc = None →
     (∃ msg, finished true msg ∈ signals tr) →
     concat (written tr) = content).
Proof.
  intros Hplain. unfold run_with.
  destruct (loop _ _ _ _ _ _ _) as [[e [sigs wr]]|] eqn:Hl; [|done].
  pose proof (loop_account _ _ _ _ _ _ _ _ _ Hl) as (Hsigs & _).
  apply (loop_plain _ _ _ _ _ _ _ _ _ Hplain) in Hl
    as (unread & Hrest & Hall & Hdone).
  cbn [signals written] in *.
  assert (∀ msg, finished true msg ∉ sigs) as Hnot.
  { intros msg. rewrite Hsigs. intros (v & [=] & _)%list_elem_of_fmap. }
  destruct e as [sent [|]|ex]; intros [= <-]; cbn [signals written];
    (split; [by exists unread|]); (split; [done|]);
    intros Hn Hopen [msg [Hin|Hin%list_elem_of_singleton]%elem_of_app];
    try (by apply Hnot in Hin); try done.
  rewrite Hrest, (Hdone Hn Hopen); [by rewrite app_nil_r|by eexists].
Qed.

Lemma file_send_plain_content_witness :
  ∃ tr, run_with (init "data.bin" false "utf-8") undisturbed 2048
          (Ok (replicate 2048 Byte.x41)) = Some tr
        ∧ concat (written tr) = replicate 2048 Byte.x41.
Proof.
  eexists. split; [by vm_compute|].
  apply (file_send_plain_content (init "data.bin" false "utf-8") undisturbed
           2048 (replicate 2048 Byte.x41)).
  - reflexivity.
  - by vm_compute.
  - done.
  - done.
  - eexists. cbn [signals].
    do 2 apply list_elem_of_further. apply list_elem_of_here.
Defined.

End FileSendMore.

(** ** Hexadecimal text: what a hex transfer writes, what hex sending reads *)

Section HexMore.

Import FileSendThread.

Lemma fromhex_from_bytes_hex_cons (b : byte) (rest : string) (pos : nat) :
  Hex.fromhex_from pos
    (String (Hex.lower_digit (Byte.to_N b / 16))
       (String (Hex.lower_digit (Byte.to_N b mod 16)) rest))
  = (parsed ← Hex.fromhex_from (S (S pos)) rest; Ok (b :: parsed)).
Proof. destruct b; reflexivity. Qed.

Lemma fromhex_from_bytes_hex (data : list byte) (pos : nat) :
  Hex.fromhex_from pos (Hex.bytes_hex data) = Ok data.
Proof.
  revert pos. induction data as [|b data IH]; intros pos; [done|].
  cbn [Hex.bytes_hex]. by rewrite fromhex_from_bytes_hex_cons, IH.
Qed.

Lemma loop_hex (fuel : nat) (th : t) (sc : schedule) (file_size : Z)
    (i : nat) (rest : list byte) (sent_size : Z) (e : loop_end) (tr : trace) :
  hex_mode th = true →
  Codec.encode_ascii_text (encoding th) = (fun text => Ok (list_byte_of_string text)) →
  loop fuel th sc file_size i rest sent_size = Some (e, tr) →
  ∃ chunks unread,
    rest = (concat chunks ++ unread)%list
    ∧ written tr = map (fun chunk => list_byte_of_string (Hex.bytes_hex chunk))
                     chunks.
Proof.
  intros Hhex Henc. revert i rest sent_size e tr.
  induction fuel as [|fuel IH]; intros i rest sent_size e tr; [done|].
  cbn [loop]. destruct (running_at sc i && is_open_at sc i);
    [|intros [= <- <-]; by exists [], rest].
  destruct (read_splits (chunk_size th) rest) as [Hsplit _].
  destruct (read (chunk_size th) rest) as [chunk rest']. cbn [fst snd] in *.
  destruct chunk as [|b chunk]; [intros [= <- <-]; by exists [], rest|].
  rewrite Hhex, Henc.
  destruct (write_raises sc i); [intros [= <- <-]; by exists [], rest|].
  destruct (progress _ _) as [value|ex].
  2:{ intros [= <- <-]. exists [b :: chunk], rest'. cbn [concat written map].
      by rewrite app_nil_r. }
  destruct (loop fuel _ _ _ _ _ _) as [[e' [sigs wr]]|] eqn:Hl; [|done].
  intros [= <- <-]. apply IH in Hl as (chunks & unread & Hrest & Hwr).
  exists ((b :: chunk) :: chunks), unread. cbn [written concat map] in *.
  split; [by rewrite Hsplit, Hrest, (assoc_L (++))|]. by rewrite Hwr.
Qed.

(** X15: in hex mode, with one of the encodings of the table that
    extend ASCII, each chunk written to the port is the text of the
    lower-case hex digits of a chunk of the file, twice as long as
    that chunk, and [bytes.fromhex] reads it back as that chunk; the
    chunks so read back are, one after the other, a beginning of the
    file. *)
Theorem file_send_hex_content (th : t) (sc : schedule) (file_size : Z)
    (content : list byte) (tr : trace) :
  hex_mode th = true →
  encoding th ∈ ["utf-8"; "gbk"; "gb2312"; "latin-1"; "ascii"; "gb18030"] →
  run_with th sc file_size (Ok content) = Some tr →
  ∃ chunks unread,
    content = (concat chunks ++ unread)%list
    ∧ Forall2 (fun out chunk =>
                 out = list_byte_of_string (Hex.bytes_hex chunk)
                 ∧ length out = 2 * length chunk
                 ∧ Hex.fromhex (string_of_list_byte out) = Ok chunk)
        (written tr) chunks.
Proof.
  intros Hhex Henc. unfold run_with.
  destruct (loop _ _ _ _ _ _ _) as [[e [sigs wr]]|] eqn:Hl; [|done].
  apply loop_hex in Hl as (chunks & unread & Hrest & Hwr); [|done|].
  2:{ unfold Codec.encode_ascii_text. by rewrite bool_decide_eq_true_2. }
  cbn [written] in Hwr.
  assert (Forall2 (fun out chunk =>
                     out = list_byte_of_string (Hex.bytes_hex chunk)
                     ∧ length out = 2 * length chunk
                     ∧ Hex.fromhex (string_of_list_byte out) = Ok chunk)
            wr chunks) as Hall.
  { subst wr. clear. induction chunks as [|chunk chunks IH]; [constructor|].
    cbn [map]. constructor; [|exact IH]. split; [done|]. split.
    - destruct (hex_chunk_doubles chunk) as (out & [= <-] & Hlen). exact Hlen.
    - rewrite string_of_list_byte_of_string. apply fromhex_from_bytes_hex. }
  destruct e as [sent [|]|ex]; intros [= <-]; by exists chunks, unread.
Qed.

Lemma file_send_hex_content_witness :
  ∃ chunks unread,
    [Byte.x0a; Byte.xff; Byte.x00] = (concat chunks ++ unread)%list
    ∧ Forall2 (fun out chunk =>
                 out = list_byte_of_string (Hex.bytes_hex chunk)
                 ∧ length out = 2 * length chunk
                 ∧ Hex.fromhex (string_of_list_byte out) = Ok chunk)
        [list_byte_of_string "0aff00"] chunks.
Proof.
  apply (file_send_hex_content (init "data.bin" true "utf-8") undisturbed 3
           [Byte.x0a; Byte.xff; Byte.x00]
           (Trace [progress_updated 200;
                   finished true "文件发送完成，共发送 6 字节"]
                  [list_byte_of_string "0aff00"])).
  - reflexivity.
  - by refine (bool_decide_unpack _ _).
  - by vm_compute.
Defined.

End HexMore.

Section HexSend.

Lemma digit_value_bound (c : ascii) (v : N) :
  Hex.digit_value c = Some v → Hex.isspace c = false ∧ (v < 16)%N.
Proof.
  destruct c as [[] [] [] [] [] [] [] []]; vm_compute; intros [= <-]; done.
Qed.

Lemma replace_space_digits (text : string) :
  Forall (fun c => c = " "%char ∨ is_Some (Hex.digit_value c))
    (list_ascii_of_string text) →
  Forall (fun c => is_Some (Hex.digit_value c))
    (list_ascii_of_string (Py.replace_char " " "" text)).
Proof.
  induction text as [|c text IH]; [done|].
  cbn [list_ascii_of_string]. intros [Hc Htext]%Forall_cons.
  cbn [Py.replace_char]. destruct (Ascii.eqb_spec c " ") as [->|Hne].
  - rewrite str_app_nil_l. auto.
  - cbn [list_ascii_of_string]. constructor; [|auto]. by destruct Hc.
Qed.

Lemma fromhex_from_digits (s : string) :
  Forall (fun c => is_Some (Hex.digit_value c)) (list_ascii_of_string s) →
  ∀ pos,
    (if Nat.even (String.length s)
     then ∃ data, Hex.fromhex_from pos s = Ok data
                  ∧ 2 * length data = String.length s
     else Hex.fromhex_from pos s
          = Raise (Hex.fromhex_error (pos + String.length s)))
    ∧ ∀ c, is_Some (Hex.digit_value c) →
           if Nat.even (String.length (String c s))
           then ∃ data, Hex.fromhex_from pos (String c s) = Ok data
                        ∧ 2 * length data = String.length (String c s)
           else Hex.fromhex_from pos (String c s)
                = Raise (Hex.fromhex_error
                           (pos + String.length (String c s))).
Proof.
  induction s as [|d s IH]; cbn [list_ascii_of_string].
  - intros _ pos. split; [by exists []|]. intros c [hi Hc].
    destruct (digit_value_bound _ _ Hc) as [Hsp _].
    cbn [String.length Nat.even Hex.fromhex_from]. rewrite Hsp, Hc.
    do 2 f_equal. lia.
  - intros [[lo Hd] Hs]%Forall_cons pos. specialize (IH Hs).
    split; [apply (proj2 (IH pos)); by exists lo|].
    intros c [hi Hc].
    destruct (digit_value_bound _ _ Hc) as [Hsp Hhi].
    destruct (digit_value_bound _ _ Hd) as [_ Hlo].
    cbn [String.length Nat.even Hex.fromhex_from]. rewrite Hsp, Hc, Hd.
    destruct (Byte.of_N (hi * 16 + lo)) as [b|] eqn:Hb.
    2:{ apply Byte.of_N_None_iff in Hb. lia. }
    pose proof (proj1 (IH (S (S pos)))) as Hrest.
    destruct (Nat.even (String.length s)).
    + destruct Hrest as (data & -> & Hlen). exists (b :: data).
      split; [done|]. cbn [length]. lia.
    + rewrite Hrest. cbn [mbind Py.result_bind]. do 2 f_equal. lia.
Qed.

(** X16: the hex branch of [send_data] on a text of hexadecimal digits
    and spaces.  The spaces are taken out before the digits are
    paired, so where they stand does not matter, inside a pair
    either.  With an even number of digits the text is sent as half
    as many bytes; with an odd number nothing is sent and
    [bytes.fromhex] raises [ValueError] at the position after the last
    digit. *)
Theorem hex_send_digits (text : string) :
  Forall (fun c => c = " "%char ∨ is_Some (Hex.digit_value c))
    (list_ascii_of_string text) →
  let digits := String.length (Py.replace_char " " "" text) in
  if Nat.even digits
  then ∃ data, MainApp.hex_send_bytes text = Ok data ∧ 2 * length data = digits
  else MainApp.hex_send_bytes text = Raise (Hex.fromhex_error digits).
Proof.
  intros Htext. cbv zeta. unfold MainApp.hex_send_bytes, Hex.fromhex.
  apply replace_space_digits in Htext.
  exact (proj1 (fromhex_from_digits _ Htext 0)).
Qed.

Lemma hex_send_digits_witness :
  (∃ data, MainApp.hex_send_bytes "A B c0" = Ok data ∧ 2 * length data = 4)
  ∧ MainApp.hex_send_bytes "0A F"
    = Raise (ValueError
               "non-hexadecimal number found in fromhex() arg at position 3").
Proof.
  split.
  - apply (hex_send_digits "A B c0").
    repeat (apply Forall_cons; split; [first [by left|by right; eexists]|]).
    constructor.
  - apply (hex_send_digits "0A F").
    repeat (apply Forall_cons; split; [first [by left|by right; eexists]|]).
    constructor.
Defined.

End HexSend.

(** ** Connections: what they call, what a failure leaves behind *)

Section ConnectionsMore.

Import Connection.

(** X17: [send] and [receive] of every connection class, in whatever
    state the object is, make their calls only on sockets and ports
    that the object holds open.  [receive] never raises: it returns
    bytes, the empty bytes when anything went wrong.  An object that
    holds nothing open sends nothing: [send] returns 0 and [receive]
    the empty bytes, without a call. *)
Theorem io_touches_open_handles (c : connection) (data : list byte)
    (env : io_env) :
  Forall (fun k => ∃ h, call_handle k = Some h ∧ h ∈ open_handles c)
    (snd (send c data env) ++ snd (receive c env))%list
  ∧ is_ok (fst (receive c env)) = true
  ∧ (open_handles c = [] →
     send c data env = (Ok 0%Z, []) ∧ receive c env = (Ok [], [])).
Proof.
  destruct c as [b a|cls b a|b a|b a]; cbn [send receive open_handles].
  - unfold Serial_send, Serial_receive.
    destruct a as [pn br db pa sb [[h []]|]]; cbn [serial_port];
      [|by repeat split..].
    destruct (waiting env) as [n|ew]; [destruct (n =? 0)%Z|];
      destruct (recv_reply env); cbn [fst snd app is_ok];
      (split; [|by split]);
      repeat (apply Forall_cons; split;
              [eexists; split; [reflexivity|set_solver]|]);
      apply Forall_nil_2.
  - unfold TCP_send, TCP_receive, recv_nonblocking.
    destruct a as [ho po sv [sk|] [ck|] th]; cbn [is_server client_socket socket];
      destruct (py_truthy sv); destruct (recv_reply env);
      cbn [fst snd app is_ok option_list];
      (split; [|by split]);
      repeat (apply Forall_cons; split;
              [eexists; split; [reflexivity|set_solver]|]);
      apply Forall_nil_2.
  - unfold UDP_send, UDP_receive, recv_nonblocking.
    destruct a as [lh lp rh rp [sk|]];
      cbn [udp_socket remote_host remote_port py_truthy andb];
      destruct (py_truthy rh && py_truthy rp); destruct (recv_reply env);
      cbn [fst snd app is_ok option_list];
      (split; [|by split]);
      repeat (apply Forall_cons; split;
              [eexists; split; [reflexivity|set_solver]|]);
      apply Forall_nil_2.
  - unfold Bluetooth_send, Bluetooth_receive.
    destruct a as [ad po [sk|] av bl]; destruct b as [[] ct st];
      cbn [bt_socket is_connected];
      destruct (recv_reply env); destruct (send_reply env);
      cbn [fst snd app is_ok option_list];
      (split; [|by split]);
      repeat (apply Forall_cons; split;
              [eexists; split; [reflexivity|set_solver]|]);
      apply Forall_nil_2.
Qed.

Lemma io_touches_open_handles_witness :
  let fresh := UDP_init (PStr "0.0.0.0") (PInt 9000) (PStr "10.0.0.2")
                 (PInt 9001) in
  send fresh [Byte.x68] (IOEnv (Ok 1%Z) (Ok 0%Z) (Ok [Byte.x6f])) = (Ok 0%Z, [])
  ∧ receive fresh (IOEnv (Ok 1%Z) (Ok 0%Z) (Ok [Byte.x6f])) = (Ok [], []).
Proof.
  cbv zeta.
  apply (io_touches_open_handles
           (UDP_init (PStr "0.0.0.0") (PInt 9000) (PStr "10.0.0.2") (PInt 9001))
           [Byte.x68] (IOEnv (Ok 1%Z) (Ok 0%Z) (Ok [Byte.x6f]))).
  reflexivity.
Defined.

(** X18: in every state that an object of a connection class can be
    in, an object that says it is connected holds a socket or a port
    that is open. *)
Theorem connected_holds_open_handle (c : connection) :
  reachable c → connected c = true → open_handles c ≠ [].
Proof.
  induction 1 as [ | | | |c env _ IH|c late _ IH|cls b a client _ IH|c _ IH];
    try done.
  - destruct c as [b a|cls b a|b a|b a]; cbn [connect].
    + unfold Serial_connect. destruct (open_error env); [exact IH|].
      by destruct (port_name a).
    + unfold TCP_connect. destruct (open_error env); [exact IH|].
      destruct (setup_error env);
        [|destruct (py_truthy (is_server a)); [destruct (late_error env)|]];
        cbn; by destruct (client_socket a).
    + unfold UDP_connect. destruct (open_error env); [exact IH|].
      by repeat case_match.
    + unfold Bluetooth_connect. destruct (negb _); [exact IH|].
      by repeat case_match.
  - destruct c as [b a|cls b a|b a|b a]; cbn [disconnect]; try done.
    + unfold Serial_disconnect.
      destruct a as [pn br db pa sb [[h []]|]]; [done|exact IH..].
    + unfold TCP_disconnect. by repeat case_match.
  - destruct c as [b a|cls b a|b a|b a]; exact IH.
Qed.

Lemma connected_holds_open_handle_witness :
  open_handles
    (snd (connect (UDP_init (PStr "0.0.0.0") (PInt 9000) PNone PNone)
            (ConnectEnv 5 None None None 0))) ≠ [].
Proof.
  apply connected_holds_open_handle; [|reflexivity].
  apply reach_connect, reach_UDP.
Defined.

(** X19: what a failed [connect] leaves behind.  Whatever goes wrong,
    the exception that leaves [connect] is a [ConnectionError].  The
    flag [is_connected] is then as it was before the call, with two
    exceptions, where the flag is set before the last step of the
    method: a UDP connection with a remote address, when setting its
    default destination raises, and a TCP, WiFi or Ethernet server,
    when starting its accept thread raises.  The object is then left
    connected, with its new socket, and the server with a thread that
    is not alive. *)
Theorem failed_connect_flag (c : connection) (env : connect_env) (e : exn) :
  fst (connect c env) = Raise e →
  (∃ msg, e = ConnectionError msg)
  ∧ (connected (snd (connect c env)) = connected c
     ∨ (open_error env = None ∧ setup_error env = None
        ∧ is_Some (late_error env)
        ∧ connected (snd (connect c env)) = true
        ∧ new_handle env ∈ open_handles (snd (connect c env))
        ∧ ((∃ b a, c = UDPConnection b a
                   ∧ py_truthy (remote_host a) && py_truthy (remote_port a)
                     = true)
           ∨ (∃ cls b a a',
                c = TCPConnection cls b a
                ∧ py_truthy (is_server a) = true
                ∧ snd (connect c env)
                  = TCPConnection cls (set_connected b true) a'
                ∧ server_thread a'
                  = Some (ThreadObj (new_thread env) false))))).
Proof.
  destruct c as [b a|cls b a|b a|b a]; cbn [connect].
  - unfold Serial_connect. destruct (open_error env); [|done].
    intros [= <-]. split; [by eexists|by left].
  - unfold TCP_connect. destruct (open_error env) eqn:Ho;
      [intros [= <-]; split; [by eexists|by left]|].
    destruct (setup_error env) eqn:Hs;
      [intros [= <-]; split; [by eexists|by left]|].
    destruct (py_truthy (is_server a)) eqn:Hserver; [|done].
    destruct (late_error env) eqn:Hl; [|done].
    intros [= <-]. split; [by eexists|]. right.
    split; [done|]. split; [done|]. split; [by eexists|]. split; [done|].
    split; [cbn; set_solver|]. right. eexists cls, b, a, _.
    repeat split; done.
  - unfold UDP_connect. destruct (open_error env) eqn:Ho;
      [intros [= <-]; split; [by eexists|by left]|].
    destruct (setup_error env) eqn:Hs;
      [intros [= <-]; split; [by eexists|by left]|].
    destruct (py_truthy (remote_host a) && py_truthy (remote_port a)) eqn:Hr;
      [|done].
    destruct (late_error env) eqn:Hp; [|done].
    intros [= <-]. split; [by eexists|]. right.
    split; [done|]. split; [done|]. split; [by eexists|]. split; [done|].
    split; [cbn; set_solver|]. left. by exists b, a.
  - unfold Bluetooth_connect. destruct (negb _);
      [intros [= <-]; split; [by eexists|by left]|].
    destruct (match open_error env with Some _ => _ | None => _ end);
      [|done].
    intros [= <-]. split; [by eexists|by left].
Qed.

Lemma failed_connect_flag_witness :
  let c := TCP_init WiFi (PStr "0.0.0.0") (PInt 8080) (PBool true) in
  let env := ConnectEnv 5 None None
               (Some (RuntimeError "can't start new thread")) 2 in
  fst (connect c env)
  = Raise (ConnectionError "TCP连接失败: can't start new thread")
  ∧ connected (snd (connect c env)) = true
  ∧ open_handles (snd (connect c env)) = [5]
  ∧ (∃ msg, ConnectionError "TCP连接失败: can't start new thread"
            = ConnectionError msg).
Proof.
  cbv zeta. split; [reflexivity|]. split; [reflexivity|].
  split; [reflexivity|].
  apply (failed_connect_flag
           (TCP_init WiFi (PStr "0.0.0.0") (PInt 8080) (PBool true))
           (ConnectEnv 5 None None
              (Some (RuntimeError "can't start new thread")) 2)).
  reflexivity.
Defined.

End ConnectionsMore.

(** ** The connection manager and its objects *)

Section ManagerMore.

Import Connection ConnectionManager.

Lemma new_Serial_fresh be kw c :
  new_Serial be kw = Ok c → reachable c ∧ connected c = false.
Proof.
  unfold new_Serial. destruct (bind_kwargs _ _ _) as [args|]; [|done].
  cbn [mbind Py.result_bind].
  destruct args as [|? [|? [|? [|? [|? [|]]]]]]; try done.
  intros [= <-]. split; [apply reach_Serial|done].
Qed.

Lemma new_TCP_fresh cls name be kw c :
  new_TCP cls name be kw = Ok c → reachable c ∧ connected c = false.
Proof.
  unfold new_TCP. destruct (bind_kwargs _ _ _) as [args|]; [|done].
  cbn [mbind Py.result_bind].
  destruct args as [|? [|? [|? [|]]]]; try done.
  intros [= <-]. split; [apply reach_TCP|done].
Qed.

Lemma new_UDP_fresh be kw c :
  new_UDP be kw = Ok c → reachable c ∧ connected c = false.
Proof.
  unfold new_UDP. destruct (bind_kwargs _ _ _) as [args|]; [|done].
  cbn [mbind Py.result_bind].
  destruct args as [|? [|? [|? [|? [|]]]]]; try done.
  intros [= <-]. split; [apply reach_UDP|done].
Qed.

Lemma new_Bluetooth_fresh be kw c :
  new_Bluetooth be kw = Ok c → reachable c ∧ connected c = false.
Proof.
  unfold new_Bluetooth. destruct (bind_kwargs _ _ _) as [args|]; [|done].
  cbn [mbind Py.result_bind].
  destruct args as [|? [|? [|]]]; try done.
  intros [= <-]. split; [apply reach_Bluetooth|done].
Qed.

Lemma connection_types_fresh key class be kw c :
  Py.dict_get connection_types key = Some class →
  class be kw = Ok c → reachable c ∧ connected c = false.
Proof.
  unfold connection_types. cbn [Py.dict_get].
  repeat match goal with
         | |- context [String.eqb ?name key] =>
             destruct (String.eqb name key);
             [intros [= <-] H;
              first [ exact (new_Serial_fresh _ _ _ H)
                    | exact (new_TCP_fresh _ _ _ _ _ H)
                    | exact (new_UDP_fresh _ _ _ H)
                    | exact (new_Bluetooth_fresh _ _ _ H) ]|]
         end.
  done.
Qed.

Lemma sound_update (m : t) (ref : nat) (c c' : connection) :
  sound m → objects m !! ref = Some c → reachable c' →
  sound (Mk (<[ ref := c' ]> (objects m)) (next_object m)
            (current_connection m) (connections m)).
Proof.
  intros (Hobj & Hcur & Htab) Hc Hc'. split; [|split]; cbn.
  - intros r x [[<- <-]|[Hne Hx]]%lookup_insert_Some; [|by apply Hobj].
    split; [|done]. by destruct (Hobj _ _ Hc).
  - intros r Hr. apply lookup_insert_is_Some'. right. by apply Hcur.
  - intros info r Hr. apply lookup_insert_is_Some'. right. by eapply Htab.
Qed.

Lemma sound_fresh (m : t) : sound m → objects m !! next_object m = None.
Proof.
  intros (Hobj & _). destruct (objects m !! next_object m) as [c|] eqn:E; [|done].
  apply Hobj in E as [E _]. lia.
Qed.

Lemma sound_create_connection (m : t) (connection_type : string)
    (kw : kwargs) (be : backend) :
  sound m → sound (snd (create_connection m connection_type kw be)).
Proof.
  intros Hm. pose proof Hm as (Hobj & Hcur & Htab).
  unfold create_connection.
  destruct (Py.dict_get connection_types _) as [class|] eqn:Hclass; [|done].
  destruct (class be kw) as [c|e] eqn:Hnew; [|done].
  destruct (connection_types_fresh _ _ _ _ _ Hclass Hnew) as [Hreach _].
  split; [|split]; cbn.
  - intros r x [[<- <-]|[Hne Hx]]%lookup_insert_Some; [split; [lia|done]|].
    destruct (Hobj _ _ Hx). split; [lia|done].
  - intros r [= <-]. rewrite lookup_insert_eq. by eexists.
  - intros info r [[_ <-]|[_ Hr]]%lookup_insert_Some.
    + rewrite lookup_insert_eq. by eexists.
    + apply lookup_insert_is_Some'. right. by eapply Htab.
Qed.

Lemma connect_current (m : t) (env : connect_env) (ref : nat)
    (c : connection) :
  current_connection m = Some ref → objects m !! ref = Some c →
  connect m env
  = (fst (Connection.connect c env),
     Mk (<[ ref := snd (Connection.connect c env) ]> (objects m))
        (next_object m) (Some ref) (connections m)).
Proof.
  intros Href Hc. unfold connect, current. rewrite Href.
  cbn [mbind option_bind]. rewrite Hc.
  by destruct (Connection.connect c env).
Qed.

Lemma disconnect_current (m : t) (late : option handle) (ref : nat)
    (c : connection) :
  current_connection m = Some ref → objects m !! ref = Some c →
  disconnect m late
  = (Mk (<[ ref := fst (Connection.disconnect c late) ]> (objects m))
        (next_object m) (Some ref) (connections m),
     snd (Connection.disconnect c late)).
Proof.
  intros Href Hc. unfold disconnect, current. rewrite Href.
  cbn [mbind option_bind]. rewrite Hc.
  by destruct (Connection.disconnect c late).
Qed.

Lemma no_current (m : t) :
  current m = None → sound m → current_connection m = None.
Proof.
  intros Hnone (_ & Hcur & _). unfold current in Hnone.
  destruct (current_connection m) as [ref|] eqn:Href; [|done].
  destruct (Hcur _ eq_refl) as [c Hc]. cbn in Hnone. congruence.
Qed.

Lemma sound_connect (m : t) (env : connect_env) :
  sound m → sound (snd (connect m env)).
Proof.
  intros Hm. destruct (current m) as [c|] eqn:Hc.
  - unfold current in Hc.
    destruct (current_connection m) as [ref|] eqn:Href; [|done].
    cbn in Hc. rewrite (connect_current _ _ _ _ Href Hc). cbn [snd].
    rewrite <- Href. eapply sound_update; [done..|].
    apply reach_connect. by destruct (proj1 Hm _ _ Hc).
  - unfold connect. by rewrite (no_current _ Hc Hm).
Qed.

Lemma sound_disconnect (m : t) (late : option handle) :
  sound m → sound (fst (disconnect m late)).
Proof.
  intros Hm. destruct (current m) as [c|] eqn:Hc.
  - unfold current in Hc.
    destruct (current_connection m) as [ref|] eqn:Href; [|done].
    cbn in Hc. rewrite (disconnect_current _ _ _ _ Href Hc). cbn [fst].
    rewrite <- Href. eapply sound_update; [done..|].
    apply reach_disconnect. by destruct (proj1 Hm _ _ Hc).
  - unfold disconnect. by rewrite (no_current _ Hc Hm).
Qed.

Lemma sound_init : sound init.
Proof. split; [|split]; cbn; intros *; by rewrite ?lookup_empty. Qed.

(** X20: the manager keeps its references in order.  A new manager
    holds nothing; from then on, through [create_connection],
    [connect] and [disconnect] with whatever arguments and outcome,
    the current connection and every entry of the lookup table refer
    to an object that the manager holds, and every object held was
    built by a constructor and changed by the methods of its class
    only.  An object that [create_connection] returns is new (no
    object held before has its number), it is not connected, and the
    objects held before are as they were. *)
Theorem manager_stays_sound (m : t) (connection_type : string) (kw : kwargs)
    (be : backend) (env : connect_env) (late : option handle) :
  sound m →
  sound (snd (create_connection m connection_type kw be))
  ∧ sound (snd (connect m env))
  ∧ sound (fst (disconnect m late))
  ∧ ∀ ref, fst (create_connection m connection_type kw be) = Ok ref →
           objects m !! ref = None
           ∧ (connected
                <$> objects (snd (create_connection m connection_type kw be))
                    !! ref) = Some false
           ∧ ∀ old c, objects m !! old = Some c →
                      objects (snd (create_connection m connection_type kw be))
                        !! old = Some c.
Proof.
  intros Hm.
  split; [by apply sound_create_connection|].
  split; [by apply sound_connect|]. split; [by apply sound_disconnect|].
  pose proof (sound_fresh m Hm) as Hfresh.
  intros ref. unfold create_connection.
  destruct (Py.dict_get connection_types _) as [class|] eqn:Hclass; [|done].
  destruct (class be kw) as [c|e] eqn:Hnew; [|done].
  destruct (connection_types_fresh _ _ _ _ _ Hclass Hnew) as [_ Hoff].
  cbn. intros [= <-]. split; [done|]. split.
  - by rewrite lookup_insert_eq, <- Hoff.
  - intros old x Hx. rewrite lookup_insert_ne; [done|]. congruence.
Qed.

Lemma manager_stays_sound_witness :
  sound (snd (create_connection init "TCP"
                [("host", PStr "10.0.0.1"); ("port", PInt 23)] PyBluez))
  ∧ sound (snd (connect init (ConnectEnv 3 None None None 1)))
  ∧ sound (fst (disconnect init None)).
Proof.
  destruct (manager_stays_sound init "TCP"
              [("host", PStr "10.0.0.1"); ("port", PInt 23)] PyBluez
              (ConnectEnv 3 None None None 1) None sound_init)
    as (H1 & H2 & H3 & _).
  done.
Defined.

Lemma disconnect_keeps_info (c : connection) (late : option handle) :
  get_info (fst (Connection.disconnect c late)) = get_info c.
Proof.
  destruct c as [b a|cls b a|b a|b a]; cbn [Connection.disconnect]; try done.
  - unfold Serial_disconnect. by destruct a as [pn br db pa sb [[h []]|]].
  - unfold TCP_disconnect. by repeat case_match.
Qed.

(** X21: the manager after [disconnect()].  The current connection is
    still the same object, and [get_connection_info] still describes
    it: the manager does not go back to [未连接].  But nothing goes
    out any more: [send_data] returns 0 without calling any socket or
    port.  A second [disconnect()] makes no call, unless the accept
    thread of a TCP server stored a client while the first one was
    waiting for it: the second call then closes that client, and only
    it. *)
Theorem manager_after_disconnect (m : t) (late : option handle)
    (data : list byte) (env : io_env) :
  sound m →
  let m' := fst (disconnect m late) in
  get_current_connection m' = get_current_connection m
  ∧ get_connection_info m' = get_connection_info m
  ∧ send_data m' data env = (Ok 0%Z, [])
  ∧ snd (disconnect m' None)
    = match current m ≫= (fun c => left_behind c late) with
      | Some h => [Close h]
      | None => []
      end.
Proof.
  intros Hm. cbv zeta. destruct (current m) as [c|] eqn:Hcur.
  2:{ pose proof (no_current _ Hcur Hm) as Hnone.
      unfold disconnect, send_data. rewrite Hnone. cbn [fst snd].
      rewrite Hnone. unfold send_data. by rewrite Hcur. }
  pose proof Hcur as Hc. unfold current in Hc.
  destruct (current_connection m) as [ref|] eqn:Href; [|done]. cbn in Hc.
  destruct (proj1 Hm _ _ Hc) as [_ Hreach].
  destruct (disconnect_result c late (reachable_serial_flag_sound c Hreach))
    as (Hoff & _ & _ & Hagain & _).
  rewrite (disconnect_current _ _ _ _ Href Hc). cbn [fst].
  erewrite disconnect_current;
    [|reflexivity|cbn [objects]; apply lookup_insert_eq].
  unfold get_current_connection, get_connection_info, send_data, current.
  cbn [current_connection objects mbind option_bind snd].
  rewrite Href. cbn [mbind option_bind].
  rewrite lookup_insert_eq, Hc, Hoff, Hagain, disconnect_keeps_info. done.
Qed.

Lemma manager_after_disconnect_witness :
  let m := snd (connect
                  (snd (create_connection init "tcp"
                          [("host", PStr "0.0.0.0"); ("port", PInt 8080);
                           ("is_server", PBool true)] PyBluez))
                  (ConnectEnv 3 None None None 1)) in
  get_connection_info (fst (disconnect m (Some 7))) = "TCP 服务器 0.0.0.0:8080"
  ∧ send_data (fst (disconnect m (Some 7))) [Byte.x68]
      (IOEnv (Ok 1%Z) (Ok 0%Z) (Ok []))
    = (Ok 0%Z, [])
  ∧ snd (disconnect (fst (disconnect m (Some 7))) None) = [Close 7]
  ∧ snd (disconnect (fst (disconnect m None)) None) = [].
Proof.
  cbv zeta. split; [by vm_compute|]. split; [|split; by vm_compute].
  refine (proj1 (proj2 (proj2 (manager_after_disconnect _ _ _ _ _)))).
  apply sound_connect, sound_create_connection, sound_init.
Defined.

End ManagerMore.

(** ** The receive log and the history it is redrawn from *)

Section DisplayHistory.

Variable decode : Codec.decoder.

Import MainApp.

Lemma mapM_snoc {A B} (f : A → result B) (l : list A) (x : A) :
  mapM f (l ++ [x])
  = (ys ← mapM f l; y ← f x; Ok (ys ++ [y])%list).
Proof.
  induction l as [|a l IH]; cbn [mapM app].
  - by destruct (f x).
  - destruct (f a) as [b|e]; [|done]. cbn [mbind Py.result_bind].
    rewrite IH. destruct (mapM f l) as [ys|e]; [|done].
    cbn [mbind Py.result_bind]. by destruct (f x).
Qed.

Lemma endswith_char_snoc (s : string) (c d : ascii) :
  Py.endswith_char (s +:+ String c "") d = Ascii.eqb c d.
Proof.
  induction s as [|a s IH]; [done|]. rewrite str_app_cons.
  cbn [Py.endswith_char]. rewrite IH. by destruct s.
Qed.

(** X22: how the receive log follows the history, with the time
    stamps switched off.  After [clear_receive_area] the log is the
    rendering of the (empty) history.  When the log is the rendering
    of the history and [append_raw_received_data] gets bytes that
    decode, the bytes are stored, and the log is again the rendering
    of the history, up to one line break: with the line-break box
    ticked, a text that itself ends in a line feed gets no second one
    when it is appended but does get one when the history is redrawn.
    In hex mode the two always agree, and a redraw changes nothing. *)
Theorem display_follows_history (w : window) (now : string) (raw : list byte)
    (formatted : string) :
  history_rendering decode (clear_receive_area w)
  = Ok (receive_text (clear_receive_area w))
  ∧ (timestamp_check w = false →
     _format_data decode raw (hex_receive_check w)
       (SerialConfig.get_encoding_value (receive_encoding_combo w))
       (SerialConfig.get_error_handling_value (error_handling_combo w))
     = Ok formatted →
     history_rendering decode w = Ok (receive_text w) →
     let w' := fst (append_raw_received_data decode w now raw) in
     snd (append_raw_received_data decode w now raw) = None
     ∧ data_history w' = (data_history w ++ [Entry raw now false])%list
     ∧ history_rendering decode w'
       = Ok (receive_text w'
             ++ (if newline_check w && Py.endswith_char formatted Py.LF
                 then [Fragment Py.nl None] else []))%list
     ∧ (hex_receive_check w = true →
        history_rendering decode w' = Ok (receive_text w')
        ∧ _refresh_display decode w' = (w', None))).
Proof.
  split; [done|]. intros Htime Hfmt Hshown. cbv zeta.
  unfold append_raw_received_data. rewrite Hfmt. cbn [fst snd].
  split; [done|]. split; [done|].
  assert (history_rendering decode
            (append_received_data
               (with_data_history w (data_history w ++ [Entry raw now false]))
               now formatted)
          = Ok (receive_text
                  (append_received_data
                     (with_data_history w
                        (data_history w ++ [Entry raw now false])) now
                     formatted)
                ++ (if newline_check w && Py.endswith_char formatted Py.LF
                    then [Fragment Py.nl None] else []))%list) as Hafter.
  { unfold history_rendering in *.
    unfold append_received_data, with_data_history, with_receive_text.
    cbn [data_history receive_text timestamp_check newline_check].
    change (mapM (entry_rendering decode ?x)) with
      (mapM (entry_rendering decode w)).
    change (info_bold ?x) with (info_bold w).
    cbn [current_theme]. rewrite Htime.
    rewrite mapM_snoc.
    destruct (mapM (entry_rendering decode w) (data_history w))
      as [rendered|ex]; [|done].
    injection Hshown as <-. cbn [mbind Py.result_bind].
    unfold entry_rendering at 1. cbn [is_sent raw_data timestamp].
    rewrite Hfmt, Htime. cbn [mbind Py.result_bind fmap Py.result_fmap].
    f_equal. rewrite concat_app. cbn [concat]. rewrite app_nil_r.
    destruct (newline_check w), (Py.endswith_char formatted Py.LF);
      cbn [andb negb app]; rewrite <- ?(assoc_L (++)), ?app_nil_r; done. }
  split; [exact Hafter|]. intros Hhex.
  assert (Py.endswith_char formatted Py.LF = false) as Hend.
  { unfold _format_data in Hfmt. rewrite Hhex in Hfmt.
    injection Hfmt as <-. apply endswith_char_snoc. }
  rewrite Hend, andb_false_r, app_nil_r in Hafter. split; [exact Hafter|].
  pose proof (_refresh_display_renders decode
                (append_received_data
                   (with_data_history w
                      (data_history w ++ [Entry raw now false])) now
                   formatted)) as (_ & _ & Hdraw).
  rewrite Hafter in Hdraw. destruct Hdraw as [Hdoc Hnone].
  unfold _refresh_display in *.
  destruct (redraw decode _ _ _) as [doc ex]. cbn [fst snd] in *.
  subst ex. f_equal. cbn [receive_text with_receive_text] in Hdoc.
  subst doc. reflexivity.
Qed.

End DisplayHistory.

Lemma display_follows_history_witness :
  let w := MainApp.Window [] [] false false true "ASCII" "严格模式 (报错)"
             None ThemeManager.initial_theme in
  let w' := fst (MainApp.append_raw_received_data Codec.decode_single_byte w
                   "2024-01-01 10:00:00.000" [Byte.x68; Byte.x0a]) in
  MainApp.toPlainText (MainApp.receive_text w') = "[收到] h" +:+ Py.nl
  ∧ MainApp.history_rendering Codec.decode_single_byte w'
    = Ok (MainApp.receive_text w' ++ [MainApp.Fragment Py.nl None])%list.
Proof.
  cbv zeta. split; [reflexivity|].
  refine (proj1 (proj2 (proj2
    (proj2 (display_follows_history Codec.decode_single_byte
              (MainApp.Window [] [] false false true "ASCII" "严格模式 (报错)"
                 None ThemeManager.initial_theme)
              "2024-01-01 10:00:00.000" [Byte.x68; Byte.x0a]
              ("h" +:+ Py.nl)) _ _ _)))); reflexivity.
Defined.

(** ** The text a preset is shown with *)

Section PresetDisplay.

Import PresetManager.

Local Open Scope nat_scope.

Lemma str_len_app (a b : string) : str_len (a +:+ b) = str_len a + str_len b.
Proof.
  induction a as [|c a IH]; [done|]. rewrite str_app_cons.
  cbn [str_len]. rewrite IH. by destruct (is_continuation c).
Qed.

Lemma str_take_all (n : nat) (s : string) :
  str_len s ≤ n → str_take n s = s.
Proof.
  revert n. induction s as [|c s IH]; intros n; [done|].
  cbn [str_len str_take]. destruct (is_continuation c).
  - intros Hn. by rewrite IH.
  - destruct n as [|n]; [lia|]. intros Hn. rewrite IH; [done|lia].
Qed.

Lemma str_take_split (n : nat) (s : string) :
  ∃ rest, s = str_take n s +:+ rest
          ∧ str_len (str_take n s) = Nat.min n (str_len s).
Proof.
  revert n. induction s as [|c s IH]; intros n.
  - exists "". split; [done|]. cbn. lia.
  - cbn [str_len str_take]. destruct (is_continuation c) eqn:Hc.
    + destruct (IH n) as (rest & Hs & Hlen). exists rest.
      rewrite str_app_cons, <- Hs. cbn [str_len]. by rewrite Hc.
    + destruct n as [|n].
      * exists (String c s). split; [done|]. cbn. lia.
      * destruct (IH n) as (rest & Hs & Hlen). exists rest.
        rewrite str_app_cons, <- Hs. cbn [str_len]. rewrite Hc, Hlen.
        split; [done|]. lia.
Qed.

(** X26: [get_preset_display_text] shows a preset of at most 50
    characters as it is.  A longer one is cut: the text shown is the
    first 50 characters of the preset followed by three dots, 53
    characters in all, and the preset is what was kept followed by
    what was cut off. *)
Theorem preset_display_text (preset_text : string) :
  (str_len preset_text ≤ 50 →
   get_preset_display_text preset_text = preset_text)
  ∧ (50 < str_len preset_text →
     ∃ kept cut,
       preset_text = kept +:+ cut
       ∧ str_len kept = 50
       ∧ get_preset_display_text preset_text = kept +:+ "..."
       ∧ str_len (get_preset_display_text preset_text) = 53).
Proof.
  unfold get_preset_display_text. split.
  - intros Hle. by rewrite (proj2 (Nat.ltb_ge _ _) Hle).
  - intros Hlt. rewrite (proj2 (Nat.ltb_lt _ _) Hlt).
    destruct (str_take_split 50 preset_text) as (cut & Hs & Hlen).
    exists (str_take 50 preset_text), cut.
    rewrite str_len_app, Hlen. repeat split; [done|lia|].
    change (str_len "...") with 3. lia.
Qed.

Lemma preset_display_text_witness :
  get_preset_display_text "AT+CWJAP" = "AT+CWJAP"
  ∧ ∃ kept cut,
      "0123456789012345678901234567890123456789012345678901234567890"
      = kept +:+ cut
      ∧ str_len kept = 50
      ∧ get_preset_display_text
          "0123456789012345678901234567890123456789012345678901234567890"
        = kept +:+ "..."
      ∧ str_len
          (get_preset_display_text
             "0123456789012345678901234567890123456789012345678901234567890")
        = 53.
Proof.
  split.
  - apply (proj1 (preset_display_text "AT+CWJAP")).
    apply Nat.leb_le. reflexivity.
  - apply (proj2 (preset_display_text
       "0123456789012345678901234567890123456789012345678901234567890")).
    apply Nat.ltb_lt. reflexivity.
Defined.

End PresetDisplay.

(** ** The theme in force *)

Section ThemesMore.

Import ThemeManager.

(** X23: the theme in force is always one of the eight palettes.
    After any sequence of [set_theme] calls since the program started,
    with names of themes or not, [get_theme()] returns the palette of
    the last name in the sequence that names a theme, and the blue
    palette when none did. *)
Theorem current_theme_is_a_theme (names : list string) :
  let current :=
    fold_left (fun current name => snd (set_theme current name)) names
      initial_theme in
  get_theme current None ∈ map snd THEMES
  ∧ get_theme current None
    = default initial_theme (last (omap (Py.dict_get THEMES) names)).
Proof.
  cbv zeta. cbn [get_theme].
  induction names as [|name names IH] using rev_ind.
  - split; [|done]. cbn. set_solver.
  - rewrite fold_left_app, omap_app. cbn [fold_left omap list_omap].
    unfold set_theme at 1 3.
    destruct (Py.dict_get THEMES name) as [p|] eqn:E; cbn [snd].
    + rewrite last_snoc. split; [|done]. by eapply dict_get_value.
    + by rewrite app_nil_r.
Qed.

End ThemesMore.

(** ** Scanning for Bluetooth devices *)

Section BluetoothScan.

Import BluetoothManager.





End BluetoothScan.

(** ** A server and its clients, a transfer without its file *)

Section ServerClients.

Import Connection.

(** X27: a TCP, WiFi or Ethernet server talks to the client it
    accepted last.  When the accept thread takes a client, the client
    held before, if any, is closed, the listening socket stays as it
    is, and from then on [send] hands the data to the new client and
    [receive] reads from it, without blocking and without raising. *)
Theorem server_talks_to_latest_client (cls : tcp_class) (b : base)
    (a : tcp_attrs) (client : handle) (data : list byte) (env : io_env) :
  py_truthy (is_server a) = true →
  let server := fst (accept_client cls b a client) in
  closed_by (snd (accept_client cls b a client))
  = option_list (client_socket a)
  ∧ open_handles server = (client :: option_list (socket a))
  ∧ send server data env = (send_reply env, [Send client data])
  ∧ receive server env
    = (match recv_reply env with Ok got => Ok got | Raise _ => Ok [] end,
       [SetBlocking client false; Recv client 4096]).
Proof.
  intros Hserver. cbv zeta. unfold accept_client.
  cbn [fst snd send receive open_handles client_socket socket option_list app].
  unfold TCP_send, TCP_receive, recv_nonblocking.
  cbn [is_server client_socket socket]. rewrite Hserver.
  by destruct (client_socket a).
Qed.

Lemma server_talks_to_latest_client_witness :
  let a := TCPAttrs (PStr "0.0.0.0") (PInt 8080) (PBool true) (Some 3)
             (Some 4) (Some (ThreadObj 1 true)) in
  closed_by (snd (accept_client TCP (Base true "TCP" []) a 7)) = [4]
  ∧ send (fst (accept_client TCP (Base true "TCP" []) a 7)) [Byte.x68]
      (IOEnv (Ok 1%Z) (Ok 0%Z) (Raise (OSError "timed out")))
    = (Ok 1%Z, [Send 7 [Byte.x68]])
  ∧ receive (fst (accept_client TCP (Base true "TCP" []) a 7))
      (IOEnv (Ok 1%Z) (Ok 0%Z) (Raise (OSError "timed out")))
    = (Ok [], [SetBlocking 7 false; Recv 7 4096]).
Proof.
  cbv zeta.
  destruct (server_talks_to_latest_client TCP (Base true "TCP" [])
              (TCPAttrs (PStr "0.0.0.0") (PInt 8080) (PBool true) (Some 3)
                 (Some 4) (Some (ThreadObj 1 true))) 7 [Byte.x68]
              (IOEnv (Ok 1%Z) (Ok 0%Z) (Raise (OSError "timed out")))
              eq_refl) as (H1 & _ & H2 & H3).
  done.
Defined.

End ServerClients.

Section MissingFile.

Import FileSendThread.



End MissingFile.
